(** * Flat-file import wizard: configuration page and summary page

    A shallow embedding of the two wizard pages [FileConfigPage] and
    [SummaryPage] of the flat-file import extension, with the theorems
    that relate their behaviour to the written specification.

    The pages are asynchronous TypeScript classes.  Their methods are
    embedded as terms of a small free monad ([Task]) whose operations
    are: reading and writing the wizard heap (the page fields and the
    shared import model), issuing a request to the extension host and
    waiting for the reply ([Await]), issuing a request and dropping the
    promise ([Fire]), and starting an asynchronous computation without
    waiting for it ([Fork]).  A cooperative scheduler ([step], [run])
    gives the run-to-completion semantics of the JavaScript job queue; a
    promise that is rejected with no handler attached, be it the promise
    of a forked computation or a dropped one, is recorded as an
    unhandled rejection. *)

From Stdlib Require Import String Ascii ZArith List Lia Bool DecimalString.
Import ListNotations.

Open Scope string_scope.
Open Scope Z_scope.

(* ===================================================================== *)
(** ** The JavaScript values and string primitives the pages use          *)
(* ===================================================================== *)

Module JS.

(** Values found in a connection's [options] bag ([{[name: string]: any}]):
    an absent entry, a string, or an integral number. *)
Inductive JsVal : Type :=
| JUndefined
| JStr (s : string)
| JNum (z : Z).

(** [ToBoolean]: what [v ? a : b] and [!v] test. *)
Definition truthy (v : JsVal) : bool :=
  match v with
  | JUndefined => false
  | JStr s => negb (s =? "")%string
  | JNum z => negb (z =? 0)
  end.

Definition string_of_Z (z : Z) : string := NilZero.string_of_int (Z.to_int z).

(** [ToString]: what a template literal and [+] with a string apply. *)
Definition toStr (v : JsVal) : string :=
  match v with
  | JUndefined => "undefined"
  | JStr s => s
  | JNum z => string_of_Z z
  end.

(** [v === s] for a string literal [s]. *)
Definition strict_eq_str (v : JsVal) (s : string) : bool :=
  match v with
  | JStr t => (t =? s)%string
  | _ => false
  end.

(** Results of [Number(..)]: [NaN] or an integral number (a row count). *)
Inductive JsNumber : Type :=
| NaN
| Num (z : Z).

Definition isNaN (n : JsNumber) : bool :=
  match n with NaN => true | Num _ => false end.

(** [n < 0]; every comparison with [NaN] is false. *)
Definition lt_zero (n : JsNumber) : bool :=
  match n with NaN => false | Num z => z <? 0 end.

Definition number_toStr (n : JsNumber) : string :=
  match n with NaN => "NaN" | Num z => string_of_Z z end.

(** Thrown values: an [Error] object (name and message) or a bare string. *)
Inductive JsError : Type :=
| ErrorObj (name message : string)
| ThrownStr (s : string).

(** [e.toString()]; for an [Error] object this is [Error.prototype.toString]. *)
Definition toString (e : JsError) : string :=
  match e with
  | ErrorObj n m =>
      if (n =? "")%string then m
      else if (m =? "")%string then n
      else n ++ ": " ++ m
  | ThrownStr s => s
  end.

(** The error raised by a property access on [undefined]. *)
Definition TypeError (prop : string) : JsError :=
  ErrorObj "TypeError" ("Cannot read property '" ++ prop ++ "' of undefined").

Definition strlen (s : string) : Z := Z.of_nat (String.length s).

Definition clamp (n len : Z) : Z := Z.max 0 (Z.min n len).

(** [s.substring(a, b)]: both indices are clamped to [0 .. s.length] and
    swapped when [a > b]. *)
Definition substring (s : string) (a b : Z) : string :=
  let a' := clamp a (strlen s) in
  let b' := clamp b (strlen s) in
  let lo := Z.min a' b' in
  let hi := Z.max a' b' in
  String.substring (Z.to_nat lo) (Z.to_nat (hi - lo)) s.

(** [s.lastIndexOf(c)] for a one-character search string: the scan keeps
    the last index at which [c] was seen, starting from [-1]. *)
Fixpoint lastIndexOf_from (c : ascii) (s : string) (i acc : Z) : Z :=
  match s with
  | EmptyString => acc
  | String d r => lastIndexOf_from c r (i + 1) (if Ascii.eqb d c then i else acc)
  end.

Definition lastIndexOf (s : string) (c : ascii) : Z := lastIndexOf_from c s 0 (-1).

(** [arr.indexOf(x)] on an array of strings. *)
Fixpoint indexOf_from (x : string) (arr : list string) (i : Z) : Z :=
  match arr with
  | [] => -1
  | y :: rest => if (y =? x)%string then i else indexOf_from x rest (i + 1)
  end.

Definition indexOf (arr : list string) (x : string) : Z := indexOf_from x arr 0.

(** [s.includes(sub)]. *)
Fixpoint includes (s sub : string) : bool :=
  String.prefix sub s ||
  match s with
  | EmptyString => false
  | String _ r => includes r sub
  end.

(** [sub] occurs in [s]. *)
Definition Contains (sub s : string) : Prop :=
  exists pre post, s = pre ++ sub ++ post.

(** The character [c] occurs in [s]. *)
Fixpoint has_char (c : ascii) (s : string) : bool :=
  match s with
  | EmptyString => false
  | String d r => Ascii.eqb d c || has_char c r
  end.

End JS.

Import JS.

(* ===================================================================== *)
(** ** Data model                                                         *)
(* ===================================================================== *)

(** The fields of [connection.options] that the pages read. *)
Record ConnectionOptions : Type := {
  opt_server : JsVal;
  opt_port : JsVal;
  opt_user : JsVal;
  opt_authenticationType : JsVal;
  opt_databaseDisplayName : JsVal
}.

Record Connection : Type := {
  connectionId : string;
  providerName : string;
  options : ConnectionOptions
}.

Record Credentials : Type := { password : string }.

(** A column descriptor of [proseColumns]. *)
Record ColumnInfo : Type := {
  columnName : string;
  dataType : string;
  nullable : bool;
  primaryKey : bool
}.

(** [ImportDataModel]; [server] is [undefined] until a connection is chosen. *)
Record ImportDataModel : Type := {
  model_server : option Connection;
  model_database : string;
  model_schema : string;
  model_table : string;
  model_filePath : string;
  proseColumns : list ColumnInfo
}.

Record CategoryValue : Type := { cv_name : string; cv_displayName : string }.

Record ConnectionDropdownValue : Type := {
  cdv_connection : Connection;
  cdv_displayName : string;
  cdv_name : string
}.

(** A drop-down widget: the offered [values] and the selected [value]. *)
Record DropDown (V : Type) : Type := {
  dd_values : list V;
  dd_value : option V
}.
Arguments dd_values {V} _.
Arguments dd_value {V} _.

Record DbCellValue : Type := { displayValue : string; isNull : bool }.

Record SimpleExecuteResult : Type := { rows : list (list DbCellValue) }.

Record Uri : Type := { fsPath : string; path : string }.

Record ChangeColumnSettingsParams : Type := {
  index : nat;
  newName : string;
  newDataType : string;
  newNullable : bool;
  newInPrimaryKey : bool
}.

Record InsertDataParams : Type := { connectionString : string; batchSize : Z }.

Record InsertDataResult : Type := { success : bool; errorMessage : string }.
Record InsertDataResponse : Type := { result : InsertDataResult }.

(** Fields of the configuration page. *)
Record FileConfigState : Type := {
  fc_server : option Connection;
  serverDropdown : DropDown ConnectionDropdownValue;
  databaseDropdown : DropDown CategoryValue;
  schemaDropdown : DropDown CategoryValue;
  fileTextBox : string;
  tableNameTextBox : string;
  tableNames : list string
}.

(** Fields of the summary page.  [count_results] is the cell of the local
    variable [results] of [getCountRowsInserted], which the callback given
    to [then] captures. *)
Record SummaryState : Type := {
  tableData : list (string * string);
  statusText : option string;
  loading : bool;
  count_results : option SimpleExecuteResult
}.

(** The wizard heap: the model shared by reference, the two pages, and the
    one flag of the wizard instance that the summary page drives. *)
Record Heap : Type := {
  model : ImportDataModel;
  config : FileConfigState;
  summary : SummaryState;
  importAnotherFileVisible : bool
}.

Definition set_model (f : ImportDataModel -> ImportDataModel) (h : Heap) : Heap :=
  {| model := f (model h); config := config h; summary := summary h;
     importAnotherFileVisible := importAnotherFileVisible h |}.

Definition set_config (f : FileConfigState -> FileConfigState) (h : Heap) : Heap :=
  {| model := model h; config := f (config h); summary := summary h;
     importAnotherFileVisible := importAnotherFileVisible h |}.

Definition set_summary (f : SummaryState -> SummaryState) (h : Heap) : Heap :=
  {| model := model h; config := config h; summary := f (summary h);
     importAnotherFileVisible := importAnotherFileVisible h |}.

Definition set_importAnotherFileVisible (b : bool) (h : Heap) : Heap :=
  {| model := model h; config := config h; summary := summary h;
     importAnotherFileVisible := b |}.

Definition with_model_server (c : option Connection) (m : ImportDataModel) :=
  {| model_server := c; model_database := model_database m;
     model_schema := model_schema m; model_table := model_table m;
     model_filePath := model_filePath m; proseColumns := proseColumns m |}.

Definition with_model_database (d : string) (m : ImportDataModel) :=
  {| model_server := model_server m; model_database := d;
     model_schema := model_schema m; model_table := model_table m;
     model_filePath := model_filePath m; proseColumns := proseColumns m |}.

Definition with_model_schema (s : string) (m : ImportDataModel) :=
  {| model_server := model_server m; model_database := model_database m;
     model_schema := s; model_table := model_table m;
     model_filePath := model_filePath m; proseColumns := proseColumns m |}.

Definition with_model_table (t : string) (m : ImportDataModel) :=
  {| model_server := model_server m; model_database := model_database m;
     model_schema := model_schema m; model_table := t;
     model_filePath := model_filePath m; proseColumns := proseColumns m |}.

Definition with_model_filePath (p : string) (m : ImportDataModel) :=
  {| model_server := model_server m; model_database := model_database m;
     model_schema := model_schema m; model_table := model_table m;
     model_filePath := p; proseColumns := proseColumns m |}.

Definition with_fc_server (c : option Connection) (s : FileConfigState) :=
  {| fc_server := c; serverDropdown := serverDropdown s;
     databaseDropdown := databaseDropdown s; schemaDropdown := schemaDropdown s;
     fileTextBox := fileTextBox s; tableNameTextBox := tableNameTextBox s;
     tableNames := tableNames s |}.

Definition with_serverDropdown (d : DropDown ConnectionDropdownValue) (s : FileConfigState) :=
  {| fc_server := fc_server s; serverDropdown := d;
     databaseDropdown := databaseDropdown s; schemaDropdown := schemaDropdown s;
     fileTextBox := fileTextBox s; tableNameTextBox := tableNameTextBox s;
     tableNames := tableNames s |}.

Definition with_databaseDropdown (d : DropDown CategoryValue) (s : FileConfigState) :=
  {| fc_server := fc_server s; serverDropdown := serverDropdown s;
     databaseDropdown := d; schemaDropdown := schemaDropdown s;
     fileTextBox := fileTextBox s; tableNameTextBox := tableNameTextBox s;
     tableNames := tableNames s |}.

Definition with_schemaDropdown (d : DropDown CategoryValue) (s : FileConfigState) :=
  {| fc_server := fc_server s; serverDropdown := serverDropdown s;
     databaseDropdown := databaseDropdown s; schemaDropdown := d;
     fileTextBox := fileTextBox s; tableNameTextBox := tableNameTextBox s;
     tableNames := tableNames s |}.

Definition with_fileTextBox (v : string) (s : FileConfigState) :=
  {| fc_server := fc_server s; serverDropdown := serverDropdown s;
     databaseDropdown := databaseDropdown s; schemaDropdown := schemaDropdown s;
     fileTextBox := v; tableNameTextBox := tableNameTextBox s;
     tableNames := tableNames s |}.

Definition with_tableNameTextBox (v : string) (s : FileConfigState) :=
  {| fc_server := fc_server s; serverDropdown := serverDropdown s;
     databaseDropdown := databaseDropdown s; schemaDropdown := schemaDropdown s;
     fileTextBox := fileTextBox s; tableNameTextBox := v;
     tableNames := tableNames s |}.

Definition with_tableNames (l : list string) (s : FileConfigState) :=
  {| fc_server := fc_server s; serverDropdown := serverDropdown s;
     databaseDropdown := databaseDropdown s; schemaDropdown := schemaDropdown s;
     fileTextBox := fileTextBox s; tableNameTextBox := tableNameTextBox s;
     tableNames := l |}.

(** [dropdown.updateProperties({values: vs})]: only the listed property changes. *)
Definition updateValues {V : Type} (vs : list V) (d : DropDown V) : DropDown V :=
  {| dd_values := vs; dd_value := dd_value d |}.

Definition with_tableData (d : list (string * string)) (s : SummaryState) :=
  {| tableData := d; statusText := statusText s; loading := loading s;
     count_results := count_results s |}.

Definition with_statusText (t : option string) (s : SummaryState) :=
  {| tableData := tableData s; statusText := t; loading := loading s;
     count_results := count_results s |}.

Definition with_loading (b : bool) (s : SummaryState) :=
  {| tableData := tableData s; statusText := statusText s; loading := b;
     count_results := count_results s |}.

Definition with_count_results (r : option SimpleExecuteResult) (s : SummaryState) :=
  {| tableData := tableData s; statusText := statusText s; loading := loading s;
     count_results := r |}.

(* ===================================================================== *)
(** ** Requests to the extension host, and asynchronous tasks             *)
(* ===================================================================== *)

(** Every promise-returning entry point of the host that the pages call:
    the connection host, the query provider (obtained by provider name),
    the flat-file import service and the file dialog. *)
Inductive Call : Type :=
| GetActiveConnections
| ListDatabases (connection_id : string)
| GetUriForConnection (connection_id : string)
| GetCredentials (connection_id : string)
| RunQueryAndReturn (provider ownerUri query : string)
| SendChangeColumnSettingsRequest (p : ChangeColumnSettingsParams)
| SendInsertDataRequest (p : InsertDataParams)
| ShowOpenDialog.

(** The type of the value a request's promise is fulfilled with.
    [getActiveConnections] and [showOpenDialog] may yield [undefined]. *)
Definition Reply (c : Call) : Type :=
  match c with
  | GetActiveConnections => option (list Connection)
  | ListDatabases _ => list string
  | GetUriForConnection _ => string
  | GetCredentials _ => Credentials
  | RunQueryAndReturn _ _ _ => SimpleExecuteResult
  | SendChangeColumnSettingsRequest _ => unit
  | SendInsertDataRequest _ => InsertDataResponse
  | ShowOpenDialog => option (list Uri)
  end.

(** A settled promise. *)
Inductive Settled (A : Type) : Type :=
| Fulfilled (a : A)
| Rejected (e : JsError).
Arguments Fulfilled {A} a.
Arguments Rejected {A} e.

(** Asynchronous computations over the wizard heap. *)
Inductive Task (A : Type) : Type :=
| Ret (a : A)
| Throw (e : JsError)
| Get (k : Heap -> Task A)
| Put (h : Heap) (k : Task A)
| Await (c : Call) (k : Settled (Reply c) -> Task A)
| Fire (c : Call) (k : Task A)
| Fork (t : Task unit) (k : Task A).
Arguments Ret {A} a.
Arguments Throw {A} e.
Arguments Get {A} k.
Arguments Put {A} h k.
Arguments Await {A} c k.
Arguments Fire {A} c k.
Arguments Fork {A} t k.

(** Sequencing: [await t] on the promise of an [async] function of this
    program, and [t.then(f)].  A rejection skips [f]. *)
Fixpoint bind {A B : Type} (t : Task A) (f : A -> Task B) : Task B :=
  match t with
  | Ret a => f a
  | Throw e => Throw e
  | Get k => Get (fun h => bind (k h) f)
  | Put h k => Put h (bind k f)
  | Await c k => Await c (fun r => bind (k r) f)
  | Fire c k => Fire c (bind k f)
  | Fork t' k => Fork t' (bind k f)
  end.

(** [try { body } catch (e) { handler e }].  A rejection of a forked
    computation is not caught: it belongs to another promise. *)
Fixpoint try_catch {A : Type} (body : Task A) (handler : JsError -> Task A) : Task A :=
  match body with
  | Ret a => Ret a
  | Throw e => handler e
  | Get k => Get (fun h => try_catch (k h) handler)
  | Put h k => Put h (try_catch k handler)
  | Await c k => Await c (fun r => try_catch (k r) handler)
  | Fire c k => Fire c (try_catch k handler)
  | Fork t' k => Fork t' (try_catch k handler)
  end.

Declare Scope task_scope.
Delimit Scope task_scope with task.
Notation "x <- t ;; k" := (bind t (fun x => k))
  (at level 61, t at next level, right associativity) : task_scope.
Notation "t ;;; k" := (bind t (fun _ => k))
  (at level 61, right associativity) : task_scope.
Open Scope task_scope.

Definition modify (f : Heap -> Heap) : Task unit :=
  Get (fun h => Put (f h) (Ret tt)).

(** [await c]: the value of the promise, or its rejection rethrown. *)
Definition await (c : Call) : Task (Reply c) :=
  Await c (fun r => match r with Fulfilled v => Ret v | Rejected e => Throw e end).

(** Calling an [async] function and dropping its promise. *)
Definition spawn {A : Type} (t : Task A) (k : Task unit) : Task unit :=
  Fork (t ;;; Ret tt) k.

(** The receiver of a method call.  A method passed as a bare function
    value ([promise.then(this.m)]) runs with [this === undefined]. *)
Inductive Receiver : Type :=
| ThisPage
| ThisUndefined.

(** Reading [this.<prop>]. *)
Definition self {A : Type} (this : Receiver) (prop : string) (k : Heap -> Task A) : Task A :=
  match this with
  | ThisPage => Get k
  | ThisUndefined => Throw (TypeError prop)
  end.

(* --------------------------------------------------------------------- *)
(** *** The job queue                                                     *)

(** What is pending on a request: the entry point itself, a forked
    computation with the request's sequence number and the continuation
    to run on the reply, or a promise the program has dropped, with the
    request's sequence number. *)
Inductive Waiter : Type :=
| MainWaits
| ForkWaits (n : nat) (c : Call) (k : Settled (Reply c) -> Task unit)
| PromiseDropped (n : nat) (c : Call).

(** What is observable of a run: the heap, the requests issued so far (in
    order), the parked computations, and the rejections nobody handles. *)
Record World : Type := {
  heap : Heap;
  trace : list Call;
  queue : list Waiter;
  unhandled : list JsError
}.

Definition with_heap (h : Heap) (w : World) : World :=
  {| heap := h; trace := trace w; queue := queue w; unhandled := unhandled w |}.
Definition log (c : Call) (w : World) : World :=
  {| heap := heap w; trace := trace w ++ [c]; queue := queue w; unhandled := unhandled w |}.
Definition with_queue (q : list Waiter) (w : World) : World :=
  {| heap := heap w; trace := trace w; queue := q; unhandled := unhandled w |}.
Definition park (x : Waiter) (w : World) : World :=
  with_queue (queue w ++ [x]) w.
Definition report (e : JsError) (w : World) : World :=
  {| heap := heap w; trace := trace w; queue := queue w; unhandled := unhandled w ++ [e] |}.

Inductive Status (A : Type) : Type :=
| Done (r : Settled A)
| Blocked (n : nat) (c : Call) (k : Settled (Reply c) -> Task A).
Arguments Done {A} r.
Arguments Blocked {A} n c k.

(** Where a forked computation goes once its synchronous part has run. *)
Definition settle_fork (s : Status unit) (w : World) : World :=
  match s with
  | Done (Fulfilled _) => w
  | Done (Rejected e) => report e w
  | Blocked n c k => park (ForkWaits n c k) w
  end.

(** One job: run a computation until it settles or reaches an [Await].
    A forked computation runs its own synchronous part at the fork.  A
    request whose promise is dropped ([Fire]) is issued and stays pending:
    the job goes on, the reply is looked at when it arrives. *)
Fixpoint step {A : Type} (t : Task A) (w : World) : World * Status A :=
  match t with
  | Ret a => (w, Done (Fulfilled a))
  | Throw e => (w, Done (Rejected e))
  | Get k => step (k (heap w)) w
  | Put h k => step k (with_heap h w)
  | Await c k => (log c w, Blocked (List.length (trace w)) c k)
  | Fire c k => step k (park (PromiseDropped (List.length (trace w)) c) (log c w))
  | Fork t' k =>
      let (w1, s) := step t' w in
      step k (settle_fork s w1)
  end.

(** The host: the reply to the [n]-th request of a run. *)
Definition Host : Type := nat -> forall c : Call, Settled (Reply c).

Definition park_main {A : Type} (m : Status A) (w : World) : World :=
  match m with
  | Done _ => w
  | Blocked _ _ _ => park MainWaits w
  end.

(** The reply to a request whose promise was dropped: no code of the
    program runs; a rejection has no handler and is reported. *)
Definition settle_one (host : Host) (n : nat) (c : Call) (w : World) : World :=
  match host n c with
  | Fulfilled _ => w
  | Rejected e => report e w
  end.

(** Settling the dropped promises at the head of the queue [q] of [w]. *)
Fixpoint settle_dropped (host : Host) (q : list Waiter) (w : World) : World :=
  match q with
  | PromiseDropped n c :: q' => settle_dropped host q' (with_queue q' (settle_one host n c w))
  | _ => w
  end.

(** The event loop: replies arrive in the order of the requests, each
    resuming the computation parked on it for one job; the reply to a
    dropped promise resumes nothing (and takes no job).  The run ends
    when nothing is pending. *)
Fixpoint run {A : Type} (fuel : nat) (host : Host) (main : Status A) (w : World)
  : option (World * Settled A) :=
  match fuel with
  | O => None
  | S fuel' =>
      let w := settle_dropped host (queue w) w in
      match queue w with
      | [] =>
          match main with
          | Done r => Some (w, r)
          | Blocked _ _ _ => None
          end
      | MainWaits :: q =>
          match main with
          | Done _ => run fuel' host main (with_queue q w)
          | Blocked n c k =>
              let (w', m') := step (k (host n c)) (with_queue q w) in
              run fuel' host m' (park_main m' w')
          end
      | ForkWaits n c k :: q =>
          let (w', s) := step (k (host n c)) (with_queue q w) in
          run fuel' host main (settle_fork s w')
      | PromiseDropped n c :: q =>
          (* no dropped promise is left at the head by [settle_dropped] *)
          run fuel' host main (with_queue q (settle_one host n c w))
      end
  end.

(** Running an entry point from a given world until the queue is empty. *)
Definition exec {A : Type} (fuel : nat) (host : Host) (t : Task A) (w : World)
  : option (World * Settled A) :=
  let (w', m) := step t w in
  run fuel host m (park_main m w').

(** A world in which nothing has happened yet. *)
Definition fresh (h : Heap) : World :=
  {| heap := h; trace := []; queue := []; unhandled := [] |}.

(** [arr.map(callback)] for a callback that may throw and that keeps a
    flag [first], true on its first invocation only. *)
Fixpoint map_task {A B : Type} (f : bool -> A -> Task B) (first : bool) (arr : list A)
  : Task (list B) :=
  match arr with
  | [] => Ret []
  | x :: rest =>
      y <- f first x ;;
      ys <- map_task f false rest ;;
      Ret (y :: ys)
  end.

(** [arr.forEach((val, i) => callback)] from index [i] on. *)
Fixpoint forEach_from {A : Type} (f : A -> nat -> Task unit) (arr : list A) (i : nat)
  : Task unit :=
  match arr with
  | [] => Ret tt
  | x :: rest => f x i ;;; forEach_from f rest (S i)
  end.

(* ===================================================================== *)
(** ** The configuration page                                             *)
(* ===================================================================== *)

Module FileConfigPage.

(** The entry of the server drop-down made for a connection. *)
Definition connectionDisplay (c : Connection) : ConnectionDropdownValue :=
  let db := opt_databaseDisplayName (options c) in
  let usr := opt_user (options c) in
  let srv := opt_server (options c) in
  let db := if truthy db then db else JStr "<default>" in
  let usr := if truthy usr then usr else JStr "default" in
  {| cdv_connection := c;
     cdv_displayName := toStr srv ++ ", " ++ toStr db ++ " (" ++ toStr usr ++ ")";
     cdv_name := connectionId c |}.

(** [populateServerDropdown] from the reply of [getActiveConnections] on. *)
Definition populateServerDropdown_from (this : Receiver)
    (cons : option (list Connection)) : Task unit :=
  match cons with
  | None => Ret tt
  | Some [] => Ret tt
  | Some ((c0 :: _) as cs) =>
      self this "server" (fun _ =>
        modify (set_config (with_fc_server (Some c0))) ;;;
        modify (fun h => set_model (with_model_server (fc_server (config h))) h) ;;;
        modify (set_config (fun s =>
          with_serverDropdown
            (updateValues (map connectionDisplay cs) (serverDropdown s)) s)))
  end.

Definition populateServerDropdown (this : Receiver) : Task unit :=
  cons <- await GetActiveConnections ;;
  populateServerDropdown_from this cons.

Definition populateDatabaseDropdown (this : Receiver) : Task bool :=
  self this "databaseDropdown" (fun _ =>
    modify (set_config (fun s =>
      with_databaseDropdown (updateValues [] (databaseDropdown s)) s)) ;;;
    modify (set_config (fun s =>
      with_schemaDropdown (updateValues [] (schemaDropdown s)) s)) ;;;
    Get (fun h =>
      match fc_server (config h) with
      | None => Ret false
      | Some srv =>
          dbs <- await (ListDatabases (connectionId srv)) ;;
          val <- map_task (fun first db =>
                   (if first then modify (set_model (with_model_database db))
                    else Ret tt) ;;;
                   Ret {| cv_name := db; cv_displayName := db |}) true dbs ;;
          modify (set_config (fun s =>
            with_databaseDropdown (updateValues val (databaseDropdown s)) s)) ;;;
          Ret true
      end)).

Definition schemas_query : string := "SELECT name FROM sys.schemas".

(** [row[0].displayValue] *)
Definition firstDisplayValue (row : list DbCellValue) : Task string :=
  match row with
  | [] => Throw (TypeError "displayValue")
  | cell :: _ => Ret (displayValue cell)
  end.

(** The callback that [populateSchemaDropdown] maps over the result rows:
    the first row's schema becomes [model.schema]. *)
Definition schemaEntry (first : bool) (row : list DbCellValue) : Task CategoryValue :=
  schemaName <- firstDisplayValue row ;;
  (if first then modify (set_model (with_model_schema schemaName)) else Ret tt) ;;;
  val <- firstDisplayValue row ;;
  Ret {| cv_name := val; cv_displayName := val |}.

Definition populateSchemaDropdown (this : Receiver) : Task bool :=
  self this "server" (fun h =>
    match fc_server (config h) with
    | None => Throw (TypeError "connectionId")
    | Some srv =>
        connectionUri <- await (GetUriForConnection (connectionId srv)) ;;
        Get (fun h1 =>
          match fc_server (config h1) with
          | None => Throw (TypeError "providerName")
          | Some srv1 =>
              results <- await (RunQueryAndReturn (providerName srv1) connectionUri
                                  schemas_query) ;;
              schemas <- map_task schemaEntry true (rows results) ;;
              modify (set_config (fun s =>
                with_schemaDropdown (updateValues schemas (schemaDropdown s)) s)) ;;;
              Ret true
          end)
    end).

Definition tables_query (databaseName : string) : string :=
  "USE " ++ databaseName ++
  "; SELECT TABLE_NAME FROM INFORMATION_SCHEMA.TABLES WHERE TABLE_TYPE = 'BASE TABLE'".

Definition populateTableNames (this : Receiver) : Task bool :=
  self this "databaseDropdown" (fun h =>
    match dd_value (databaseDropdown (config h)) with
    | None => Throw (TypeError "name")
    | Some v =>
        let databaseName := cv_name v in
        if (databaseName =? "")%string || (strlen databaseName =? 0) then
          modify (set_config (with_tableNames [])) ;;; Ret false
        else
          match fc_server (config h) with
          | None => Throw (TypeError "connectionId")
          | Some srv =>
              connectionUri <- await (GetUriForConnection (connectionId srv)) ;;
              Get (fun h1 =>
                match fc_server (config h1) with
                | None => Throw (TypeError "providerName")
                | Some srv1 =>
                    let query := tables_query databaseName in
                    Await (RunQueryAndReturn (providerName srv1) connectionUri query)
                      (fun r =>
                         match r with
                         | Rejected e => Ret false
                         | Fulfilled results =>
                             names <- map_task (fun _ row => firstDisplayValue row)
                                        true (rows results) ;;
                             modify (set_config (with_tableNames names)) ;;;
                             Ret true
                         end)
                end)
          end
    end).

(** The handler registered on the database drop-down.  It is an arrow
    function, so the two methods it calls have the page as receiver;
    neither call is awaited. *)
Definition createDatabaseDropdown_onValueChanged : Task unit :=
  Get (fun h =>
    match dd_value (databaseDropdown (config h)) with
    | None => Throw (TypeError "name")
    | Some v =>
        modify (set_model (with_model_database (cv_name v))) ;;;
        spawn (populateTableNames ThisPage)
          (spawn (populateSchemaDropdown ThisPage) (Ret tt))
    end).

(** The handler registered on the server drop-down. *)
Definition createServerDropdown_onValueChanged : Task unit :=
  Get (fun h =>
    match dd_value (serverDropdown (config h)) with
    | None => Throw (TypeError "connection")
    | Some v =>
        modify (set_config (with_fc_server (Some (cdv_connection v)))) ;;;
        modify (fun h => set_model (with_model_server (fc_server (config h))) h) ;;;
        populateDatabaseDropdown ThisPage ;;;
        populateSchemaDropdown ThisPage ;;;
        Ret tt
    end).

(** The validation function given to the table-name input box, reading
    the cached [tableNames]. *)
Definition validateTableName (names : list string) (value : string) : bool :=
  let tableName := value in
  if (tableName =? "")%string || (strlen tableName =? 0) then false
  else if negb (indexOf names tableName =? -1) then false
  else true.

Definition createTableNameBox_validation (h : Heap) (value : string) : bool :=
  validateTableName (tableNames (config h)) value.

Definition createTableNameBox_onTextChanged (tableName : string) : Task unit :=
  modify (set_model (with_model_table tableName)).

(** The table name the browse handler derives from the URI path. *)
Definition derivedTableName (p : string) : string :=
  let nameStart := lastIndexOf p "/" in
  let nameEnd := lastIndexOf p "." in
  let nameEnd := if nameEnd =? 0 then strlen p else nameEnd in
  substring p (nameStart + 1) nameEnd.

(** The click handler of the browse button.  The call
    [tableNameTextBox.validate()] only refreshes the box's display and its
    result is dropped. *)
Definition createFileBrowser_onDidClick : Task unit :=
  fileUris <- await ShowOpenDialog ;;
  match fileUris with
  | None => Ret tt
  | Some [] => Ret tt
  | Some (fileUri :: _) =>
      modify (set_config (with_fileTextBox (fsPath fileUri))) ;;;
      modify (set_config (with_tableNameTextBox (derivedTableName (path fileUri)))) ;;;
      modify (fun h => set_model (with_model_table (tableNameTextBox (config h))) h) ;;;
      modify (set_model (with_model_filePath (fsPath fileUri)))
  end.

(** [onPageEnter]: the chain is started and its promise dropped.  The
    second and third steps are handed to [then] as bare function values. *)
Definition onPageEnter : Task bool :=
  Fork (populateServerDropdown ThisPage ;;;
        populateDatabaseDropdown ThisUndefined ;;;
        populateSchemaDropdown ThisUndefined ;;;
        Ret tt)
       (Ret true).

Definition onPageLeave : Task bool := Ret true.

End FileConfigPage.

(* ===================================================================== *)
(** ** The summary page                                                   *)
(* ===================================================================== *)

Module SummaryPage.

Section WithNumber.

(** The built-in conversion [Number(..)] of a string. *)
Variable Number : string -> JsNumber.

Definition populateTable : Task unit :=
  Get (fun h =>
    match model_server (model h) with
    | None => Throw (TypeError "providerName")
    | Some srv =>
        modify (set_summary (with_tableData
          [("Server name", providerName srv);
           ("Database name", model_database (model h));
           ("Table name", model_table (model h));
           ("Table schema", model_schema (model h));
           ("File to be imported", model_filePath (model h))]))
    end).

(** [options.server + (options.port ? `,${options.port}` : '')] *)
Definition dataSource (o : ConnectionOptions) : string :=
  toStr (opt_server o) ++ (if truthy (opt_port o) then "," ++ toStr (opt_port o) else "").

Definition getConnectionString : Task string :=
  Get (fun h =>
    match model_server (model h) with
    | None => Throw (TypeError "options")
    | Some srv =>
        let options := options srv in
        if strict_eq_str (opt_authenticationType options) "Integrated" then
          Ret ("Data Source=" ++ dataSource options ++
               ";Initial Catalog=" ++ model_database (model h) ++
               ";Integrated Security=True")
        else
          credentials <- await (GetCredentials (connectionId srv)) ;;
          Get (fun h1 =>
            Ret ("Data Source=" ++ dataSource options ++
                 ";Initial Catalog=" ++ model_database (model h1) ++
                 ";Integrated Security=False;User Id=" ++ toStr (opt_user options) ++
                 ";Password=" ++ password credentials))
    end).

Definition count_query (database table : string) : string :=
  "USE " ++ database ++ "; SELECT COUNT(*) FROM " ++ table.

(** [getCountRowsInserted].  The query's promise is not awaited: the
    callback given to [then] assigns [results] in a later job, and the
    statements after it read [results] in the current one. *)
Definition getCountRowsInserted : Task JsNumber :=
  Get (fun h =>
    match model_server (model h) with
    | None => Throw (TypeError "providerName")
    | Some srv =>
        let queryProvider := providerName srv in
        modify (set_summary (with_count_results None)) ;;;
        try_catch
          (Get (fun h1 =>
             match model_server (model h1) with
             | None => Throw (TypeError "connectionId")
             | Some srv1 =>
                 let query := count_query (model_database (model h1))
                                          (model_table (model h1)) in
                 Fork (Await (RunQueryAndReturn queryProvider (connectionId srv1) query)
                         (fun r =>
                            match r with
                            | Fulfilled r => modify (set_summary (with_count_results (Some r)))
                            | Rejected e => Throw e
                            end))
                   (Get (fun h2 =>
                      match count_results (summary h2) with
                      | None => Throw (TypeError "rows")
                      | Some results =>
                          match rows results with
                          | [] => Throw (TypeError "0")
                          | row :: _ =>
                              match row with
                              | [] => Ret (Num (-1))
                              | cell :: _ =>
                                  if isNull cell then Ret (Num (-1))
                                  else
                                    let numericCell := Number (displayValue cell) in
                                    if isNaN numericCell then Ret (Num (-1))
                                    else Ret numericCell
                              end
                          end
                      end))
             end))
          (fun e => Ret (Num (-1)))
    end).

Definition columnChangeParams (val : ColumnInfo) (i : nat) : ChangeColumnSettingsParams :=
  {| index := i;
     newName := columnName val;
     newDataType := dataType val;
     newNullable := nullable val;
     newInPrimaryKey := primaryKey val |}.

Definition msg_failure_prefix : string := "✗ ".
Definition msg_success_unknown : string :=
  "✔ Awesome! You have successfully inserted the data into a table.".
Definition msg_success_rows (rows : JsNumber) : string :=
  "✔ Awesome! You have successfully inserted " ++ number_toStr rows ++ " rows.".

(** [handleImport], the import-commit operation.  The promises of the
    column-update requests are pushed into [changeColumnResults], which
    is never read again: they are dropped, and the rejection of any of
    them has no handler. *)
Definition handleImport : Task bool :=
  Get (fun h =>
    forEach_from (fun val i =>
        Fire (SendChangeColumnSettingsRequest (columnChangeParams val i)) (Ret tt))
      (proseColumns (model h)) 0 ;;;
    outcome <- try_catch (A := option InsertDataResponse * JsVal)
        (cs <- getConnectionString ;;
         response <- await (SendInsertDataRequest
                              {| connectionString := cs; batchSize := 500 |}) ;;
         Ret (Some (response : InsertDataResponse), JUndefined))
        (fun e => Ret (None, JStr (toString e))) ;;
    let (response, err) := outcome in
    updateText <-
      match response with
      | None => Ret (msg_failure_prefix ++ toStr err)
      | Some res =>
          if negb (success (result res)) then
            Ret (msg_failure_prefix ++ errorMessage (result res))
          else
            rows <- getCountRowsInserted ;;
            if lt_zero rows then Ret msg_success_unknown
            else Ret (msg_success_rows rows)
      end ;;
    modify (set_summary (with_statusText (Some updateText))) ;;;
    Ret true).

Definition onPageEnter : Task bool :=
  modify (set_summary (with_loading true)) ;;;
  populateTable ;;;
  handleImport ;;;
  modify (set_summary (with_loading false)) ;;;
  modify (set_importAnotherFileVisible true) ;;;
  Ret true.

Definition onPageLeave : Task bool :=
  modify (set_importAnotherFileVisible false) ;;;
  Ret true.

End WithNumber.

End SummaryPage.

#[global] Arguments FileConfigPage.tables_query : simpl never.
#[global] Arguments FileConfigPage.schemas_query : simpl never.
#[global] Arguments SummaryPage.count_query : simpl never.
#[global] Arguments FileConfigPage.schemaEntry : simpl never.
#[global] Arguments FileConfigPage.firstDisplayValue : simpl never.

(** The connection string as the specification documents it:
    [Data Source=<host>[,<port>];Initial Catalog=<database>;Integrated
    Security=<True|False>[;User Id=<user>;Password=<password>]]. *)
Definition documented_connection_string
    (integrated : bool) (host : string) (port : option string)
    (database user pass : string) : string :=
  "Data Source=" ++ host ++
  match port with Some p => "," ++ p | None => "" end ++
  ";Initial Catalog=" ++ database ++
  ";Integrated Security=" ++
  (if integrated then "True"
   else "False" ++ ";User Id=" ++ user ++ ";Password=" ++ pass).

(** The port as the documented shape takes it: present when the option is
    truthy. *)
Definition port_segment (o : ConnectionOptions) : option string :=
  if truthy (opt_port o) then Some (toStr (opt_port o)) else None.

(** The text of a thrown value: [e.message] of an [Error] object, or the
    thrown string itself. *)
Definition error_text (e : JsError) : string :=
  match e with
  | ErrorObj _ m => m
  | ThrownStr s => s
  end.


(** The column-update requests for the descriptors [cols], numbered from
    [i]: one per descriptor, carrying its name, data type, nullability and
    primary-key flag. *)
Fixpoint column_requests (cols : list ColumnInfo) (i : nat) : list Call :=
  match cols with
  | [] => []
  | col :: rest =>
      SendChangeColumnSettingsRequest
        {| index := i; newName := columnName col; newDataType := dataType col;
           newNullable := nullable col; newInPrimaryKey := primaryKey col |}
      :: column_requests rest (S i)
  end.

(** The promises of the column-update requests, which the page drops:
    the request for the first descriptor is the [n]-th of the run. *)
Fixpoint dropped_columns (n : nat) (cols : list ColumnInfo) (i : nat) : list Waiter :=
  match cols with
  | [] => []
  | col :: rest =>
      PromiseDropped n (SendChangeColumnSettingsRequest (SummaryPage.columnChangeParams col i))
      :: dropped_columns (S n) rest (S i)
  end.

(** The errors of the column-update requests the host rejects, in the
    order of the requests. *)
Fixpoint column_rejections (host : Host) (n : nat) (cols : list ColumnInfo) (i : nat)
  : list JsError :=
  match cols with
  | [] => []
  | col :: rest =>
      match host n (SendChangeColumnSettingsRequest (SummaryPage.columnChangeParams col i)) with
      | Fulfilled _ => []
      | Rejected e => [e]
      end ++ column_rejections host (S n) rest (S i)
  end.

(** The world once the column-update requests for [cols] have been sent
    from [w]: the requests are logged and their promises are pending. *)
Definition columns_fired (cols : list ColumnInfo) (i : nat) (w : World) : World :=
  {| heap := heap w;
     trace := trace w ++ column_requests cols i;
     queue := queue w ++ dropped_columns (List.length (trace w)) cols i;
     unhandled := unhandled w |}.

Definition is_column_request (c : Call) : bool :=
  match c with SendChangeColumnSettingsRequest _ => true | _ => false end.

Definition is_insert_request (c : Call) : bool :=
  match c with SendInsertDataRequest _ => true | _ => false end.

(** What [populateServerDropdown] leaves in the heap for a non-empty
    connection list. *)
Definition server_selected (c : Connection) (cs : list Connection) (h : Heap) : Heap :=
  set_config (fun s =>
      with_serverDropdown
        (updateValues (map FileConfigPage.connectionDisplay (c :: cs)) (serverDropdown s)) s)
    (set_model (with_model_server (Some c))
       (set_config (with_fc_server (Some c)) h)).

(** The first cell of every row of a query result; [None] when a row has
    no cell. *)
Fixpoint first_cells (rs : list (list DbCellValue)) : option (list string) :=
  match rs with
  | [] => Some []
  | [] :: _ => None
  | (c :: _) :: rest => option_map (cons (displayValue c)) (first_cells rest)
  end.

(** The first cells of the rows that come before the first row without
    a cell. *)
Fixpoint leading_cells (rs : list (list DbCellValue)) : list string :=
  match rs with
  | (c :: _) :: rest => displayValue c :: leading_cells rest
  | _ => []
  end.

(** The request number of the URI lookup that [populateSchemaDropdown]
    makes in the database handler run from [w]: it comes after the lookup
    of [populateTableNames], which is made for a non-empty name only. *)
Definition schema_lookup_number (v : CategoryValue) (w : World) : nat :=
  if (cv_name v =? "")%string then List.length (trace w)
  else S (List.length (trace w)).

(** The drop-down entry made for a schema or database name. *)
Definition category (n : string) : CategoryValue :=
  {| cv_name := n; cv_displayName := n |}.

(** What the schema rows leave in [model.schema]: the first name, if any. *)
Definition first_schema (names : list string) (h : Heap) : Heap :=
  match names with
  | [] => h
  | n :: _ => set_model (with_model_schema n) h
  end.

(* ===================================================================== *)
(** ** Concrete inputs                                                    *)
(* ===================================================================== *)

Module Examples.

Definition no_dropdown {V : Type} : DropDown V := {| dd_values := []; dd_value := None |}.

Definition blank_config : FileConfigState :=
  {| fc_server := None; serverDropdown := no_dropdown;
     databaseDropdown := no_dropdown; schemaDropdown := no_dropdown;
     fileTextBox := ""; tableNameTextBox := ""; tableNames := [] |}.

Definition blank_summary : SummaryState :=
  {| tableData := []; statusText := None; loading := false; count_results := None |}.

Definition blank_model : ImportDataModel :=
  {| model_server := None; model_database := ""; model_schema := "";
     model_table := ""; model_filePath := ""; proseColumns := [] |}.

Definition heap_of (m : ImportDataModel) (c : FileConfigState) : Heap :=
  {| model := m; config := c; summary := blank_summary;
     importAnotherFileVisible := false |}.

Definition integrated_options : ConnectionOptions :=
  {| opt_server := JStr "srv"; opt_port := JUndefined; opt_user := JUndefined;
     opt_authenticationType := JStr "Integrated";
     opt_databaseDisplayName := JUndefined |}.

Definition login_options : ConnectionOptions :=
  {| opt_server := JStr "srv"; opt_port := JNum 1433; opt_user := JStr "sa";
     opt_authenticationType := JStr "SqlLogin";
     opt_databaseDisplayName := JStr "db1" |}.

Definition c1 : Connection :=
  {| connectionId := "c1"; providerName := "MSSQL"; options := integrated_options |}.

Definition c2 : Connection :=
  {| connectionId := "c2"; providerName := "MSSQL"; options := login_options |}.

Definition column_a : ColumnInfo :=
  {| columnName := "a"; dataType := "int"; nullable := false; primaryKey := false |}.

Definition model_on (c : Connection) (database table : string) : ImportDataModel :=
  {| model_server := Some c; model_database := database; model_schema := "dbo";
     model_table := table; model_filePath := "/tmp/a.csv";
     proseColumns := [column_a] |}.

Definition cell (s : string) : DbCellValue := {| displayValue := s; isNull := false |}.

Definition one_column (names : list string) : SimpleExecuteResult :=
  {| rows := map (fun n => [cell n]) names |}.

Definition insert_ok : InsertDataResponse :=
  {| result := {| success := true; errorMessage := "" |} |}.

Definition insert_failed (msg : string) : InsertDataResponse :=
  {| result := {| success := false; errorMessage := msg |} |}.

(** A host on which every request succeeds: one connection [c1] with the
    database [db1], every query answering one row with the cell [cellText],
    and the file dialog answering the file [file]. *)
Definition host_ok (cellText : string) (file : Uri) : Host :=
  fun _ c =>
    match c return Settled (Reply c) with
    | GetActiveConnections => Fulfilled (Some [c1])
    | ListDatabases _ => Fulfilled ["db1"]
    | GetUriForConnection _ => Fulfilled "uri"
    | GetCredentials _ => Fulfilled {| password := "pw" |}
    | RunQueryAndReturn _ _ _ => Fulfilled (one_column [cellText])
    | SendChangeColumnSettingsRequest _ => Fulfilled tt
    | SendInsertDataRequest _ => Fulfilled insert_ok
    | ShowOpenDialog => Fulfilled (Some [file])
    end.

(** The same host, except that the insert-data request is rejected with
    the error [e]. *)
Definition host_insert_throws (e : JsError) : Host :=
  fun n c =>
    match c return Settled (Reply c) with
    | SendInsertDataRequest _ => Rejected e
    | c' => host_ok "1" {| fsPath := ""; path := "" |} n c'
    end.

(** The same host, except that every query answers one null cell. *)
Definition host_null_count : Host :=
  fun n c =>
    match c return Settled (Reply c) with
    | RunQueryAndReturn _ _ _ =>
        Fulfilled {| rows := [[ {| displayValue := "NULL"; isNull := true |} ]] |}
    | c' => host_ok "1" {| fsPath := ""; path := "" |} n c'
    end.

(** The same host, except that every query is rejected. *)
Definition host_queries_fail : Host :=
  fun n c =>
    match c return Settled (Reply c) with
    | RunQueryAndReturn _ _ _ => Rejected (ErrorObj "Error" "connection lost")
    | c' => host_ok "1" {| fsPath := ""; path := "" |} n c'
    end.

(** A host that rejects every column-update request, and the insert-data
    request with the error [e]. *)
Definition host_columns_rejected (e : JsError) : Host :=
  fun n c =>
    match c return Settled (Reply c) with
    | SendChangeColumnSettingsRequest _ => Rejected (ErrorObj "Error" "col")
    | c' => host_insert_throws e n c'
    end.

(** A host on which the table query answers the one table [t1] while the
    schema query is rejected. *)
Definition host_schemas_fail : Host :=
  fun n c =>
    match c return Settled (Reply c) with
    | RunQueryAndReturn _ _ q =>
        if (q =? FileConfigPage.schemas_query)%string
        then Rejected (ErrorObj "Error" "connection lost")
        else Fulfilled (one_column ["t1"])
    | c' => host_ok "1" {| fsPath := ""; path := "" |} n c'
    end.

Definition file_csv : Uri := {| fsPath := "/home/u/data.csv"; path := "/home/u/data.csv" |}.

(** A file whose URI path and file-system path are both [p]. *)
Definition file_at (p : string) : Uri := {| fsPath := p; path := p |}.

Definition heap_c1 : Heap := heap_of (model_on c1 "db1" "t") blank_config.

(** The configuration page after a visit to the database [db1]: the table
    [orders] is cached and the schema list holds [sales]; the user has now
    picked the database [db2]. *)
Definition config_after_db1 : FileConfigState :=
  {| fc_server := Some c1; serverDropdown := no_dropdown;
     databaseDropdown :=
       {| dd_values := [category "db1"; category "db2"];
          dd_value := Some (category "db2") |};
     schemaDropdown := {| dd_values := [category "sales"]; dd_value := None |};
     fileTextBox := ""; tableNameTextBox := ""; tableNames := ["orders"] |}.

Definition heap_after_db1 : Heap := heap_of (model_on c1 "db1" "t") config_after_db1.

(** A model whose database is named [User Id=], on an integrated-auth
    connection. *)
Definition heap_user_id : Heap := heap_of (model_on c1 "User Id=" "t") blank_config.

End Examples.

(* ===================================================================== *)
(** ** Further definitions used to state properties of the pages          *)
(* ===================================================================== *)

(** What the database rows leave in [model.database]: the first name, if
    any. *)
Definition first_database (dbs : list string) (h : Heap) : Heap :=
  match dbs with
  | [] => h
  | db :: _ => set_model (with_model_database db) h
  end.

(** The rows that [populateTable] shows for a model on the connection
    [srv]. *)
Definition summary_rows (srv : Connection) (m : ImportDataModel)
  : list (string * string) :=
  [("Server name", providerName srv);
   ("Database name", model_database m);
   ("Table name", model_table m);
   ("Table schema", model_schema m);
   ("File to be imported", model_filePath m)].

(** A status text that reports a failure. *)
Definition is_failure_text (s : string) : Prop :=
  exists text, s = SummaryPage.msg_failure_prefix ++ text.

Module MoreExamples.

Import Examples.

(** The host [host_ok], except that the credential lookup is rejected. *)
Definition host_no_credentials (e : JsError) : Host :=
  fun n c =>
    match c return Settled (Reply c) with
    | GetCredentials _ => Rejected e
    | c' => host_ok "1" {| fsPath := ""; path := "" |} n c'
    end.

(** The host [host_ok], except that the database list is rejected. *)
Definition host_no_databases (e : JsError) : Host :=
  fun n c =>
    match c return Settled (Reply c) with
    | ListDatabases _ => Rejected e
    | c' => host_ok "1" {| fsPath := ""; path := "" |} n c'
    end.

(** The host [host_ok], except that the file dialog is dismissed. *)
Definition host_dialog_cancelled : Host :=
  fun n c =>
    match c return Settled (Reply c) with
    | ShowOpenDialog => Fulfilled None
    | c' => host_ok "1" {| fsPath := ""; path := "" |} n c'
    end.

(** The host [host_ok], except that the schema query answers a row with a
    cell and then a row without one. *)
Definition host_ragged_schemas : Host :=
  fun n c =>
    match c return Settled (Reply c) with
    | RunQueryAndReturn _ _ _ => Fulfilled {| rows := [[cell "dbo"]; []] |}
    | c' => host_ok "1" {| fsPath := ""; path := "" |} n c'
    end.

(** A model on the credential-based connection [c2]. *)
Definition heap_c2 : Heap := heap_of (model_on c2 "db1" "t") blank_config.

(** A heap in which no connection has been chosen. *)
Definition heap_blank : Heap := heap_of blank_model blank_config.

(** The configuration page with the server [c1] chosen and the server
    drop-down showing it as selected. *)
Definition config_on_c1 : FileConfigState :=
  {| fc_server := Some c1;
     serverDropdown :=
       {| dd_values := [FileConfigPage.connectionDisplay c1];
          dd_value := Some (FileConfigPage.connectionDisplay c1) |};
     databaseDropdown :=
       {| dd_values := [category "old"]; dd_value := Some (category "") |};
     schemaDropdown := {| dd_values := [category "sales"]; dd_value := None |};
     fileTextBox := ""; tableNameTextBox := ""; tableNames := ["orders"] |}.

Definition heap_on_c1 : Heap := heap_of (model_on c1 "db1" "t") config_on_c1.

End MoreExamples.


(* ===================================================================== *)
(** ** Enumerations of the extension-host types                           *)
(* ===================================================================== *)

(** Flags are combined with [|]; [mask] is the combination of a list of
    members of a numeric enumeration with values [value]. *)
Definition mask {E : Type} (value : E -> Z) (l : list E) : Z :=
  fold_right (fun x m => Z.lor (value x) m) 0 l.

Module WeekDays.

Inductive t : Type :=
| sunday | monday | tuesday | wednesday | thursday | friday
| weekDays | saturday | weekEnds | everyDay.

Definition value (d : t) : Z :=
  match d with
  | sunday => 1
  | monday => 2
  | tuesday => 4
  | wednesday => 8
  | thursday => 16
  | friday => 32
  | weekDays => 62
  | saturday => 64
  | weekEnds => 65
  | everyDay => 127
  end.

(** The members that stand for one day. *)
Definition single_day (d : t) : bool :=
  match d with
  | weekDays | weekEnds | everyDay => false
  | _ => true
  end.

End WeekDays.

Module NotifyMethods.

Inductive t : Type := none | notifyEmail | pager | netSend | notifyAll.

Definition value (m : t) : Z :=
  match m with
  | none => 0
  | notifyEmail => 1
  | pager => 2
  | netSend => 4
  | notifyAll => 7
  end.

(** The members that stand for one way of notifying. *)
Definition single_method (m : t) : bool :=
  match m with
  | notifyEmail | pager | netSend => true
  | _ => false
  end.

End NotifyMethods.

Module FrequencyTypes.

Inductive t : Type :=
| Unknown | OneTime | Daily | Weekly | Monthly | MonthlyRelative | AutoStart | OnIdle.

(** [Unknown] has no initialiser and is the first member, so its value is
    0; the others are written [1 << k]. *)
Definition value (f : t) : Z :=
  match f with
  | Unknown => 0
  | OneTime => Z.shiftl 1 1
  | Daily => Z.shiftl 1 2
  | Weekly => Z.shiftl 1 3
  | Monthly => Z.shiftl 1 4
  | MonthlyRelative => Z.shiftl 1 5
  | AutoStart => Z.shiftl 1 6
  | OnIdle => Z.shiftl 1 7
  end.

End FrequencyTypes.

Module SqlThemeIcon.

Record t : Type := { id : string }.

Definition Folder : t := {| id := "Folder" |}.
Definition Root : t := {| id := "root" |}.
Definition Database : t := {| id := "Database" |}.
Definition Server : t := {| id := "Server" |}.
Definition ScalarValuedFunction : t := {| id := "ScalarValuedFunction" |}.
Definition TableValuedFunction : t := {| id := "TableValuedFunction" |}.
Definition AggregateFunction : t := {| id := "AggregateFunction" |}.
Definition FileGroup : t := {| id := "FileGroup" |}.
Definition StoredProcedure : t := {| id := "StoredProcedure" |}.
Definition UserDefinedTableType : t := {| id := "UserDefinedTableType" |}.
Definition View : t := {| id := "View" |}.
Definition Table : t := {| id := "Table" |}.
Definition HistoryTable : t := {| id := "HistoryTable" |}.
Definition ServerLevelLinkedServerLogin : t := {| id := "ServerLevelLinkedServerLogin" |}.
Definition ServerLevelServerAudit : t := {| id := "ServerLevelServerAudit" |}.
Definition ServerLevelCryptographicProvider : t := {| id := "ServerLevelCryptographicProvider" |}.
Definition ServerLevelCredential : t := {| id := "ServerLevelCredential" |}.
Definition ServerLevelServerRole : t := {| id := "ServerLevelServerRole" |}.
Definition ServerLevelLogin : t := {| id := "ServerLevelLogin" |}.
Definition ServerLevelServerAuditSpecification : t := {| id := "ServerLevelServerAuditSpecification" |}.
Definition ServerLevelServerTrigger : t := {| id := "ServerLevelServerTrigger" |}.
Definition ServerLevelLinkedServer : t := {| id := "ServerLevelLinkedServer" |}.
Definition ServerLevelEndpoint : t := {| id := "ServerLevelEndpoint" |}.
Definition Synonym : t := {| id := "Synonym" |}.
Definition DatabaseTrigger : t := {| id := "DatabaseTrigger" |}.
Definition Assembly : t := {| id := "Assembly" |}.
Definition MessageType : t := {| id := "MessageType" |}.
Definition Contract : t := {| id := "Contract" |}.
Definition Queue : t := {| id := "Queue" |}.
Definition Service : t := {| id := "Service" |}.
Definition Route : t := {| id := "Route" |}.
Definition DatabaseAndQueueEventNotification : t := {| id := "DatabaseAndQueueEventNotification" |}.
Definition RemoteServiceBinding : t := {| id := "RemoteServiceBinding" |}.
Definition BrokerPriority : t := {| id := "BrokerPriority" |}.
Definition FullTextCatalog : t := {| id := "FullTextCatalog" |}.
Definition FullTextStopList : t := {| id := "FullTextStopList" |}.
Definition SqlLogFile : t := {| id := "SqlLogFile" |}.
Definition PartitionFunction : t := {| id := "PartitionFunction" |}.
Definition PartitionScheme : t := {| id := "PartitionScheme" |}.
Definition SearchPropertyList : t := {| id := "SearchPropertyList" |}.
Definition User : t := {| id := "User" |}.
Definition Schema : t := {| id := "Schema" |}.
Definition AsymmetricKey : t := {| id := "AsymmetricKey" |}.
Definition Certificate : t := {| id := "Certificate" |}.
Definition SymmetricKey : t := {| id := "SymmetricKey" |}.
Definition DatabaseEncryptionKey : t := {| id := "DatabaseEncryptionKey" |}.
Definition MasterKey : t := {| id := "MasterKey" |}.
Definition DatabaseAuditSpecification : t := {| id := "DatabaseAuditSpecification" |}.
Definition Column : t := {| id := "Column" |}.
Definition Key : t := {| id := "Key" |}.
Definition Constraint : t := {| id := "Constraint" |}.
Definition Trigger : t := {| id := "Trigger" |}.
Definition Index : t := {| id := "Index" |}.
Definition Statistic : t := {| id := "Statistic" |}.
Definition UserDefinedDataType : t := {| id := "UserDefinedDataType" |}.
Definition UserDefinedType : t := {| id := "UserDefinedType" |}.
Definition XmlSchemaCollection : t := {| id := "XmlSchemaCollection" |}.
Definition SystemExactNumeric : t := {| id := "SystemExactNumeric" |}.
Definition SystemApproximateNumeric : t := {| id := "SystemApproximateNumeric" |}.
Definition SystemDateAndTime : t := {| id := "SystemDateAndTime" |}.
Definition SystemCharacterString : t := {| id := "SystemCharacterString" |}.
Definition SystemUnicodeCharacterString : t := {| id := "SystemUnicodeCharacterString" |}.
Definition SystemBinaryString : t := {| id := "SystemBinaryString" |}.
Definition SystemOtherDataType : t := {| id := "SystemOtherDataType" |}.
Definition SystemClrDataType : t := {| id := "SystemClrDataType" |}.
Definition SystemSpatialDataType : t := {| id := "SystemSpatialDataType" |}.
Definition UserDefinedTableTypeColumn : t := {| id := "UserDefinedTableTypeColumn" |}.
Definition UserDefinedTableTypeKey : t := {| id := "UserDefinedTableTypeKey" |}.
Definition UserDefinedTableTypeConstraint : t := {| id := "UserDefinedTableTypeConstraint" |}.
Definition StoredProcedureParameter : t := {| id := "StoredProcedureParameter" |}.
Definition TableValuedFunctionParameter : t := {| id := "TableValuedFunctionParameter" |}.
Definition ScalarValuedFunctionParameter : t := {| id := "ScalarValuedFunctionParameter" |}.
Definition AggregateFunctionParameter : t := {| id := "AggregateFunctionParameter" |}.
Definition DatabaseRole : t := {| id := "DatabaseRole" |}.
Definition ApplicationRole : t := {| id := "ApplicationRole" |}.
Definition FileGroupFile : t := {| id := "FileGroupFile" |}.
Definition SystemMessageType : t := {| id := "SystemMessageType" |}.
Definition SystemContract : t := {| id := "SystemContract" |}.
Definition SystemService : t := {| id := "SystemService" |}.
Definition SystemQueue : t := {| id := "SystemQueue" |}.
Definition Sequence : t := {| id := "Sequence" |}.
Definition SecurityPolicy : t := {| id := "SecurityPolicy" |}.
Definition DatabaseScopedCredential : t := {| id := "DatabaseScopedCredential" |}.
Definition ExternalResource : t := {| id := "ExternalResource" |}.
Definition ExternalDataSource : t := {| id := "ExternalDataSource" |}.
Definition ExternalFileFormat : t := {| id := "ExternalFileFormat" |}.
Definition ExternalTable : t := {| id := "ExternalTable" |}.
Definition ColumnMasterKey : t := {| id := "ColumnMasterKey" |}.
Definition ColumnEncryptionKey : t := {| id := "ColumnEncryptionKey" |}.

(** The static members, by name, in the order of their declaration. *)
Definition statics : list (string * t) :=
  [("Folder", Folder);
   ("Root", Root);
   ("Database", Database);
   ("Server", Server);
   ("ScalarValuedFunction", ScalarValuedFunction);
   ("TableValuedFunction", TableValuedFunction);
   ("AggregateFunction", AggregateFunction);
   ("FileGroup", FileGroup);
   ("StoredProcedure", StoredProcedure);
   ("UserDefinedTableType", UserDefinedTableType);
   ("View", View);
   ("Table", Table);
   ("HistoryTable", HistoryTable);
   ("ServerLevelLinkedServerLogin", ServerLevelLinkedServerLogin);
   ("ServerLevelServerAudit", ServerLevelServerAudit);
   ("ServerLevelCryptographicProvider", ServerLevelCryptographicProvider);
   ("ServerLevelCredential", ServerLevelCredential);
   ("ServerLevelServerRole", ServerLevelServerRole);
   ("ServerLevelLogin", ServerLevelLogin);
   ("ServerLevelServerAuditSpecification", ServerLevelServerAuditSpecification);
   ("ServerLevelServerTrigger", ServerLevelServerTrigger);
   ("ServerLevelLinkedServer", ServerLevelLinkedServer);
   ("ServerLevelEndpoint", ServerLevelEndpoint);
   ("Synonym", Synonym);
   ("DatabaseTrigger", DatabaseTrigger);
   ("Assembly", Assembly);
   ("MessageType", MessageType);
   ("Contract", Contract);
   ("Queue", Queue);
   ("Service", Service);
   ("Route", Route);
   ("DatabaseAndQueueEventNotification", DatabaseAndQueueEventNotification);
   ("RemoteServiceBinding", RemoteServiceBinding);
   ("BrokerPriority", BrokerPriority);
   ("FullTextCatalog", FullTextCatalog);
   ("FullTextStopList", FullTextStopList);
   ("SqlLogFile", SqlLogFile);
   ("PartitionFunction", PartitionFunction);
   ("PartitionScheme", PartitionScheme);
   ("SearchPropertyList", SearchPropertyList);
   ("User", User);
   ("Schema", Schema);
   ("AsymmetricKey", AsymmetricKey);
   ("Certificate", Certificate);
   ("SymmetricKey", SymmetricKey);
   ("DatabaseEncryptionKey", DatabaseEncryptionKey);
   ("MasterKey", MasterKey);
   ("DatabaseAuditSpecification", DatabaseAuditSpecification);
   ("Column", Column);
   ("Key", Key);
   ("Constraint", Constraint);
   ("Trigger", Trigger);
   ("Index", Index);
   ("Statistic", Statistic);
   ("UserDefinedDataType", UserDefinedDataType);
   ("UserDefinedType", UserDefinedType);
   ("XmlSchemaCollection", XmlSchemaCollection);
   ("SystemExactNumeric", SystemExactNumeric);
   ("SystemApproximateNumeric", SystemApproximateNumeric);
   ("SystemDateAndTime", SystemDateAndTime);
   ("SystemCharacterString", SystemCharacterString);
   ("SystemUnicodeCharacterString", SystemUnicodeCharacterString);
   ("SystemBinaryString", SystemBinaryString);
   ("SystemOtherDataType", SystemOtherDataType);
   ("SystemClrDataType", SystemClrDataType);
   ("SystemSpatialDataType", SystemSpatialDataType);
   ("UserDefinedTableTypeColumn", UserDefinedTableTypeColumn);
   ("UserDefinedTableTypeKey", UserDefinedTableTypeKey);
   ("UserDefinedTableTypeConstraint", UserDefinedTableTypeConstraint);
   ("StoredProcedureParameter", StoredProcedureParameter);
   ("TableValuedFunctionParameter", TableValuedFunctionParameter);
   ("ScalarValuedFunctionParameter", ScalarValuedFunctionParameter);
   ("AggregateFunctionParameter", AggregateFunctionParameter);
   ("DatabaseRole", DatabaseRole);
   ("ApplicationRole", ApplicationRole);
   ("FileGroupFile", FileGroupFile);
   ("SystemMessageType", SystemMessageType);
   ("SystemContract", SystemContract);
   ("SystemService", SystemService);
   ("SystemQueue", SystemQueue);
   ("Sequence", Sequence);
   ("SecurityPolicy", SecurityPolicy);
   ("DatabaseScopedCredential", DatabaseScopedCredential);
   ("ExternalResource", ExternalResource);
   ("ExternalDataSource", ExternalDataSource);
   ("ExternalFileFormat", ExternalFileFormat);
   ("ExternalTable", ExternalTable);
   ("ColumnMasterKey", ColumnMasterKey);
   ("ColumnEncryptionKey", ColumnEncryptionKey)].

(** The static member whose [id] is [i]. *)
Definition by_id (i : string) : option (string * t) :=
  find (fun p => (id (snd p) =? i)%string) statics.

End SqlThemeIcon.

(** A frequency type other than [Unknown]. *)
Definition known_frequency (f : FrequencyTypes.t) : bool :=
  match f with FrequencyTypes.Unknown => false | _ => true end.

(** The check behind the icon table's lookup: every static member is the
    one found under its own [id], and its [id] is its name, but for [Root]
    whose [id] is [root]. *)
Definition icon_ok (p : string * SqlThemeIcon.t) : bool :=
  match SqlThemeIcon.by_id (SqlThemeIcon.id (snd p)) with
  | Some q =>
      ((fst q =? fst p)%string &&
       (SqlThemeIcon.id (snd q) =? SqlThemeIcon.id (snd p))%string) &&
      ((SqlThemeIcon.id (snd p) =? fst p)%string ||
       ((fst p =? "Root")%string && (SqlThemeIcon.id (snd p) =? "root")%string))
  | None => false
  end.

(* ===================================================================== *)
(** ** Facts about strings                                                *)
(* ===================================================================== *)

Module StrFacts.

Lemma append_assoc (a b c : string) : (a ++ b) ++ c = a ++ (b ++ c).
Proof.
  induction a as [|x a IH]; simpl; [reflexivity | now rewrite IH].
Qed.

Lemma append_empty_r (a : string) : a ++ "" = a.
Proof.
  induction a as [|x a IH]; simpl; [reflexivity | now rewrite IH].
Qed.

Lemma strlen_append (a b : string) : strlen (a ++ b) = strlen a + strlen b.
Proof.
  unfold strlen. induction a as [|x a IH]; simpl String.length.
  - reflexivity.
  - rewrite !Nat2Z.inj_succ. simpl in IH. lia.
Qed.

Lemma strlen_nonneg (a : string) : 0 <= strlen a.
Proof. unfold strlen. lia. Qed.

Lemma has_char_append (c : ascii) (a b : string) :
  has_char c (a ++ b) = has_char c a || has_char c b.
Proof.
  induction a as [|x a IH]; simpl; [reflexivity|].
  rewrite IH. now rewrite orb_assoc.
Qed.

(** Two ways of cutting the same string share a middle piece. *)
Lemma append_eq_append (a b c d : string) :
  a ++ b = c ++ d ->
  exists l, (a = c ++ l /\ d = l ++ b) \/ (c = a ++ l /\ b = l ++ d).
Proof.
  revert c. induction a as [|x a IH]; intros c H; simpl in H.
  - exists c. right. split; [reflexivity | exact H].
  - destruct c as [|y c]; simpl in H.
    + exists (String x a). left. split; [reflexivity | now symmetry].
    + injection H as -> H. destruct (IH _ H) as [l [[-> ->] | [-> ->]]];
        exists l; [left | right]; split; reflexivity.
Qed.

Lemma prefix_iff (a s : string) :
  String.prefix a s = true <-> exists t, s = a ++ t.
Proof.
  revert s. induction a as [|x a IH]; intros s.
  - split; [intros _; now exists s | intros _; now destruct s].
  - destruct s as [|y s]; simpl.
    + split; [discriminate | intros [t H]; discriminate].
    + destruct (ascii_dec x y) as [->|N].
      * rewrite IH. split; intros [t H]; exists t.
        -- now rewrite H.
        -- now injection H.
      * split; [discriminate | intros [t H]; injection H as H' _; congruence].
Qed.

Lemma Contains_here (sub post : string) : Contains sub (sub ++ post).
Proof. now exists "", post. Qed.

Lemma Contains_skip (c : ascii) (sub s : string) :
  Contains sub s -> Contains sub (String c s).
Proof. intros [pre [post ->]]. now exists (String c pre), post. Qed.

Lemma Contains_append_r (a sub s : string) :
  Contains sub s -> Contains sub (a ++ s).
Proof.
  intros [pre [post ->]]. exists (a ++ pre), post. now rewrite append_assoc.
Qed.

Lemma Contains_append_l (a sub s : string) :
  Contains sub s -> Contains sub (s ++ a).
Proof.
  intros [pre [post ->]]. exists pre, (post ++ a).
  now rewrite !append_assoc.
Qed.

Lemma Contains_self (s : string) : Contains s s.
Proof. exists "", "". simpl. now rewrite append_empty_r. Qed.

(** [includes] decides [Contains]. *)
Lemma includes_iff (s sub : string) :
  includes s sub = true <-> Contains sub s.
Proof.
  induction s as [|c s IH]; cbn [includes].
  - rewrite orb_false_r, prefix_iff. split.
    + intros [t ->]. apply Contains_here.
    + intros [pre [post H]]. destruct pre; simpl in H.
      * now exists post.
      * discriminate.
  - rewrite orb_true_iff, prefix_iff, IH. split.
    + intros [[t ->] | H]; [apply Contains_here | now apply Contains_skip].
    + intros [pre [post H]]. destruct pre as [|x pre]; simpl in H.
      * left. now exists post.
      * right. injection H as _ ->. now exists pre, post.
Qed.

Lemma not_includes (s sub : string) :
  includes s sub = false -> ~ Contains sub s.
Proof.
  intros H C. apply includes_iff in C. congruence.
Qed.

(** A character that does not occur in [sub] separates the occurrences of
    [sub]: each lies wholly on one side of it. *)
Lemma Contains_barrier (sub a b : string) (d : ascii) :
  has_char d sub = false ->
  Contains sub (a ++ String d b) ->
  Contains sub a \/ Contains sub b.
Proof.
  intros Hd [pre [post H]].
  destruct (append_eq_append _ _ _ _ H) as [l [[Ha Hs] | [Hp Hb]]].
  - symmetry in Hs.
    destruct (append_eq_append _ _ _ _ Hs) as [m [[Hl Hpost] | [Hsub Hm]]].
    + left. subst a. apply Contains_append_r. rewrite Hl. apply Contains_here.
    + destruct m as [|x m]; simpl in Hm.
      * left. subst a. apply Contains_append_r.
        rewrite append_empty_r in Hsub. subst l. apply Contains_self.
      * injection Hm as <- _. subst sub.
        rewrite has_char_append in Hd. simpl in Hd.
        rewrite Ascii.eqb_refl in Hd. simpl in Hd.
        now rewrite orb_true_r in Hd.
  - destruct l as [|x l]; simpl in Hb.
    + destruct sub as [|y sub]; simpl in Hb.
      * left. exists "", a. reflexivity.
      * injection Hb as <- _. simpl in Hd.
        now rewrite Ascii.eqb_refl in Hd.
    + injection Hb as _ ->. right. now exists l, post.
Qed.

(** An occurrence of [sub] cannot start inside a piece that lacks the
    first character of [sub]. *)
Lemma Contains_after (c : ascii) (r a b : string) :
  has_char c a = false ->
  Contains (String c r) (a ++ b) ->
  Contains (String c r) b.
Proof.
  intros Hc [pre [post H]].
  destruct (append_eq_append _ _ _ _ H) as [l [[Ha Hs] | [Hp Hb]]].
  - destruct l as [|x l]; simpl in Hs.
    + rewrite <- Hs. apply (Contains_here (String c r) post).
    + injection Hs as <- _. subst a.
      rewrite has_char_append in Hc. simpl in Hc.
      rewrite Ascii.eqb_refl in Hc. simpl in Hc.
      now rewrite orb_true_r in Hc.
  - subst b. now exists l, post.
Qed.

End StrFacts.

(* ===================================================================== *)
(** ** Facts about the job queue                                          *)
(* ===================================================================== *)

Module SchedFacts.

(** A run that ends keeps its result when given more fuel. *)
Lemma run_more_fuel {A : Type} (host : Host) (f : nat) :
  forall (f' : nat) (m : Status A) (w : World) (r : World * Settled A),
    run f host m w = Some r -> (f <= f')%nat -> run f' host m w = Some r.
Proof.
  induction f as [|f IH]; intros f' m w r H Hle; [discriminate|].
  destruct f' as [|f']; [lia|].
  simpl in *.
  destruct (queue (settle_dropped host (queue w) w)) as [|[|n c k|n c] q].
  - exact H.
  - destruct m as [r0|n c k].
    + apply IH; [exact H | lia].
    + destruct (step (k (host n c)) _) as [w' m'].
      apply IH; [exact H | lia].
  - destruct (step (k (host n c)) _) as [w' s].
    apply IH; [exact H | lia].
  - apply IH; [exact H | lia].
Qed.

Lemma exec_more_fuel {A : Type} (host : Host) (f f' : nat) (t : Task A)
    (w : World) (r : World * Settled A) :
  exec f host t w = Some r -> (f <= f')%nat -> exec f' host t w = Some r.
Proof.
  unfold exec. destruct (step t w) as [w' m]. apply run_more_fuel.
Qed.

(** The synchronous part of [t ;; f]: that of [t], and then that of [f]
    once [t] has a value. *)
Lemma step_bind {A B : Type} (t : Task A) (f : A -> Task B) :
  forall w : World,
    step (bind t f) w =
    match step t w with
    | (w', Done (Fulfilled a)) => step (f a) w'
    | (w', Done (Rejected e)) => (w', Done (Rejected e))
    | (w', Blocked n c k) => (w', Blocked n c (fun r => bind (k r) f))
    end.
Proof.
  revert f.
  induction t as [A a|A e|A k IH|A h k IH|A c k IH|A c k IH|A t' IH' k IH];
    intros f w; simpl.
  - reflexivity.
  - reflexivity.
  - apply IH.
  - apply IH.
  - reflexivity.
  - apply IH.
  - destruct (step t' w) as [w1 s]. apply IH.
Qed.

End SchedFacts.

(* ===================================================================== *)
(** ** Configuration page: table-name validation                          *)
(* ===================================================================== *)

Module ValidationFacts.

Import FileConfigPage.

(** [indexOf] answers [-1] exactly for the strings the array lacks. *)
Lemma indexOf_from_absent (x : string) (arr : list string) :
  forall i : Z, 0 <= i -> (indexOf_from x arr i = -1 <-> ~ In x arr).
Proof.
  induction arr as [|y arr IH]; intros i Hi; simpl.
  - tauto.
  - destruct (String.eqb_spec y x) as [->|N].
    + split; [lia | intros H; exfalso; apply H; now left].
    + rewrite IH by lia. split.
      * intros H [E|I]; [congruence | tauto].
      * intros H I. apply H. now right.
Qed.

Lemma indexOf_absent (arr : list string) (x : string) :
  indexOf arr x = -1 <-> ~ In x arr.
Proof. apply indexOf_from_absent. lia. Qed.

(** C3.  For every cached table-name set [S] (the page's [tableNames]) and
    every candidate name [n], the validation function of the table-name
    input box accepts [n] if and only if [n] is non-empty and [n] is not a
    member of [S]. *)
Theorem table_name_validation_accepts_iff (h : Heap) (n : string) :
  createTableNameBox_validation h n = true <->
  n <> "" /\ ~ In n (tableNames (config h)).
Proof.
  unfold createTableNameBox_validation, validateTableName.
  destruct (String.eqb_spec n "") as [->|N]; simpl.
  - split; [discriminate | intros [H _]; congruence].
  - assert (L : (strlen n =? 0) = false).
    { apply Z.eqb_neq. unfold strlen. destruct n; [congruence | simpl; lia]. }
    rewrite L.
    destruct (indexOf (tableNames (config h)) n =? -1) eqn:E; simpl.
    + apply Z.eqb_eq, indexOf_absent in E. tauto.
    + apply Z.eqb_neq in E. rewrite indexOf_absent in E.
      split; [discriminate | tauto].
Qed.

(** The scenario of the specification: with the table [orders] cached,
    [orders] is rejected and [orders2] is accepted. *)
Example validation_orders :
  validateTableName ["orders"] "orders" = false /\
  validateTableName ["orders"] "orders2" = true.
Proof. split; reflexivity. Qed.

End ValidationFacts.

(* ===================================================================== *)
(** ** Summary page: the connection string                                *)
(* ===================================================================== *)

Module ConnectionStringFacts.

Import SummaryPage StrFacts SchedFacts.

Lemma with_queue_nil (w : World) : queue w = [] -> with_queue [] w = w.
Proof. destruct w; simpl; now intros ->. Qed.

(** The code's concatenation is the documented shape. *)
Lemma integrated_text (o : ConnectionOptions) (db : string) :
  "Data Source=" ++ dataSource o ++ ";Initial Catalog=" ++ db ++
  ";Integrated Security=True"
  = documented_connection_string true (toStr (opt_server o)) (port_segment o) db "" "".
Proof.
  unfold documented_connection_string, dataSource, port_segment.
  destruct (truthy (opt_port o)); simpl; now rewrite !append_assoc.
Qed.

Lemma credential_text (o : ConnectionOptions) (db pw : string) :
  "Data Source=" ++ dataSource o ++ ";Initial Catalog=" ++ db ++
  ";Integrated Security=False;User Id=" ++ toStr (opt_user o) ++ ";Password=" ++ pw
  = documented_connection_string false (toStr (opt_server o)) (port_segment o) db
      (toStr (opt_user o)) pw.
Proof.
  unfold documented_connection_string, dataSource, port_segment.
  destruct (truthy (opt_port o)); simpl; now rewrite !append_assoc.
Qed.

(** The fixed end of the integrated shape brings no [User Id=]. *)
Lemma catalog_user_id (db : string) :
  Contains "User Id=" ("Initial Catalog=" ++ db ++ ";Integrated Security=" ++ "True") ->
  Contains "User Id=" db.
Proof.
  intros C.
  apply (Contains_after "U" "ser Id=" "Initial Catalog=") in C; [|reflexivity].
  change (Contains "User Id=" (db ++ String ";" "Integrated Security=True")) in C.
  apply Contains_barrier in C; [|reflexivity].
  destruct C as [C|C]; [exact C|].
  apply not_includes in C; [easy | reflexivity].
Qed.

(** In the integrated shape, [User Id=] can only come from the inputs. *)
Lemma integrated_user_id (host : string) (port : option string) (db : string) :
  Contains "User Id=" (documented_connection_string true host port db "" "") ->
  Contains "User Id=" host \/
  (exists p, port = Some p /\ Contains "User Id=" p) \/
  Contains "User Id=" db.
Proof.
  unfold documented_connection_string. intros H.
  apply (Contains_after "U" "ser Id=" "Data Source=") in H; [|reflexivity].
  destruct port as [p|].
  - change (Contains "User Id="
              (host ++ String "," (p ++ String ";"
                 ("Initial Catalog=" ++ db ++ ";Integrated Security=" ++ "True")))) in H.
    apply Contains_barrier in H; [|reflexivity].
    destruct H as [H|H]; [now left|].
    apply Contains_barrier in H; [|reflexivity].
    destruct H as [H|H]; [right; left; now exists p|].
    right; right. now apply catalog_user_id.
  - change (Contains "User Id="
              (host ++ String ";"
                 ("Initial Catalog=" ++ db ++ ";Integrated Security=" ++ "True"))) in H.
    apply Contains_barrier in H; [|reflexivity].
    destruct H as [H|H]; [now left|].
    right; right. now apply catalog_user_id.
Qed.

(** C1, as amended.  With the model's server set, [getConnectionString]
    returns exactly the documented shape
    [Data Source=<host>[,<port>];Initial Catalog=<database>;Integrated Security=True]
    when the authentication type is ['Integrated'], and otherwise exactly
    [Data Source=<host>[,<port>];Initial Catalog=<database>;Integrated
    Security=False;User Id=<user>;Password=<password>] with the password the
    credential lookup resolves to.  The port segment is present iff the port
    option is truthy.  The result is a function of these inputs alone, and
    the integrated string contains [User Id=] only when the host, port or
    database text itself contains it. *)
Theorem getConnectionString_shapes
    (host : Host) (w : World) (srv : Connection) (fuel : nat) :
  queue w = [] ->
  model_server (model (heap w)) = Some srv ->
  (2 <= fuel)%nat ->
  let o := options srv in
  let db := model_database (model (heap w)) in
  (strict_eq_str (opt_authenticationType o) "Integrated" = true ->
     let s := documented_connection_string true
                (toStr (opt_server o)) (port_segment o) db "" "" in
     exec fuel host getConnectionString w = Some (w, Fulfilled s) /\
     (Contains "User Id=" s ->
        Contains "User Id=" (toStr (opt_server o)) \/
        (truthy (opt_port o) = true /\ Contains "User Id=" (toStr (opt_port o))) \/
        Contains "User Id=" db))
  /\
  (strict_eq_str (opt_authenticationType o) "Integrated" = false ->
     forall cred : Credentials,
       host (List.length (trace w)) (GetCredentials (connectionId srv)) = Fulfilled cred ->
       exec fuel host getConnectionString w
       = Some (log (GetCredentials (connectionId srv)) w,
               Fulfilled (documented_connection_string false
                            (toStr (opt_server o)) (port_segment o) db
                            (toStr (opt_user o)) (password cred)))).
Proof.
  intros Hq Hsrv Hfuel o db. split.
  - intros Hauth s. split.
    + apply exec_more_fuel with (f := 1%nat); [|lia].
      unfold exec, getConnectionString. simpl. rewrite Hsrv. fold o.
      rewrite Hauth. simpl. repeat (rewrite Hq; simpl).
      unfold s. now rewrite <- integrated_text.
    + intros C. apply integrated_user_id in C.
      destruct C as [C|[[p [E C]]|C]]; [now left | right; left | now right; right].
      unfold port_segment in E. destruct (truthy (opt_port o)); [|discriminate].
      injection E as <-. now split.
  - intros Hauth cred Hcred.
    apply exec_more_fuel with (f := 2%nat); [|lia].
    rewrite <- credential_text.
    unfold exec, getConnectionString. simpl. rewrite Hsrv. fold o.
    rewrite Hauth. simpl. repeat (rewrite Hq; simpl). rewrite Hcred. simpl.
    do 2 f_equal. destruct w; simpl in *; now subst.
Qed.

Lemma getConnectionString_shapes_witness :
  exec 2 (Examples.host_ok "1" Examples.file_csv) getConnectionString
    (fresh (Examples.heap_of (Examples.model_on Examples.c2 "db1" "t")
                             Examples.blank_config))
  = Some (log (GetCredentials "c2")
            (fresh (Examples.heap_of (Examples.model_on Examples.c2 "db1" "t")
                                     Examples.blank_config)),
          Fulfilled
            "Data Source=srv,1433;Initial Catalog=db1;Integrated Security=False;User Id=sa;Password=pw").
Proof.
  destruct (getConnectionString_shapes
              (Examples.host_ok "1" Examples.file_csv)
              (fresh (Examples.heap_of (Examples.model_on Examples.c2 "db1" "t")
                                       Examples.blank_config))
              Examples.c2 2 eq_refl eq_refl (le_n 2)) as [_ H].
  exact (H eq_refl {| password := "pw" |} eq_refl).
Defined.

(** C1 as stated fails: on an integrated-auth connection whose database
    is named [User Id=], the returned string contains [User Id=]. *)
Lemma getConnectionString_user_id_counterexample :
  exec 1 (Examples.host_ok "1" Examples.file_csv) getConnectionString
    (fresh Examples.heap_user_id)
  = Some (fresh Examples.heap_user_id,
          Fulfilled "Data Source=srv;Initial Catalog=User Id=;Integrated Security=True")
  /\ Contains "User Id="
       "Data Source=srv;Initial Catalog=User Id=;Integrated Security=True".
Proof.
  split; [reflexivity|]. apply includes_iff. reflexivity.
Qed.

End ConnectionStringFacts.

(* ===================================================================== *)
(** ** Summary page: the import-commit operation                          *)
(* ===================================================================== *)

Module ImportFacts.

Import SummaryPage StrFacts SchedFacts.

(** The [forEach] loop sends one request per descriptor and keeps none of
    the promises. *)
Lemma step_column_changes (cols : list ColumnInfo) :
  forall (i : nat) (w : World),
    step (forEach_from
            (fun val i => Fire (SendChangeColumnSettingsRequest (columnChangeParams val i))
                            (Ret tt)) cols i) w
    = (columns_fired cols i w, Done (Fulfilled tt)).
Proof.
  induction cols as [|col cols IH]; intros i w; simpl.
  - destruct w; unfold columns_fired; simpl. now rewrite !app_nil_r.
  - rewrite IH. unfold columns_fired. simpl.
    rewrite length_app, Nat.add_1_r, <- !app_assoc. reflexivity.
Qed.

(** Once their replies have come, the dropped promises of the column
    requests leave the rejections among them unhandled, and nothing
    else. *)
Lemma settle_columns (host : Host) (cols : list ColumnInfo) :
  forall (i n : nat) (h : Heap) (tr : list Call) (q : list Waiter) (un : list JsError),
    match q with PromiseDropped _ _ :: _ => False | _ => True end ->
    settle_dropped host (dropped_columns n cols i ++ q)
      {| heap := h; trace := tr; queue := dropped_columns n cols i ++ q; unhandled := un |}
    = {| heap := h; trace := tr; queue := q;
         unhandled := un ++ column_rejections host n cols i |}.
Proof.
  induction cols as [|col cols IH]; intros i n h tr q un Hq; simpl.
  - rewrite app_nil_r. destruct q as [|[| |] q]; simpl; try reflexivity. contradiction.
  - unfold settle_one.
    destruct (host n (SendChangeColumnSettingsRequest (columnChangeParams col i)));
      unfold with_queue, report; simpl; rewrite (IH _ _ _ _ _ _ Hq).
    + reflexivity.
    + now rewrite <- app_assoc.
Qed.

Lemma settle_columns_app (host : Host) (cols : list ColumnInfo) (i n : nat)
    (q : list Waiter) (w : World) :
  queue w = (dropped_columns n cols i ++ q)%list ->
  match q with PromiseDropped _ _ :: _ => False | _ => True end ->
  settle_dropped host (dropped_columns n cols i ++ q) w
  = {| heap := heap w; trace := trace w; queue := q;
       unhandled := unhandled w ++ column_rejections host n cols i |}.
Proof.
  destruct w as [h tr q0 un]; simpl; intros -> Hq. now apply settle_columns.
Qed.

Lemma settle_columns_all (host : Host) (cols : list ColumnInfo) (i n : nat) (w : World) :
  queue w = dropped_columns n cols i ->
  settle_dropped host (dropped_columns n cols i) w
  = {| heap := heap w; trace := trace w; queue := [];
       unhandled := unhandled w ++ column_rejections host n cols i |}.
Proof.
  intros H. rewrite <- (app_nil_r (dropped_columns n cols i)) in H |- * at 1.
  now apply settle_columns_app.
Qed.

(** The replies to the column requests arrive before anything the commit
    waits for. *)
Ltac columns_settled :=
  first [ rewrite settle_columns_app by first [reflexivity | exact I]
        | rewrite settle_columns_all by reflexivity ]; simpl.

Ltac columns_settled_in E :=
  first [ rewrite settle_columns_app in E by first [reflexivity | exact I]
        | rewrite settle_columns_all in E by reflexivity ]; simpl in E.

Lemma column_requests_length (cols : list ColumnInfo) :
  forall i, List.length (column_requests cols i) = List.length cols.
Proof. induction cols; intros; simpl; [reflexivity | now rewrite IHcols]. Qed.

Lemma column_requests_only (cols : list ColumnInfo) :
  forall i, forallb is_column_request (column_requests cols i) = true.
Proof. induction cols; intros; simpl; [reflexivity | apply IHcols]. Qed.

(** A world with an empty queue is unchanged by emptying its queue. *)
Lemma world_eq (w1 w2 : World) :
  heap w1 = heap w2 -> trace w1 = trace w2 -> queue w1 = queue w2 ->
  unhandled w1 = unhandled w2 -> w1 = w2.
Proof. destruct w1, w2; simpl; intros; now subst. Qed.

(** The synchronous start of [handleImport]: the column requests go out,
    and the commit proper starts in the world that has them logged and
    pending. *)
Ltac start_import :=
  unfold exec, handleImport; cbn [step];
  rewrite step_bind, step_column_changes.

(** [getCountRowsInserted] answers [-1] in the job that calls it, whatever
    the query will answer: the query is parked and [results] is still
    undefined when it is read. *)
Lemma getCountRowsInserted_minus_one
    (Number : string -> JsNumber) (w : World) (srv : Connection) :
  model_server (model (heap w)) = Some srv ->
  exists w',
    step (getCountRowsInserted Number) w = (w', Done (Fulfilled (Num (-1)))) /\
    trace w' = (trace w ++
                [RunQueryAndReturn (providerName srv) (connectionId srv)
                   (count_query (model_database (model (heap w)))
                                (model_table (model (heap w))))])%list /\
    List.length (queue w') = S (List.length (queue w)) /\
    heap w' = set_summary (with_count_results None) (heap w).
Proof.
  intros Hsrv. unfold getCountRowsInserted. simpl. rewrite Hsrv. simpl.
  rewrite Hsrv. simpl. eexists. split; [reflexivity|]. simpl.
  repeat split. rewrite length_app. simpl. lia.
Qed.

(** The failure text is part of the failure message. *)
Lemma failure_message_contains (text : string) :
  Contains text (msg_failure_prefix ++ text).
Proof. apply Contains_append_r, Contains_self. Qed.

Lemma toString_contains_text (e : JsError) : Contains (error_text e) (toString e).
Proof.
  destruct e as [n m|s]; simpl; [|apply Contains_self].
  destruct (String.eqb_spec n ""); [apply Contains_self|].
  destruct (String.eqb_spec m "") as [->|].
  { exists n, "". simpl. now rewrite append_empty_r. }
  exists (n ++ ": "), "". now rewrite append_empty_r, append_assoc.
Qed.

Lemma Contains_trans (a b c : string) : Contains a b -> Contains b c -> Contains a c.
Proof.
  intros [p1 [q1 ->]] [p2 [q2 ->]]. exists (p2 ++ p1), (q1 ++ q2).
  now rewrite !append_assoc.
Qed.

(** Whatever the row-count query answers, a successful insert ends with
    the count-unknown message: [getCountRowsInserted] reads [results]
    before the reply can have been stored. *)
Lemma handleImport_success_run
    (Number : string -> JsNumber) (host : Host) (w : World) (srv : Connection)
    (resp : InsertDataResponse) :
  queue w = [] ->
  model_server (model (heap w)) = Some srv ->
  (strict_eq_str (opt_authenticationType (options srv)) "Integrated" = true \/
   exists cred, forall n, host n (GetCredentials (connectionId srv)) = Fulfilled cred) ->
  success (result resp) = true ->
  (forall n p, host n (SendInsertDataRequest p) = Fulfilled resp) ->
  exists w',
    exec 4 host (handleImport Number) w = Some (w', Fulfilled true) /\
    statusText (summary (heap w')) = Some msg_success_unknown /\
    model (heap w') = model (heap w) /\
    config (heap w') = config (heap w) /\
    queue w' = [].
Proof.
  intros Hq Hsrv Hconn Hok Hins.
  assert (Hc : strict_eq_str (opt_authenticationType (options srv)) "Integrated" = true \/
               (strict_eq_str (opt_authenticationType (options srv)) "Integrated" = false /\
                exists cred, forall n,
                  host n (GetCredentials (connectionId srv)) = Fulfilled cred)).
  { destruct (strict_eq_str _ _); [now left | right; split; [reflexivity|]].
    destruct Hconn as [H|H]; [discriminate | exact H]. }
  clear Hconn.
  destruct w as [h tr q un]; simpl in Hq, Hsrv; subst q.
  remember (exec 4 host (handleImport Number)
              {| heap := h; trace := tr; queue := []; unhandled := un |})
    as out eqn:E.
  unfold exec, handleImport in E. cbn [step] in E.
  rewrite step_bind, step_column_changes in E. simpl in E.
  rewrite Hsrv in E.
  destruct Hc as [Hauth | [Hauth [cred Hcred]]]; rewrite Hauth in E; simpl in E;
    columns_settled_in E; rewrite ?Hcred in E; simpl in E;
    rewrite Hins in E; simpl in E; rewrite Hok in E; simpl in E;
    rewrite Hsrv in E; simpl in E; rewrite Hsrv in E; simpl in E;
    match type of E with
    | context [host ?n ?c] => destruct (host n c) as [r|err]
    end; simpl in E; rewrite E; eexists; (split; [reflexivity|]);
    simpl; repeat split.
Qed.

(** One failing commit, followed to its end: the run of [handleImport],
    then what is left to show for the remaining conjuncts. *)
Ltac failed_commit Hfuel Hsrv Hauth Hcred Hins Hfail :=
  eexists; split;
  [ apply exec_more_fuel with (f := 4%nat); [|exact Hfuel];
    start_import; simpl; rewrite Hsrv, Hauth; simpl; columns_settled;
    rewrite ?Hcred; simpl; rewrite Hins; simpl; rewrite ?Hfail; simpl;
    reflexivity
  | simpl ].

(** The page's [onPageEnter] around one failing commit. *)
Ltac failed_entry Hfuel Hsrv Hauth Hcred Hins Hfail :=
  eexists; split;
  [ apply exec_more_fuel with (f := 4%nat); [|exact Hfuel];
    unfold exec, onPageEnter, populateTable, handleImport; simpl;
    rewrite Hsrv; simpl; rewrite !step_bind, step_column_changes; simpl;
    rewrite Hsrv, Hauth; simpl; columns_settled;
    rewrite ?Hcred; simpl; rewrite Hins; simpl; rewrite ?Hfail; simpl;
    reflexivity
  | simpl; repeat split ].

(** C4.  When the insert-data request throws, or resolves with an
    unsuccessful result, [handleImport] still resolves with [true]: no
    exception escapes it.  The status text is the failure message, which
    contains the thrown error's text (respectively the result's error
    message), and nothing else in the heap changes: the import model is as
    before.  Nothing is left pending, and the only rejections left
    unhandled are those of column requests, whose promises the page
    drops.  The page stays usable: its [onPageEnter], which runs the
    commit, resolves with [true] with the loading indicator off, the
    failure shown and the wizard told to show its import-another-file
    button (which only [onPageLeave] takes back), and a second run of the
    commit from the state the failed one leaves succeeds as soon as the
    host accepts the insert. *)
Theorem handleImport_failure_reported
    (Number : string -> JsNumber) (host : Host) (w : World) (srv : Connection)
    (fuel : nat) :
  queue w = [] ->
  (4 <= fuel)%nat ->
  model_server (model (heap w)) = Some srv ->
  (strict_eq_str (opt_authenticationType (options srv)) "Integrated" = true \/
   exists cred, forall n, host n (GetCredentials (connectionId srv)) = Fulfilled cred) ->
  (forall e : JsError,
     (forall n p, host n (SendInsertDataRequest p) = Rejected e) ->
     exists w',
       exec fuel host (handleImport Number) w = Some (w', Fulfilled true) /\
       heap w' = set_summary (with_statusText (Some (msg_failure_prefix ++ toString e)))
                   (heap w) /\
       Contains (error_text e) (msg_failure_prefix ++ toString e) /\
       model (heap w') = model (heap w) /\
       queue w' = [] /\
       unhandled w'
       = (unhandled w ++
          column_rejections host (List.length (trace w))
            (proseColumns (model (heap w))) 0)%list /\
       (forall (host2 : Host) (resp2 : InsertDataResponse),
          (strict_eq_str (opt_authenticationType (options srv)) "Integrated" = true \/
           exists cred, forall n,
             host2 n (GetCredentials (connectionId srv)) = Fulfilled cred) ->
          success (result resp2) = true ->
          (forall n p, host2 n (SendInsertDataRequest p) = Fulfilled resp2) ->
          exists w2,
            exec fuel host2 (handleImport Number) w' = Some (w2, Fulfilled true) /\
            statusText (summary (heap w2)) = Some msg_success_unknown) /\
       exists w3,
         exec fuel host (onPageEnter Number) w = Some (w3, Fulfilled true) /\
         statusText (summary (heap w3)) = Some (msg_failure_prefix ++ toString e) /\
         loading (summary (heap w3)) = false /\
         importAnotherFileVisible (heap w3) = true /\
         model (heap w3) = model (heap w))
  /\
  (forall resp : InsertDataResponse,
     success (result resp) = false ->
     (forall n p, host n (SendInsertDataRequest p) = Fulfilled resp) ->
     exists w',
       exec fuel host (handleImport Number) w = Some (w', Fulfilled true) /\
       heap w' = set_summary
                   (with_statusText
                      (Some (msg_failure_prefix ++ errorMessage (result resp))))
                   (heap w) /\
       Contains (errorMessage (result resp))
                (msg_failure_prefix ++ errorMessage (result resp)) /\
       model (heap w') = model (heap w) /\
       queue w' = [] /\
       unhandled w'
       = (unhandled w ++
          column_rejections host (List.length (trace w))
            (proseColumns (model (heap w))) 0)%list /\
       (forall (host2 : Host) (resp2 : InsertDataResponse),
          (strict_eq_str (opt_authenticationType (options srv)) "Integrated" = true \/
           exists cred, forall n,
             host2 n (GetCredentials (connectionId srv)) = Fulfilled cred) ->
          success (result resp2) = true ->
          (forall n p, host2 n (SendInsertDataRequest p) = Fulfilled resp2) ->
          exists w2,
            exec fuel host2 (handleImport Number) w' = Some (w2, Fulfilled true) /\
            statusText (summary (heap w2)) = Some msg_success_unknown) /\
       exists w3,
         exec fuel host (onPageEnter Number) w = Some (w3, Fulfilled true) /\
         statusText (summary (heap w3))
         = Some (msg_failure_prefix ++ errorMessage (result resp)) /\
         loading (summary (heap w3)) = false /\
         importAnotherFileVisible (heap w3) = true /\
         model (heap w3) = model (heap w)).
Proof.
  intros Hq Hfuel Hsrv Hconn.
  assert (Hc : strict_eq_str (opt_authenticationType (options srv)) "Integrated" = true \/
               (strict_eq_str (opt_authenticationType (options srv)) "Integrated" = false /\
                exists cred, forall n,
                  host n (GetCredentials (connectionId srv)) = Fulfilled cred)).
  { destruct (strict_eq_str _ _); [now left | right; split; [reflexivity|]].
    destruct Hconn as [H|H]; [discriminate | exact H]. }
  clear Hconn.
  assert (Retry :
    forall w' : World,
      queue w' = [] -> model (heap w') = model (heap w) ->
      forall (host2 : Host) (resp2 : InsertDataResponse),
        (strict_eq_str (opt_authenticationType (options srv)) "Integrated" = true \/
         exists cred, forall n,
           host2 n (GetCredentials (connectionId srv)) = Fulfilled cred) ->
        success (result resp2) = true ->
        (forall n p, host2 n (SendInsertDataRequest p) = Fulfilled resp2) ->
        exists w2,
          exec fuel host2 (handleImport Number) w' = Some (w2, Fulfilled true) /\
          statusText (summary (heap w2)) = Some msg_success_unknown).
  { intros w' Hq' Hm' host2 resp2 Hconn2 Hok2 Hins2.
    assert (Hsrv' : model_server (model (heap w')) = Some srv) by now rewrite Hm'.
    destruct (handleImport_success_run Number host2 w' srv resp2
                Hq' Hsrv' Hconn2 Hok2 Hins2) as [w2 [E2 [S2 _]]].
    exists w2. split; [|exact S2].
    apply exec_more_fuel with (f := 4%nat); assumption. }
  destruct w as [h tr q un]; simpl in Hq, Hsrv, Retry |- *; subst q.
  split.
  - intros e Hins.
    assert (C : Contains (error_text e) (msg_failure_prefix ++ toString e)).
    { eapply Contains_trans; [apply toString_contains_text|].
      apply failure_message_contains. }
    destruct Hc as [Hauth | [Hauth [cred Hcred]]].
    + failed_commit Hfuel Hsrv Hauth Hauth Hins Hins.
      split; [reflexivity|]. split; [exact C|]. split; [reflexivity|].
      split; [reflexivity|]. split; [reflexivity|].
      split; [apply Retry; reflexivity|].
      failed_entry Hfuel Hsrv Hauth Hauth Hins Hins.
    + failed_commit Hfuel Hsrv Hauth Hcred Hins Hins.
      split; [reflexivity|]. split; [exact C|]. split; [reflexivity|].
      split; [reflexivity|]. split; [reflexivity|].
      split; [apply Retry; reflexivity|].
      failed_entry Hfuel Hsrv Hauth Hcred Hins Hins.
  - intros resp Hfail Hins.
    destruct Hc as [Hauth | [Hauth [cred Hcred]]].
    + failed_commit Hfuel Hsrv Hauth Hauth Hins Hfail.
      split; [reflexivity|]. split; [apply failure_message_contains|].
      split; [reflexivity|]. split; [reflexivity|]. split; [reflexivity|].
      split; [apply Retry; reflexivity|].
      failed_entry Hfuel Hsrv Hauth Hauth Hins Hfail.
    + failed_commit Hfuel Hsrv Hauth Hcred Hins Hfail.
      split; [reflexivity|]. split; [apply failure_message_contains|].
      split; [reflexivity|]. split; [reflexivity|]. split; [reflexivity|].
      split; [apply Retry; reflexivity|].
      failed_entry Hfuel Hsrv Hauth Hcred Hins Hfail.
Qed.

Lemma handleImport_failure_reported_witness :
  exists w',
    exec 4 (Examples.host_columns_rejected (ErrorObj "Error" "timeout"))
      (handleImport (fun _ => NaN)) (fresh Examples.heap_c1)
    = Some (w', Fulfilled true) /\
    statusText (summary (heap w')) = Some (msg_failure_prefix ++ "Error: timeout") /\
    model (heap w') = model Examples.heap_c1 /\
    unhandled w' = [ErrorObj "Error" "col"] /\
    exists w2,
      exec 4 (Examples.host_ok "42" Examples.file_csv) (handleImport (fun _ => NaN)) w'
      = Some (w2, Fulfilled true) /\
      statusText (summary (heap w2)) = Some msg_success_unknown.
Proof.
  destruct (handleImport_failure_reported (fun _ => NaN)
              (Examples.host_columns_rejected (ErrorObj "Error" "timeout"))
              (fresh Examples.heap_c1) Examples.c1 4
              eq_refl (le_n 4) eq_refl (or_introl eq_refl)) as [H _].
  destruct (H (ErrorObj "Error" "timeout") (fun _ _ => eq_refl))
    as [w' [E [Hh [_ [Hm [_ [Hu [R _]]]]]]]].
  exists w'. split; [exact E|]. split; [rewrite Hh; reflexivity|].
  split; [exact Hm|]. split; [exact Hu|].
  exact (R (Examples.host_ok "42" Examples.file_csv) Examples.insert_ok
           (or_introl eq_refl) eq_refl (fun _ _ => eq_refl)).
Defined.

(** C6 at a concrete input.  One column, the insert succeeds and the
    row-count query is rejected: the status text is the success message
    without a count and [handleImport] resolves with [true], but the
    query's rejection reaches no handler (the query is not awaited inside
    the [try], and its [then] has no rejection callback): it is left as an
    unhandled rejection.  With a null cell for an answer, the same run
    leaves nothing unhandled. *)
Theorem handleImport_count_query_rejection_unhandled (Number : string -> JsNumber) :
  (exists w',
     exec 4 Examples.host_queries_fail (handleImport Number)
       (fresh Examples.heap_c1) = Some (w', Fulfilled true) /\
     statusText (summary (heap w')) = Some msg_success_unknown /\
     unhandled w' = [ErrorObj "Error" "connection lost"])
  /\
  (exists w',
     exec 4 Examples.host_null_count (handleImport Number)
       (fresh Examples.heap_c1) = Some (w', Fulfilled true) /\
     statusText (summary (heap w')) = Some msg_success_unknown /\
     unhandled w' = []).
Proof.
  split; (eexists; split; [reflexivity|]; simpl; split; reflexivity).
Qed.

(** C5 at a concrete input.  One column, the insert succeeds and the count
    query answers the cell [42]: the status text is the message without a
    count, which does not contain [42]; the reply is stored in [results]
    only after [handleImport] has finished. *)
Theorem handleImport_count_42_unreported (Number : string -> JsNumber) :
  exists w',
    exec 4 (Examples.host_ok "42" Examples.file_csv) (handleImport Number)
      (fresh Examples.heap_c1) = Some (w', Fulfilled true) /\
    statusText (summary (heap w')) = Some msg_success_unknown /\
    ~ Contains "42" msg_success_unknown /\
    count_results (summary (heap w')) = Some (Examples.one_column ["42"]).
Proof.
  eexists. split; [reflexivity|]. simpl. repeat split.
  apply not_includes. reflexivity.
Qed.

(** The requests for the descriptors carry the descriptors' fields, in
    order. *)
Lemma column_requests_nth (cols : list ColumnInfo) :
  forall (k i : nat) (col : ColumnInfo),
    nth_error cols i = Some col ->
    nth_error (column_requests cols k) i
    = Some (SendChangeColumnSettingsRequest
              {| index := k + i; newName := columnName col;
                 newDataType := dataType col; newNullable := nullable col;
                 newInPrimaryKey := primaryKey col |}).
Proof.
  induction cols as [|c cols IH]; intros k [|i] col H; simpl in *; try discriminate.
  - injection H as ->. now rewrite Nat.add_0_r.
  - rewrite (IH (S k) i col H). do 3 f_equal. lia.
Qed.

(** Every run of [handleImport] with fuel 4: it resolves with [true], and
    its requests are the column requests followed by requests of other
    kinds, among them at most one insert-data request. *)
Lemma handleImport_trace
    (Number : string -> JsNumber) (host : Host) (w : World) :
  queue w = [] ->
  exists w' rest,
    exec 4 host (handleImport Number) w = Some (w', Fulfilled true) /\
    trace w' = (trace w ++ column_requests (proseColumns (model (heap w))) 0 ++ rest)%list /\
    forallb (fun c => negb (is_column_request c)) rest = true /\
    (List.length (filter is_insert_request rest) <= 1)%nat /\
    (forall srv,
       model_server (model (heap w)) = Some srv ->
       (strict_eq_str (opt_authenticationType (options srv)) "Integrated" = true \/
        exists cred, forall n,
          host n (GetCredentials (connectionId srv)) = Fulfilled cred) ->
       List.length (filter is_insert_request rest) = 1%nat).
Proof.
  intros Hq.
  destruct w as [h tr q un]; simpl in Hq |- *; subst q.
  remember (exec 4 host (handleImport Number)
              {| heap := h; trace := tr; queue := []; unhandled := un |})
    as out eqn:E.
  unfold exec, handleImport in E. cbn [step] in E.
  rewrite step_bind, step_column_changes in E. simpl in E.
  destruct (model_server (model h)) as [srv|] eqn:Hsrv; simpl in E.
  2: { columns_settled_in E.
       rewrite E. eexists. exists []. split; [reflexivity|]. simpl.
       rewrite app_nil_r. repeat split; [lia | discriminate]. }
  destruct (strict_eq_str (opt_authenticationType (options srv)) "Integrated")
    eqn:Hauth; simpl in E; columns_settled_in E.
  - match type of E with context [host ?n ?c] => destruct (host n c) as [resp|e] end;
      simpl in E.
    + destruct (success (result resp)); simpl in E.
      * repeat (rewrite Hsrv in E; simpl in E).
        match type of E with context [host ?n ?c] => destruct (host n c) as [r|e] end;
          simpl in E; rewrite E; eexists; eexists;
          (split; [reflexivity|]); simpl; rewrite <- !app_assoc;
          (split; [reflexivity|]); simpl; repeat split; lia.
      * rewrite E; eexists; eexists; (split; [reflexivity|]); simpl;
          rewrite <- !app_assoc; (split; [reflexivity|]); simpl; repeat split; lia.
    + rewrite E; eexists; eexists; (split; [reflexivity|]); simpl;
        rewrite <- !app_assoc; (split; [reflexivity|]); simpl; repeat split; lia.
  - match type of E with context [host ?n ?c] => destruct (host n c) as [cred|e] eqn:Hcred end;
      simpl in E.
    + match type of E with context [host ?n ?c] => destruct (host n c) as [resp|e] end;
        simpl in E.
      * destruct (success (result resp)); simpl in E.
        -- repeat (rewrite Hsrv in E; simpl in E).
           match type of E with context [host ?n ?c] => destruct (host n c) as [r|e] end;
             simpl in E; rewrite E; eexists; eexists;
             (split; [reflexivity|]); simpl; rewrite <- !app_assoc;
             (split; [reflexivity|]); simpl; repeat split; lia.
        -- rewrite E; eexists; eexists; (split; [reflexivity|]); simpl;
             rewrite <- !app_assoc; (split; [reflexivity|]); simpl; repeat split; lia.
      * rewrite E; eexists; eexists; (split; [reflexivity|]); simpl;
          rewrite <- !app_assoc; (split; [reflexivity|]); simpl; repeat split; lia.
    + rewrite E; eexists; eexists; (split; [reflexivity|]); simpl;
        rewrite <- !app_assoc; (split; [reflexivity|]); simpl.
      repeat split; [lia|].
      intros srv' Hs' [Hi | [cred Hc]]; [congruence|].
      injection Hs' as <-. rewrite Hc in Hcred. discriminate.
Qed.

(** C2.  For a model with N entries in [proseColumns], a run of
    [handleImport] sends exactly N column-change-settings requests, the
    i-th carrying the name, data type, nullability and primary-key flag of
    the i-th descriptor, and all of them precede every other request of
    the run, among which there is at most one insert-data request (exactly
    one once the connection string is available). *)
Theorem handleImport_dispatches_columns_first
    (Number : string -> JsNumber) (host : Host) (w : World) (fuel : nat) :
  queue w = [] ->
  (4 <= fuel)%nat ->
  let cols := proseColumns (model (heap w)) in
  exists w' rest,
    exec fuel host (handleImport Number) w = Some (w', Fulfilled true) /\
    trace w' = (trace w ++ column_requests cols 0 ++ rest)%list /\
    List.length (column_requests cols 0) = List.length cols /\
    (forall i col,
       nth_error cols i = Some col ->
       nth_error (column_requests cols 0) i
       = Some (SendChangeColumnSettingsRequest
                 {| index := i; newName := columnName col;
                    newDataType := dataType col; newNullable := nullable col;
                    newInPrimaryKey := primaryKey col |})) /\
    forallb (fun c => negb (is_column_request c)) rest = true /\
    (List.length (filter is_insert_request rest) <= 1)%nat /\
    (forall srv,
       model_server (model (heap w)) = Some srv ->
       (strict_eq_str (opt_authenticationType (options srv)) "Integrated" = true \/
        exists cred, forall n,
          host n (GetCredentials (connectionId srv)) = Fulfilled cred) ->
       List.length (filter is_insert_request rest) = 1%nat).
Proof.
  intros Hq Hfuel cols.
  destruct (handleImport_trace Number host w Hq) as [w' [rest [E [T [NC [LE EX]]]]]].
  exists w', rest. split.
  { apply exec_more_fuel with (f := 4%nat); assumption. }
  split; [exact T|]. split; [apply column_requests_length|].
  split; [|now repeat split].
  intros i col H. exact (column_requests_nth cols 0 i col H).
Qed.

Lemma handleImport_dispatches_columns_first_witness :
  exists w' rest,
    exec 4 (Examples.host_ok "42" Examples.file_csv) (handleImport (fun _ => NaN))
      (fresh Examples.heap_c1) = Some (w', Fulfilled true) /\
    trace w' = (column_requests [Examples.column_a] 0 ++ rest)%list /\
    List.length (filter is_insert_request rest) = 1%nat.
Proof.
  destruct (handleImport_dispatches_columns_first (fun _ => NaN)
              (Examples.host_ok "42" Examples.file_csv) (fresh Examples.heap_c1) 4
              eq_refl (le_n 4)) as [w' [rest [E [T [_ [_ [_ [_ X]]]]]]]].
  exists w', rest. split; [exact E|]. split; [exact T|].
  exact (X Examples.c1 eq_refl (or_introl eq_refl)).
Defined.

End ImportFacts.

(* ===================================================================== *)
(** ** Configuration page: entering the page                              *)
(* ===================================================================== *)

Module EnterFacts.

Import FileConfigPage SchedFacts.

(** The job in which [onPageEnter] is called: it asks for the active
    connections, parks the whole chain on that request, and returns
    [true]. *)
Lemma onPageEnter_first_job (w : World) :
  step onPageEnter w
  = (park (ForkWaits (List.length (trace w)) GetActiveConnections
             (fun r =>
                (cons <- match r with
                         | Fulfilled v => Ret v
                         | Rejected e => Throw e
                         end ;;
                 populateServerDropdown_from ThisPage cons) ;;;
                populateDatabaseDropdown ThisUndefined ;;;
                populateSchemaDropdown ThisUndefined ;;;
                Ret tt))
       (log GetActiveConnections w),
     Done (Fulfilled true)).
Proof. reflexivity. Qed.

(** C7.  When the host returns an empty connection list (or none),
    [onPageEnter] and the chain it starts leave the whole heap, and so
    [model.server], as it was, and issue no request after
    [getActiveConnections].  When the list is non-empty, its first element
    becomes [model.server]. *)
Theorem onPageEnter_connection_list (host : Host) (w : World) (fuel : nat) :
  queue w = [] ->
  (2 <= fuel)%nat ->
  ((host (List.length (trace w)) GetActiveConnections = Fulfilled None \/
    host (List.length (trace w)) GetActiveConnections = Fulfilled (Some [])) ->
   exists w',
     exec fuel host onPageEnter w = Some (w', Fulfilled true) /\
     heap w' = heap w /\
     model_server (model (heap w')) = model_server (model (heap w)) /\
     trace w' = (trace w ++ [GetActiveConnections])%list /\
     queue w' = [])
  /\
  (forall c cs,
     host (List.length (trace w)) GetActiveConnections = Fulfilled (Some (c :: cs)) ->
     exists w',
       exec fuel host onPageEnter w = Some (w', Fulfilled true) /\
       model_server (model (heap w')) = Some c /\
       heap w' = server_selected c cs (heap w)).
Proof.
  intros Hq Hfuel. split.
  - intros Hempty. eexists. split.
    + apply exec_more_fuel with (f := 2%nat); [|exact Hfuel].
      unfold exec. rewrite onPageEnter_first_job. simpl. repeat (rewrite Hq; simpl).
      destruct Hempty as [-> | ->]; simpl; reflexivity.
    + simpl. repeat split.
  - intros c cs Hlist. eexists. split.
    + apply exec_more_fuel with (f := 2%nat); [|exact Hfuel].
      unfold exec. rewrite onPageEnter_first_job. simpl. repeat (rewrite Hq; simpl).
      rewrite Hlist. simpl. reflexivity.
    + simpl. split; reflexivity.
Qed.

Lemma onPageEnter_connection_list_witness :
  exists w',
    exec 2 (Examples.host_ok "dbo" Examples.file_csv) onPageEnter
      (fresh (Examples.heap_of Examples.blank_model Examples.blank_config))
    = Some (w', Fulfilled true) /\
    model_server (model (heap w')) = Some Examples.c1.
Proof.
  destruct (onPageEnter_connection_list
              (Examples.host_ok "dbo" Examples.file_csv)
              (fresh (Examples.heap_of Examples.blank_model Examples.blank_config))
              2 eq_refl (le_n 2)) as [_ H].
  destruct (H Examples.c1 [] eq_refl) as [w' [E [M _]]].
  exists w'. split; [exact E | exact M].
Defined.

(** C10.  [onPageEnter] resolves with [true] in the job that calls it: at
    that point the heap is untouched, the one request issued is
    [getActiveConnections], and what is parked on its reply is the server
    step followed, by promise chaining, by the database step and then the
    schema step.  Every effect of the three steps therefore comes after
    the return, in the order server, database, schema. *)
Theorem onPageEnter_returns_before_population (w : World) :
  exists w1 k,
    step onPageEnter w = (w1, Done (Fulfilled true)) /\
    heap w1 = heap w /\
    trace w1 = (trace w ++ [GetActiveConnections])%list /\
    unhandled w1 = unhandled w /\
    queue w1 = (queue w ++ [ForkWaits (List.length (trace w)) GetActiveConnections k])%list /\
    (forall r,
       k r = ((cons <- match r with
                       | Fulfilled v => Ret v
                       | Rejected e => Throw e
                       end ;;
               populateServerDropdown_from ThisPage cons) ;;;
              populateDatabaseDropdown ThisUndefined ;;;
              populateSchemaDropdown ThisUndefined ;;;
              Ret tt)) /\
    (forall (host : Host) (fuel : nat),
       exec fuel host onPageEnter w = run fuel host (Done (Fulfilled true)) w1).
Proof.
  eexists. eexists. split; [apply onPageEnter_first_job|].
  simpl. repeat split.
Qed.

End EnterFacts.

(* ===================================================================== *)
(** ** Configuration page: the browse button                              *)
(* ===================================================================== *)

Module BrowseFacts.

Import FileConfigPage StrFacts SchedFacts.

Lemma lastIndexOf_from_absent (c : ascii) (s : string) :
  forall i acc, has_char c s = false -> lastIndexOf_from c s i acc = acc.
Proof.
  induction s as [|d s IH]; intros i acc H; simpl in *; [reflexivity|].
  apply orb_false_iff in H as [Hd Hs]. rewrite Hd. now apply IH.
Qed.

(** The scan stops at the last occurrence. *)
Lemma lastIndexOf_from_last (c : ascii) (a b : string) :
  forall i acc,
    has_char c b = false ->
    lastIndexOf_from c (a ++ String c b) i acc = i + strlen a.
Proof.
  induction a as [|d a IH]; intros i acc H; simpl.
  - rewrite Ascii.eqb_refl. rewrite lastIndexOf_from_absent by exact H.
    unfold strlen. simpl. lia.
  - rewrite IH by exact H. unfold strlen. simpl String.length.
    rewrite Nat2Z.inj_succ. lia.
Qed.

Lemma lastIndexOf_last (c : ascii) (a b : string) :
  has_char c b = false -> lastIndexOf (a ++ String c b) c = strlen a.
Proof. intros H. unfold lastIndexOf. now rewrite lastIndexOf_from_last. Qed.

Lemma substring_prefix (b c : string) :
  String.substring 0 (String.length b) (b ++ c) = b.
Proof.
  induction b as [|x b IH]; simpl.
  - now destruct c.
  - now rewrite IH.
Qed.

Lemma substring_skip (a b c : string) :
  String.substring (String.length a) (String.length b) (a ++ b ++ c) = b.
Proof.
  induction a as [|x a IH]; simpl.
  - apply substring_prefix.
  - exact IH.
Qed.

(** [substring] between the two ends of a middle piece is that piece. *)
Lemma substring_middle (a b c : string) :
  substring (a ++ b ++ c) (strlen a) (strlen a + strlen b) = b.
Proof.
  unfold substring, clamp. rewrite !strlen_append.
  pose proof (strlen_nonneg a). pose proof (strlen_nonneg b).
  pose proof (strlen_nonneg c).
  replace (Z.min (Z.max 0 (Z.min (strlen a) (strlen a + (strlen b + strlen c))))
                 (Z.max 0 (Z.min (strlen a + strlen b)
                                 (strlen a + (strlen b + strlen c)))))
    with (strlen a) by lia.
  replace (Z.max (Z.max 0 (Z.min (strlen a) (strlen a + (strlen b + strlen c))))
                 (Z.max 0 (Z.min (strlen a + strlen b)
                                 (strlen a + (strlen b + strlen c)))) - strlen a)
    with (strlen b) by lia.
  unfold strlen. rewrite !Nat2Z.id. apply substring_skip.
Qed.

(** With an extension after the last [/], the derived name is the text
    strictly between the last [/] and the last [.]. *)
Lemma derivedTableName_between (dir name ext : string) :
  has_char "/" name = false ->
  has_char "/" ext = false ->
  has_char "." ext = false ->
  derivedTableName (dir ++ "/" ++ name ++ "." ++ ext) = name.
Proof.
  intros Hn He Hd. unfold derivedTableName.
  assert (S1 : lastIndexOf (dir ++ "/" ++ name ++ "." ++ ext) "/" = strlen dir).
  { change (dir ++ "/" ++ name ++ "." ++ ext)
      with (dir ++ String "/" (name ++ "." ++ ext)).
    apply lastIndexOf_last. rewrite has_char_append. rewrite Hn. simpl. exact He. }
  assert (S2 : lastIndexOf (dir ++ "/" ++ name ++ "." ++ ext) "."
               = strlen dir + 1 + strlen name).
  { replace (dir ++ "/" ++ name ++ "." ++ ext)
      with ((dir ++ "/" ++ name) ++ String "." ext).
    - rewrite lastIndexOf_last by exact Hd. rewrite !strlen_append.
      change (strlen "/") with 1. lia.
    - rewrite !append_assoc. reflexivity. }
  rewrite S1, S2.
  pose proof (strlen_nonneg dir). pose proof (strlen_nonneg name).
  destruct (Z.eqb_spec (strlen dir + 1 + strlen name) 0) as [E|_]; [lia|].
  replace (dir ++ "/" ++ name ++ "." ++ ext)
    with ((dir ++ "/") ++ name ++ ("." ++ ext)) by (now rewrite !append_assoc).
  replace (strlen dir + 1) with (strlen (dir ++ "/"))
    by (rewrite strlen_append; reflexivity).
  apply substring_middle.
Qed.

(** With the last [.] at index 0 the derived name runs to the end of the
    path. *)
Lemma derivedTableName_dot_first (ext : string) :
  has_char "/" ext = false ->
  has_char "." ext = false ->
  derivedTableName ("." ++ ext) = "." ++ ext.
Proof.
  intros Hs Hd. unfold derivedTableName.
  assert (S1 : lastIndexOf ("." ++ ext) "/" = -1).
  { unfold lastIndexOf. apply lastIndexOf_from_absent. simpl. exact Hs. }
  assert (S2 : lastIndexOf ("." ++ ext) "." = 0).
  { change ("." ++ ext) with ("" ++ String "." ext).
    now rewrite lastIndexOf_last. }
  rewrite S1, S2. simpl Z.eqb. cbv iota.
  change (-1 + 1) with (strlen "").
  replace (strlen ("." ++ ext)) with (strlen "" + strlen ("." ++ ext)) by reflexivity.
  pose proof (substring_middle "" ("." ++ ext) "") as M.
  simpl append in M. rewrite append_empty_r in M. exact M.
Qed.

(** The same when a [/] follows that leading [.]: the name runs from
    after the last [/] to the end of the path. *)
Lemma derivedTableName_dot_first_dir (dir name : string) :
  has_char "." dir = false ->
  has_char "." name = false ->
  has_char "/" name = false ->
  derivedTableName ("." ++ dir ++ "/" ++ name) = name.
Proof.
  intros Hd Hn Hs. unfold derivedTableName.
  assert (S1 : lastIndexOf ("." ++ dir ++ "/" ++ name) "/" = strlen ("." ++ dir)).
  { replace ("." ++ dir ++ "/" ++ name) with (("." ++ dir) ++ String "/" name)
      by (now rewrite append_assoc).
    now apply lastIndexOf_last. }
  assert (S2 : lastIndexOf ("." ++ dir ++ "/" ++ name) "." = 0).
  { change ("." ++ dir ++ "/" ++ name) with ("" ++ String "." (dir ++ "/" ++ name)).
    rewrite lastIndexOf_last; [reflexivity|].
    rewrite has_char_append, Hd. simpl. exact Hn. }
  rewrite S1, S2. simpl Z.eqb. cbv iota.
  pose proof (substring_middle ("." ++ dir ++ "/") name "") as M.
  rewrite append_empty_r in M.
  replace (("." ++ dir ++ "/") ++ name) with ("." ++ dir ++ "/" ++ name) in M
    by (now rewrite !append_assoc).
  replace (strlen ("." ++ dir ++ "/")) with (strlen ("." ++ dir) + 1) in M
    by (rewrite <- (append_assoc "." dir "/"), (strlen_append ("." ++ dir) "/");
        reflexivity).
  replace (strlen ("." ++ dir ++ "/" ++ name)) with (strlen ("." ++ dir) + 1 + strlen name).
  - exact M.
  - rewrite <- (append_assoc "." dir ("/" ++ name)),
            (strlen_append ("." ++ dir) ("/" ++ name)),
            (strlen_append "/" name).
    change (strlen "/") with 1. lia.
Qed.

(** C9, as amended.  For every file chosen in the browse dialog,
    [model.filePath] and the file text box are set to the file's
    file-system path, and [model.table] and the table-name text box are
    set to the name derived from the URI path: the text strictly between
    the last [/] and the last [.] when the path has a [.] after its last
    [/]; and, when the last [.] is at index 0, the text from after the last
    [/] (or from the start, if there is none) to the end of the path. *)
Theorem browse_sets_path_and_table
    (host : Host) (w : World) (fuel : nat) (u : Uri) (more : list Uri) :
  queue w = [] ->
  (2 <= fuel)%nat ->
  host (List.length (trace w)) ShowOpenDialog = Fulfilled (Some (u :: more)) ->
  exists w',
    exec fuel host createFileBrowser_onDidClick w = Some (w', Fulfilled tt) /\
    model_filePath (model (heap w')) = fsPath u /\
    fileTextBox (config (heap w')) = fsPath u /\
    model_table (model (heap w')) = derivedTableName (path u) /\
    tableNameTextBox (config (heap w')) = derivedTableName (path u) /\
    (forall dir name ext,
       path u = dir ++ "/" ++ name ++ "." ++ ext ->
       has_char "/" name = false ->
       has_char "/" ext = false ->
       has_char "." ext = false ->
       model_table (model (heap w')) = name) /\
    (forall ext,
       path u = "." ++ ext ->
       has_char "/" ext = false ->
       has_char "." ext = false ->
       model_table (model (heap w')) = path u) /\
    (forall dir name,
       path u = "." ++ dir ++ "/" ++ name ->
       has_char "." dir = false ->
       has_char "." name = false ->
       has_char "/" name = false ->
       model_table (model (heap w')) = name).
Proof.
  intros Hq Hfuel Hdlg. eexists. split.
  - apply exec_more_fuel with (f := 2%nat); [|exact Hfuel].
    unfold exec, createFileBrowser_onDidClick. simpl. repeat (rewrite Hq; simpl).
    rewrite Hdlg. simpl. reflexivity.
  - simpl. repeat split.
    + intros dir name ext -> Hn He Hd. now apply derivedTableName_between.
    + intros ext E Hs Hd. rewrite E. now apply derivedTableName_dot_first.
    + intros dir name E Hd Hn Hs. rewrite E.
      now apply derivedTableName_dot_first_dir.
Qed.

Lemma browse_sets_path_and_table_witness :
  exists w',
    exec 2 (Examples.host_ok "dbo" Examples.file_csv) createFileBrowser_onDidClick
      (fresh Examples.heap_c1) = Some (w', Fulfilled tt) /\
    model_filePath (model (heap w')) = "/home/u/data.csv" /\
    model_table (model (heap w')) = "data".
Proof.
  destruct (browse_sets_path_and_table
              (Examples.host_ok "dbo" Examples.file_csv) (fresh Examples.heap_c1) 2
              Examples.file_csv [] eq_refl (le_n 2) eq_refl)
    as [w' [E [F [_ [_ [_ [B _]]]]]]].
  exists w'. split; [exact E|]. split; [exact F|].
  exact (B "/home/u" "data" "csv" eq_refl eq_refl eq_refl eq_refl).
Defined.

(** C9 as stated fails: the path [/data] contains no [.], and the table
    name derived from it is [/], not the empty string. *)
Lemma browse_no_extension_counterexample :
  has_char "." "/data" = false /\
  derivedTableName "/data" = "/" /\
  exists w',
    exec 2 (Examples.host_ok "dbo" (Examples.file_at "/data"))
      createFileBrowser_onDidClick (fresh Examples.heap_c1)
    = Some (w', Fulfilled tt) /\
    model_table (model (heap w')) = "/" /\
    model_table (model (heap w')) <> "".
Proof.
  split; [reflexivity|]. split; [reflexivity|].
  eexists. split; [reflexivity|]. simpl. split; [reflexivity | discriminate].
Qed.

End BrowseFacts.

(* ===================================================================== *)
(** ** Configuration page: changing the database                          *)
(* ===================================================================== *)

Module DatabaseFacts.

Import FileConfigPage SchedFacts.

(** Mapping [row[0].displayValue] over rows that all have a cell. *)
Lemma step_table_rows (rs : list (list DbCellValue)) :
  forall (names : list string) (b : bool) (w : World),
    first_cells rs = Some names ->
    step (map_task (fun _ row => firstDisplayValue row) b rs) w
    = (w, Done (Fulfilled names)).
Proof.
  induction rs as [|row rs IH]; intros names b w H; simpl in H.
  - injection H as <-. reflexivity.
  - destruct row as [|c row]; [discriminate|].
    destruct (first_cells rs) as [ns|] eqn:E; [|discriminate].
    injection H as <-. cbn [map_task]. rewrite step_bind.
    unfold firstDisplayValue at 1. cbn [step].
    rewrite step_bind, (IH ns false w eq_refl). reflexivity.
Qed.

(** Mapping the schema callback over later rows leaves the heap alone. *)
Lemma step_schema_rows_rest (rs : list (list DbCellValue)) :
  forall (names : list string) (w : World),
    first_cells rs = Some names ->
    step (map_task schemaEntry false rs) w
    = (w, Done (Fulfilled (map category names))).
Proof.
  induction rs as [|row rs IH]; intros names w H; simpl in H.
  - injection H as <-. reflexivity.
  - destruct row as [|c row]; [discriminate|].
    destruct (first_cells rs) as [ns|] eqn:E; [|discriminate].
    injection H as <-. cbn [map_task]. rewrite step_bind.
    unfold schemaEntry at 1, firstDisplayValue. cbn.
    rewrite step_bind, (IH ns w eq_refl). reflexivity.
Qed.

Lemma step_schema_rows (rs : list (list DbCellValue)) (names : list string) (w : World) :
  first_cells rs = Some names ->
  step (map_task schemaEntry true rs) w
  = (with_heap (first_schema names (heap w)) w, Done (Fulfilled (map category names))).
Proof.
  intros H. destruct rs as [|row rs]; simpl in H.
  - injection H as <-. destruct w; reflexivity.
  - destruct row as [|c row]; [discriminate|].
    destruct (first_cells rs) as [ns|] eqn:E; [|discriminate].
    injection H as <-. cbn [map_task]. rewrite step_bind.
    unfold schemaEntry at 1, firstDisplayValue. cbn.
    rewrite step_bind, (step_schema_rows_rest rs ns _ E). reflexivity.
Qed.

(** Mapping [row[0].displayValue] over any rows: a row without a cell
    makes it throw. *)
Lemma step_table_rows_any (rs : list (list DbCellValue)) :
  forall (b : bool) (w : World),
    step (map_task (fun _ row => firstDisplayValue row) b rs) w
    = (w, Done match first_cells rs with
               | Some names => Fulfilled names
               | None => Rejected (TypeError "displayValue")
               end).
Proof.
  induction rs as [|row rs IH]; intros b w; [reflexivity|].
  cbn [map_task]. rewrite step_bind.
  destruct row as [|c row]; [reflexivity|].
  unfold firstDisplayValue at 1. cbn [step].
  rewrite step_bind, (IH false w). simpl.
  destruct (first_cells rs); reflexivity.
Qed.

Lemma step_schema_rows_rest_any (rs : list (list DbCellValue)) :
  forall w : World,
    step (map_task schemaEntry false rs) w
    = (w, Done match first_cells rs with
               | Some names => Fulfilled (map category names)
               | None => Rejected (TypeError "displayValue")
               end).
Proof.
  induction rs as [|row rs IH]; intros w; [reflexivity|].
  cbn [map_task]. rewrite step_bind.
  destruct row as [|c row]; [reflexivity|].
  unfold schemaEntry at 1, firstDisplayValue. cbn.
  rewrite step_bind, (IH w). simpl.
  destruct (first_cells rs); reflexivity.
Qed.

(** Mapping the schema callback over any rows: the first row's schema is
    stored before a later row without a cell makes the callback throw. *)
Lemma step_schema_rows_any (rs : list (list DbCellValue)) (w : World) :
  step (map_task schemaEntry true rs) w
  = (with_heap (first_schema (leading_cells rs) (heap w)) w,
     Done match first_cells rs with
          | Some names => Fulfilled (map category names)
          | None => Rejected (TypeError "displayValue")
          end).
Proof.
  destruct rs as [|row rs]; [destruct w; reflexivity|].
  cbn [map_task]. rewrite step_bind.
  destruct row as [|c row]; [destruct w; reflexivity|].
  unfold schemaEntry at 1, firstDisplayValue. cbn.
  rewrite step_bind, step_schema_rows_rest_any. simpl.
  destruct (first_cells rs); reflexivity.
Qed.

Lemma leading_cells_all (rs : list (list DbCellValue)) :
  forall names, first_cells rs = Some names -> leading_cells rs = names.
Proof.
  induction rs as [|[|c row] rs IH]; intros names H; simpl in H.
  - now injection H.
  - discriminate.
  - destruct (first_cells rs) as [ns|]; [|discriminate].
    injection H as <-. simpl. now rewrite (IH ns eq_refl).
Qed.

Lemma first_schema_database (names : list string) (h : Heap) :
  model_database (model (first_schema names h)) = model_database (model h).
Proof. destruct names; reflexivity. Qed.

Lemma first_schema_config (names : list string) (h : Heap) :
  config (first_schema names h) = config h.
Proof. destruct names; reflexivity. Qed.

Lemma first_schema_schema (names : list string) (h : Heap) :
  model_schema (model (first_schema names h)) = hd (model_schema (model h)) names.
Proof. destruct names; reflexivity. Qed.

Lemma empty_name_test (s : string) :
  ((s =? "")%string || (strlen s =? 0)) = true <-> s = "".
Proof.
  split.
  - intros H. apply orb_true_iff in H. destruct H as [H|H].
    + now apply String.eqb_eq.
    + apply Z.eqb_eq in H. unfold strlen in H. destruct s; [reflexivity|].
      simpl in H. lia.
  - intros ->. reflexivity.
Qed.

(** Following a run of the handler along every answer of the host: the
    run's value is in [E]; each reply met on the way is named, and so is
    the shape of each result's rows. *)
Ltac follow_replies host E :=
  repeat first
    [ match goal with
      | H : dd_value _ = Some _ |- _ => rewrite H in E
      | H : fc_server _ = _ |- _ => rewrite H in E
      | H : orb _ _ = _ |- _ => rewrite H in E
      end
    | rewrite step_bind in E
    | rewrite step_table_rows_any in E
    | rewrite step_schema_rows_any in E
    | progress simpl in E
    | match type of E with
      | context [host ?n ?c] =>
          let H := fresh "Hrep" in destruct (host n c) eqn:H
      end
    | match type of E with
      | context [match first_cells ?rs with _ => _ end] =>
          let H := fresh "Hcells" in destruct (first_cells rs) eqn:H
      end ].

(** Bringing what is assumed of the host together with the replies met
    on a path; a path the assumptions exclude is closed. *)
Ltac agree_with host :=
  repeat match goal with
    | E : context [List.length (_ ++ _)] |- _ =>
        rewrite length_app in E; cbn [List.length] in E; rewrite Nat.add_1_r in E
    end;
  repeat match goal with
    | H : forall n : nat, host n ?c = _, E : host _ ?c = _ |- _ => rewrite H in E
    | H : host ?n ?c = Fulfilled _, E : host ?n ?c = Rejected _ |- _ =>
        rewrite H in E; discriminate E
    | H : host ?n ?c = Fulfilled ?a, E : host ?n ?c = Fulfilled ?b |- _ =>
        assert (a = b) by (rewrite H in E; injection E; trivial); clear E; subst
    | E : Fulfilled _ = Rejected _ |- _ => discriminate E
    | E : Rejected _ = Fulfilled _ |- _ => discriminate E
    | E : Fulfilled ?a = Fulfilled ?b |- _ =>
        assert (a = b) by (injection E; trivial); clear E; subst
    | E : Rejected ?a = Rejected ?b |- _ =>
        assert (a = b) by (injection E; trivial); clear E; subst
    | E : Some ?a = Some ?b |- _ =>
        assert (a = b) by (injection E; trivial); clear E; subst
    | E : Some _ = None |- _ => discriminate E
    | E : None = Some _ |- _ => discriminate E
    | H : first_cells ?rs = Some _, E : first_cells ?rs = _ |- _ => rewrite H in E
    end.

(** The request number of the schema lookup, by the outcome [Hnz] of the
    test for an empty name. *)
Ltac schema_lookup_in Huri Hnz :=
  unfold schema_lookup_number in Huri; cbn [trace] in Huri;
  first [ apply orb_false_iff in Hnz; destruct Hnz as [Hnz _]; rewrite Hnz in Huri
        | apply empty_name_test in Hnz; rewrite Hnz in *; cbn [String.eqb] in Huri ].

(** Every run of the handler with a database selected. *)
Lemma database_change_run
    (host : Host) (w : World) (v : CategoryValue) :
  queue w = [] ->
  dd_value (databaseDropdown (config (heap w))) = Some v ->
  exists w',
    exec 5 host createDatabaseDropdown_onValueChanged w = Some (w', Fulfilled tt) /\
    model_database (model (heap w')) = cv_name v /\
    queue w' = [] /\
    (cv_name v = "" -> tableNames (config (heap w')) = []) /\
    (forall srv uri tables names,
       cv_name v <> "" ->
       fc_server (config (heap w)) = Some srv ->
       host (List.length (trace w)) (GetUriForConnection (connectionId srv))
       = Fulfilled uri ->
       (forall n, host n (RunQueryAndReturn (providerName srv) uri
                            (tables_query (cv_name v))) = Fulfilled tables) ->
       first_cells (rows tables) = Some names ->
       tableNames (config (heap w')) = names) /\
    (forall srv uri schemas snames,
       fc_server (config (heap w)) = Some srv ->
       host (schema_lookup_number v w) (GetUriForConnection (connectionId srv))
       = Fulfilled uri ->
       (forall n, host n (RunQueryAndReturn (providerName srv) uri schemas_query)
                  = Fulfilled schemas) ->
       first_cells (rows schemas) = Some snames ->
       dd_values (schemaDropdown (config (heap w'))) = map category snames /\
       model_schema (model (heap w')) = hd (model_schema (model (heap w))) snames) /\
    (forall srv uri e,
       cv_name v <> "" ->
       fc_server (config (heap w)) = Some srv ->
       host (List.length (trace w)) (GetUriForConnection (connectionId srv))
       = Fulfilled uri ->
       (forall n, host n (RunQueryAndReturn (providerName srv) uri
                            (tables_query (cv_name v))) = Rejected e) ->
       tableNames (config (heap w')) = tableNames (config (heap w))) /\
    (forall srv uri e,
       fc_server (config (heap w)) = Some srv ->
       host (schema_lookup_number v w) (GetUriForConnection (connectionId srv))
       = Fulfilled uri ->
       (forall n, host n (RunQueryAndReturn (providerName srv) uri schemas_query)
                  = Rejected e) ->
       dd_values (schemaDropdown (config (heap w')))
       = dd_values (schemaDropdown (config (heap w))) /\
       model_schema (model (heap w')) = model_schema (model (heap w))).
Proof.
  intros Hq Hv.
  destruct w as [h tr q un]; simpl in Hq, Hv |- *; subst q.
  remember (exec 5 host createDatabaseDropdown_onValueChanged
              {| heap := h; trace := tr; queue := []; unhandled := un |}) as out eqn:E.
  unfold exec, createDatabaseDropdown_onValueChanged in E.
  destruct ((cv_name v =? "")%string || (strlen (cv_name v) =? 0)) eqn:Hnz;
    destruct (fc_server (config h)) as [srv|] eqn:Hsrv.
  all: follow_replies host E.
  all: rewrite E; eexists; (split; [reflexivity|]); simpl.
  all: rewrite ?first_schema_database, ?first_schema_config, ?first_schema_schema.
  all: split; [reflexivity|]; split; [reflexivity|].
  all: split;
    [ intros Hempty; apply empty_name_test in Hempty;
      first [ reflexivity | congruence ] |].
  all: split;
    [ intros srv' uri tables names Hne Hs Huri Htab Hnames;
      try (apply empty_name_test in Hnz; contradiction);
      agree_with host; reflexivity |].
  all: split;
    [ intros srv' uri schemas snames Hs Huri Hsch Hsnames;
      schema_lookup_in Huri Hnz; agree_with host;
      repeat match goal with
        | H : first_cells ?rs = Some ?ns |- context [leading_cells ?rs] =>
            rewrite (leading_cells_all rs ns H)
        end;
      split; reflexivity |].
  all: split;
    [ intros srv' uri e' Hne Hs Huri Htab;
      try (apply empty_name_test in Hnz; contradiction);
      agree_with host; reflexivity |].
  all: intros srv' uri e' Hs Huri Hsch;
    schema_lookup_in Huri Hnz; agree_with host; split; reflexivity.
Qed.

(** C8, as amended.  Whenever the database selection changes,
    [model.database] becomes the selected name, whatever the host answers.
    An empty name empties the cached table names.  For a non-empty name,
    if the table lookup resolves the connection's URI and the table query
    for that database is answered (every row having a cell), the cached
    table names are replaced by the names it returns, whatever becomes of
    the schema lookup and query; if the table query is rejected they stay
    as they were.  Likewise, if the schema lookup resolves the URI and the
    schema query (the same query for every database) is answered, the
    schema list is replaced by its result and the first schema of that
    result, if there is one, becomes [model.schema], whatever becomes of
    the table lookup and query; if the schema query is rejected both stay
    as they were. *)
Theorem database_change_repopulates
    (host : Host) (w : World) (v : CategoryValue) (fuel : nat) :
  queue w = [] ->
  (5 <= fuel)%nat ->
  dd_value (databaseDropdown (config (heap w))) = Some v ->
  exists w',
    exec fuel host createDatabaseDropdown_onValueChanged w = Some (w', Fulfilled tt) /\
    model_database (model (heap w')) = cv_name v /\
    queue w' = [] /\
    (cv_name v = "" -> tableNames (config (heap w')) = []) /\
    (forall srv uri tables names,
       cv_name v <> "" ->
       fc_server (config (heap w)) = Some srv ->
       host (List.length (trace w)) (GetUriForConnection (connectionId srv))
       = Fulfilled uri ->
       (forall n, host n (RunQueryAndReturn (providerName srv) uri
                            (tables_query (cv_name v))) = Fulfilled tables) ->
       first_cells (rows tables) = Some names ->
       tableNames (config (heap w')) = names) /\
    (forall srv uri schemas snames,
       fc_server (config (heap w)) = Some srv ->
       host (schema_lookup_number v w) (GetUriForConnection (connectionId srv))
       = Fulfilled uri ->
       (forall n, host n (RunQueryAndReturn (providerName srv) uri schemas_query)
                  = Fulfilled schemas) ->
       first_cells (rows schemas) = Some snames ->
       dd_values (schemaDropdown (config (heap w'))) = map category snames /\
       model_schema (model (heap w')) = hd (model_schema (model (heap w))) snames) /\
    (forall srv uri e,
       cv_name v <> "" ->
       fc_server (config (heap w)) = Some srv ->
       host (List.length (trace w)) (GetUriForConnection (connectionId srv))
       = Fulfilled uri ->
       (forall n, host n (RunQueryAndReturn (providerName srv) uri
                            (tables_query (cv_name v))) = Rejected e) ->
       tableNames (config (heap w')) = tableNames (config (heap w))) /\
    (forall srv uri e,
       fc_server (config (heap w)) = Some srv ->
       host (schema_lookup_number v w) (GetUriForConnection (connectionId srv))
       = Fulfilled uri ->
       (forall n, host n (RunQueryAndReturn (providerName srv) uri schemas_query)
                  = Rejected e) ->
       dd_values (schemaDropdown (config (heap w')))
       = dd_values (schemaDropdown (config (heap w))) /\
       model_schema (model (heap w')) = model_schema (model (heap w))).
Proof.
  intros Hq Hfuel Hv.
  destruct (database_change_run host w v Hq Hv) as [w' [E R]].
  exists w'. split; [|exact R].
  apply exec_more_fuel with (f := 5%nat); assumption.
Qed.

Lemma database_change_repopulates_witness :
  exists w',
    exec 5 Examples.host_schemas_fail createDatabaseDropdown_onValueChanged
      (fresh Examples.heap_after_db1) = Some (w', Fulfilled tt) /\
    model_database (model (heap w')) = "db2" /\
    tableNames (config (heap w')) = ["t1"] /\
    dd_values (schemaDropdown (config (heap w'))) = [category "sales"].
Proof.
  destruct (database_change_repopulates Examples.host_schemas_fail
              (fresh Examples.heap_after_db1) (category "db2") 5
              eq_refl (le_n 5) eq_refl)
    as [w' [E [D [_ [_ [T [_ [_ S]]]]]]]].
  exists w'. split; [exact E|]. split; [exact D|]. split.
  - exact (T Examples.c1 "uri" (Examples.one_column ["t1"]) ["t1"]
             ltac:(discriminate) eq_refl eq_refl (fun _ => eq_refl) eq_refl).
  - exact (proj1 (S Examples.c1 "uri" (ErrorObj "Error" "connection lost")
                    eq_refl eq_refl (fun _ => eq_refl))).
Defined.

(** C8 as stated fails: the page holds the tables and schemas of [db1],
    the user picks [db2], and both queries are rejected.  [model.database]
    is now [db2], yet the cached table names still hold [orders] and the
    schema list still holds [sales]: neither was cleared. *)
Lemma database_change_stale_counterexample :
  exists w',
    exec 5 Examples.host_queries_fail createDatabaseDropdown_onValueChanged
      (fresh Examples.heap_after_db1) = Some (w', Fulfilled tt) /\
    model_database (model (heap w')) = "db2" /\
    tableNames (config (heap w')) = ["orders"] /\
    dd_values (schemaDropdown (config (heap w'))) = [category "sales"].
Proof.
  eexists. split; [reflexivity|]. simpl. repeat split.
Qed.

End DatabaseFacts.

(* ===================================================================== *)
(** ** Configuration page: the population steps on their own              *)
(* ===================================================================== *)

Module PopulateFacts.

Import FileConfigPage SchedFacts.

(** A [map] whose callback, past its first invocation, yields [g x] and
    leaves the heap alone. *)
Lemma step_map_task_rest {A B : Type} (f : bool -> A -> Task B) (g : A -> B) :
  (forall x w, step (f false x) w = (w, Done (Fulfilled (g x)))) ->
  forall xs w, step (map_task f false xs) w = (w, Done (Fulfilled (map g xs))).
Proof.
  intros Hrest. induction xs as [|x xs IH]; intros w; simpl; [reflexivity|].
  rewrite step_bind, Hrest, step_bind, IH. reflexivity.
Qed.

(** A [map] whose callback yields [g x] and touches the heap on its first
    invocation only. *)
Lemma step_map_task_first {A B : Type}
    (f : bool -> A -> Task B) (g : A -> B) (upd : A -> Heap -> Heap) :
  (forall x w, step (f true x) w = (with_heap (upd x (heap w)) w, Done (Fulfilled (g x)))) ->
  (forall x w, step (f false x) w = (w, Done (Fulfilled (g x)))) ->
  forall xs w,
    step (map_task f true xs) w
    = (with_heap (match xs with [] => heap w | x :: _ => upd x (heap w) end) w,
       Done (Fulfilled (map g xs))).
Proof.
  intros Hfirst Hrest [|x xs] w; simpl.
  - destruct w; reflexivity.
  - rewrite step_bind, Hfirst, step_bind, (step_map_task_rest f g Hrest).
    reflexivity.
Qed.

(** [populateDatabaseDropdown] with a server chosen and the database list
    [dbs] answered: one entry per database, in order, the first one
    becoming [model.database]; the schema list is left empty. *)
Theorem populateDatabaseDropdown_lists_databases
    (host : Host) (w : World) (srv : Connection) (dbs : list string) (fuel : nat) :
  queue w = [] ->
  (2 <= fuel)%nat ->
  fc_server (config (heap w)) = Some srv ->
  host (List.length (trace w)) (ListDatabases (connectionId srv)) = Fulfilled dbs ->
  exists w',
    exec fuel host (populateDatabaseDropdown ThisPage) w = Some (w', Fulfilled true) /\
    dd_values (databaseDropdown (config (heap w'))) = map category dbs /\
    dd_values (schemaDropdown (config (heap w'))) = [] /\
    model_database (model (heap w')) = hd (model_database (model (heap w))) dbs /\
    model_server (model (heap w')) = model_server (model (heap w)) /\
    model_schema (model (heap w')) = model_schema (model (heap w)) /\
    tableNames (config (heap w')) = tableNames (config (heap w)) /\
    trace w' = (trace w ++ [ListDatabases (connectionId srv)])%list.
Proof.
  intros Hq Hfuel Hsrv Hdbs.
  destruct w as [h tr q un]; simpl in Hq, Hsrv, Hdbs; subst q.
  eexists. split.
  - apply exec_more_fuel with (f := 2%nat); [|exact Hfuel].
    unfold exec, populateDatabaseDropdown. simpl. rewrite Hsrv. simpl.
    rewrite Hdbs. simpl.
    rewrite !step_bind.
    rewrite (step_map_task_first _ category
               (fun db => set_model (with_model_database db)));
      [|intros; reflexivity|intros; reflexivity].
    simpl. reflexivity.
  - simpl. destruct dbs; simpl; repeat split.
Qed.

Lemma populateDatabaseDropdown_lists_databases_witness :
  exists w',
    exec 2 (Examples.host_ok "dbo" Examples.file_csv) (populateDatabaseDropdown ThisPage)
      (fresh MoreExamples.heap_on_c1) = Some (w', Fulfilled true) /\
    dd_values (databaseDropdown (config (heap w'))) = [category "db1"] /\
    dd_values (schemaDropdown (config (heap w'))) = [].
Proof.
  destruct (populateDatabaseDropdown_lists_databases
              (Examples.host_ok "dbo" Examples.file_csv)
              (fresh MoreExamples.heap_on_c1) Examples.c1 ["db1"] 2
              eq_refl (le_n 2) eq_refl eq_refl) as [w' [E [D [S _]]]].
  exists w'. split; [exact E|]. split; [exact D | exact S].
Defined.

(** When the database list cannot be had (no server chosen, or
    [listDatabases] rejected) both lists end up empty and the model is
    untouched: without a server the method resolves with [false] and asks
    the host nothing; on a rejection it rejects with the same error. *)
Theorem populateDatabaseDropdown_without_databases
    (host : Host) (w : World) (fuel : nat) :
  queue w = [] ->
  (2 <= fuel)%nat ->
  (fc_server (config (heap w)) = None ->
   exists w',
     exec fuel host (populateDatabaseDropdown ThisPage) w = Some (w', Fulfilled false) /\
     dd_values (databaseDropdown (config (heap w'))) = [] /\
     dd_values (schemaDropdown (config (heap w'))) = [] /\
     model (heap w') = model (heap w) /\
     trace w' = trace w)
  /\
  (forall srv e,
     fc_server (config (heap w)) = Some srv ->
     host (List.length (trace w)) (ListDatabases (connectionId srv)) = Rejected e ->
     exists w',
       exec fuel host (populateDatabaseDropdown ThisPage) w = Some (w', Rejected e) /\
       dd_values (databaseDropdown (config (heap w'))) = [] /\
       dd_values (schemaDropdown (config (heap w'))) = [] /\
       model (heap w') = model (heap w) /\
       trace w' = (trace w ++ [ListDatabases (connectionId srv)])%list).
Proof.
  intros Hq Hfuel.
  destruct w as [h tr q un]; simpl in Hq; subst q. split.
  - simpl. intros Hsrv. eexists. split.
    + apply exec_more_fuel with (f := 2%nat); [|exact Hfuel].
      unfold exec, populateDatabaseDropdown. simpl. rewrite Hsrv. simpl. reflexivity.
    + simpl. repeat split.
  - simpl. intros srv e Hsrv Hrej. eexists. split.
    + apply exec_more_fuel with (f := 2%nat); [|exact Hfuel].
      unfold exec, populateDatabaseDropdown. simpl. rewrite Hsrv. simpl.
      rewrite Hrej. simpl. reflexivity.
    + simpl. repeat split.
Qed.

Lemma populateDatabaseDropdown_without_databases_witness :
  exists w',
    exec 2 (MoreExamples.host_no_databases (ThrownStr "offline"))
      (populateDatabaseDropdown ThisPage) (fresh MoreExamples.heap_on_c1)
    = Some (w', Rejected (ThrownStr "offline")) /\
    dd_values (databaseDropdown (config (heap w'))) = [] /\
    dd_values (schemaDropdown (config (heap w'))) = [].
Proof.
  destruct (populateDatabaseDropdown_without_databases
              (MoreExamples.host_no_databases (ThrownStr "offline"))
              (fresh MoreExamples.heap_on_c1) 2 eq_refl (le_n 2)) as [_ H].
  destruct (H Examples.c1 (ThrownStr "offline") eq_refl eq_refl)
    as [w' [E [D [S _]]]].
  exists w'. split; [exact E|]. split; [exact D | exact S].
Defined.

(** The server drop-down's change handler: the chosen connection becomes
    the page's and the model's server, then the databases are listed, and
    only then the schemas are queried; each list's first element becomes
    the model's default. *)
Theorem server_change_populates_in_order
    (host : Host) (w : World) (v : ConnectionDropdownValue) (dbs : list string)
    (uri : string) (schemas : SimpleExecuteResult) (snames : list string)
    (fuel : nat) :
  queue w = [] ->
  (4 <= fuel)%nat ->
  dd_value (serverDropdown (config (heap w))) = Some v ->
  (forall n, host n (ListDatabases (connectionId (cdv_connection v))) = Fulfilled dbs) ->
  (forall n, host n (GetUriForConnection (connectionId (cdv_connection v)))
             = Fulfilled uri) ->
  (forall n, host n (RunQueryAndReturn (providerName (cdv_connection v)) uri
                       schemas_query) = Fulfilled schemas) ->
  first_cells (rows schemas) = Some snames ->
  exists w',
    exec fuel host createServerDropdown_onValueChanged w = Some (w', Fulfilled tt) /\
    model_server (model (heap w')) = Some (cdv_connection v) /\
    fc_server (config (heap w')) = Some (cdv_connection v) /\
    dd_values (databaseDropdown (config (heap w'))) = map category dbs /\
    dd_values (schemaDropdown (config (heap w'))) = map category snames /\
    model_database (model (heap w')) = hd (model_database (model (heap w))) dbs /\
    model_schema (model (heap w')) = hd (model_schema (model (heap w))) snames /\
    trace w' = (trace w ++
                [ListDatabases (connectionId (cdv_connection v));
                 GetUriForConnection (connectionId (cdv_connection v));
                 RunQueryAndReturn (providerName (cdv_connection v)) uri
                   schemas_query])%list.
Proof.
  intros Hq Hfuel Hv Hdbs Huri Hsch Hsn.
  destruct w as [h tr q un]; simpl in Hq, Hv; subst q.
  destruct dbs as [|db dbs]; (eexists; split;
    [ apply exec_more_fuel with (f := 4%nat); [|exact Hfuel];
      unfold exec, createServerDropdown_onValueChanged;
      repeat first [ rewrite Hv | rewrite Hdbs | rewrite Huri | rewrite Hsch
                   | progress simpl
                   | rewrite step_bind
                   | rewrite (step_map_task_rest _ category) by (intros; reflexivity)
                   | rewrite (DatabaseFacts.step_schema_rows _ _ _ Hsn) ];
      reflexivity
    | simpl; destruct snames; simpl; repeat split; now rewrite <- !app_assoc ]).
Qed.

Lemma server_change_populates_in_order_witness :
  exists w',
    exec 4 (Examples.host_ok "dbo" Examples.file_csv)
      createServerDropdown_onValueChanged (fresh MoreExamples.heap_on_c1)
    = Some (w', Fulfilled tt) /\
    model_database (model (heap w')) = "db1" /\
    model_schema (model (heap w')) = "dbo".
Proof.
  destruct (server_change_populates_in_order
              (Examples.host_ok "dbo" Examples.file_csv)
              (fresh MoreExamples.heap_on_c1)
              (connectionDisplay Examples.c1) ["db1"] "uri"
              (Examples.one_column ["dbo"]) ["dbo"] 4
              eq_refl (le_n 4) eq_refl (fun _ => eq_refl) (fun _ => eq_refl)
              (fun _ => eq_refl) eq_refl)
    as [w' [E [_ [_ [_ [_ [D [S _]]]]]]]].
  exists w'. split; [exact E|]. split; [exact D | exact S].
Defined.

(** [onPageEnter] asks the host for the active connections and for
    nothing else, whatever the answer: the database and schema steps of its
    chain are handed to [then] without their receiver and end in a
    [TypeError] before they touch a list or ask the host anything. *)
Theorem onPageEnter_requests_connections_only (host : Host) (w : World) (fuel : nat) :
  queue w = [] ->
  (2 <= fuel)%nat ->
  exists w',
    exec fuel host onPageEnter w = Some (w', Fulfilled true) /\
    trace w' = (trace w ++ [GetActiveConnections])%list /\
    queue w' = [] /\
    databaseDropdown (config (heap w')) = databaseDropdown (config (heap w)) /\
    schemaDropdown (config (heap w')) = schemaDropdown (config (heap w)) /\
    tableNames (config (heap w')) = tableNames (config (heap w)) /\
    model_database (model (heap w')) = model_database (model (heap w)) /\
    model_schema (model (heap w')) = model_schema (model (heap w)) /\
    (forall cons,
       host (List.length (trace w)) GetActiveConnections = Fulfilled cons ->
       unhandled w' = (unhandled w ++ [TypeError "databaseDropdown"])%list).
Proof.
  intros Hq Hfuel.
  destruct w as [h tr q un]; simpl in Hq; subst q.
  destruct (host (List.length tr) GetActiveConnections) as [[[|c cs]|]|e] eqn:Hc;
    (eexists; split;
     [ apply exec_more_fuel with (f := 2%nat); [|exact Hfuel];
       unfold exec; rewrite EnterFacts.onPageEnter_first_job; simpl;
       rewrite Hc; simpl; reflexivity
     | simpl; repeat split; intros; try reflexivity; congruence ]).
Qed.

Lemma onPageEnter_requests_connections_only_witness :
  exists w',
    exec 2 (Examples.host_ok "dbo" Examples.file_csv) onPageEnter
      (fresh MoreExamples.heap_blank) = Some (w', Fulfilled true) /\
    trace w' = [GetActiveConnections] /\
    unhandled w' = [TypeError "databaseDropdown"].
Proof.
  destruct (onPageEnter_requests_connections_only
              (Examples.host_ok "dbo" Examples.file_csv)
              (fresh MoreExamples.heap_blank) 2 eq_refl (le_n 2))
    as [w' [E [T [_ [_ [_ [_ [_ [_ U]]]]]]]]].
  exists w'. split; [exact E|]. split; [exact T|].
  exact (U (Some [Examples.c1]) eq_refl).
Defined.

(** [populateTableNames] resolves with [false] in two cases: for an empty
    selected database name it empties the cached table names without
    asking the host; when the table query is rejected it leaves the whole
    heap, the cached names included, as it was. *)
Theorem populateTableNames_resolves_false
    (host : Host) (w : World) (v : CategoryValue) (fuel : nat) :
  queue w = [] ->
  (3 <= fuel)%nat ->
  dd_value (databaseDropdown (config (heap w))) = Some v ->
  (cv_name v = "" ->
   exists w',
     exec fuel host (populateTableNames ThisPage) w = Some (w', Fulfilled false) /\
     tableNames (config (heap w')) = [] /\
     model (heap w') = model (heap w) /\
     trace w' = trace w)
  /\
  (forall srv uri e,
     cv_name v <> "" ->
     fc_server (config (heap w)) = Some srv ->
     (forall n, host n (GetUriForConnection (connectionId srv)) = Fulfilled uri) ->
     (forall n, host n (RunQueryAndReturn (providerName srv) uri
                          (tables_query (cv_name v))) = Rejected e) ->
     exists w',
       exec fuel host (populateTableNames ThisPage) w = Some (w', Fulfilled false) /\
       heap w' = heap w /\
       unhandled w' = unhandled w /\
       trace w' = (trace w ++
                   [GetUriForConnection (connectionId srv);
                    RunQueryAndReturn (providerName srv) uri
                      (tables_query (cv_name v))])%list).
Proof.
  intros Hq Hfuel Hv.
  destruct w as [h tr q un]; simpl in Hq, Hv; subst q. split.
  - intros Hname. eexists. split.
    + apply exec_more_fuel with (f := 3%nat); [|exact Hfuel].
      unfold exec, populateTableNames. simpl. rewrite Hv, Hname. simpl. reflexivity.
    + simpl. repeat split.
  - simpl. intros srv uri e Hne Hsrv Huri Hrej.
    assert (Hnz : ((cv_name v =? "")%string || (strlen (cv_name v) =? 0)) = false).
    { apply orb_false_iff. split; [now apply String.eqb_neq|].
      apply Z.eqb_neq. unfold strlen. destruct (cv_name v); [congruence | simpl; lia]. }
    eexists. split.
    + apply exec_more_fuel with (f := 3%nat); [|exact Hfuel].
      unfold exec, populateTableNames.
      repeat first [ rewrite Hv | rewrite Hnz | rewrite Hsrv | rewrite Huri
                   | rewrite Hrej | progress simpl ].
      reflexivity.
    + simpl. repeat split. now rewrite <- !app_assoc.
Qed.

Lemma populateTableNames_resolves_false_witness :
  exists w',
    exec 3 (Examples.host_ok "dbo" Examples.file_csv) (populateTableNames ThisPage)
      (fresh MoreExamples.heap_on_c1) = Some (w', Fulfilled false) /\
    tableNames (config (heap w')) = [] /\
    trace w' = [].
Proof.
  destruct (populateTableNames_resolves_false
              (Examples.host_ok "dbo" Examples.file_csv)
              (fresh MoreExamples.heap_on_c1) (category "") 3
              eq_refl (le_n 3) eq_refl) as [H _].
  destruct (H eq_refl) as [w' [E [T [_ Tr]]]].
  exists w'. split; [exact E|]. split; [exact T | exact Tr].
Defined.

(** The schema callback on rows the first of which without a cell comes
    after rows [r1] that all have one. *)
Lemma step_schema_rows_ragged_rest (r1 r2 : list (list DbCellValue)) :
  forall (names1 : list string) (w : World),
    first_cells r1 = Some names1 ->
    step (map_task schemaEntry false (r1 ++ [] :: r2)) w
    = (w, Done (Rejected (TypeError "displayValue"))).
Proof.
  induction r1 as [|row r1 IH]; intros names1 w H; simpl in H.
  - cbn [app map_task]. rewrite step_bind.
    unfold schemaEntry, firstDisplayValue. reflexivity.
  - destruct row as [|c row]; [discriminate|].
    destruct (first_cells r1) as [ns|] eqn:E; [|discriminate].
    simpl app. cbn [map_task]. rewrite step_bind.
    unfold schemaEntry at 1, firstDisplayValue. cbn.
    rewrite step_bind, (IH ns w eq_refl). reflexivity.
Qed.

Lemma step_schema_rows_ragged (r1 r2 : list (list DbCellValue))
    (names1 : list string) (w : World) :
  first_cells r1 = Some names1 ->
  step (map_task schemaEntry true (r1 ++ [] :: r2)) w
  = (with_heap (first_schema names1 (heap w)) w,
     Done (Rejected (TypeError "displayValue"))).
Proof.
  intros H. destruct r1 as [|row r1]; simpl in H.
  - injection H as <-. cbn [app map_task]. rewrite step_bind.
    unfold schemaEntry, firstDisplayValue. destruct w; reflexivity.
  - destruct row as [|c row]; [discriminate|].
    destruct (first_cells r1) as [ns|] eqn:E; [|discriminate].
    injection H as <-. simpl app. cbn [map_task]. rewrite step_bind.
    unfold schemaEntry at 1, firstDisplayValue. cbn.
    rewrite step_bind, (step_schema_rows_ragged_rest r1 r2 ns _ E). reflexivity.
Qed.

(** A schema result with a row that has no cell makes
    [populateSchemaDropdown] reject with a [TypeError]: the schema list is
    left as it was, while [model.schema] has already taken the first
    schema of the rows before it, if there is one. *)
Theorem populateSchemaDropdown_row_without_cell
    (host : Host) (w : World) (srv : Connection) (uri : string)
    (r1 r2 : list (list DbCellValue)) (names1 : list string) (fuel : nat) :
  queue w = [] ->
  (3 <= fuel)%nat ->
  fc_server (config (heap w)) = Some srv ->
  (forall n, host n (GetUriForConnection (connectionId srv)) = Fulfilled uri) ->
  (forall n, host n (RunQueryAndReturn (providerName srv) uri schemas_query)
             = Fulfilled {| rows := r1 ++ [] :: r2 |}) ->
  first_cells r1 = Some names1 ->
  exists w',
    exec fuel host (populateSchemaDropdown ThisPage) w
    = Some (w', Rejected (TypeError "displayValue")) /\
    schemaDropdown (config (heap w')) = schemaDropdown (config (heap w)) /\
    model_schema (model (heap w')) = hd (model_schema (model (heap w))) names1.
Proof.
  intros Hq Hfuel Hsrv Huri Hsch Hn.
  destruct w as [h tr q un]; simpl in Hq, Hsrv; subst q.
  eexists. split.
  - apply exec_more_fuel with (f := 3%nat); [|exact Hfuel].
    unfold exec, populateSchemaDropdown.
    repeat first [ rewrite Hsrv | rewrite Huri | rewrite Hsch | progress simpl
                 | rewrite step_bind
                 | rewrite (step_schema_rows_ragged _ _ _ _ Hn) ].
    reflexivity.
  - simpl. destruct names1; simpl; split; reflexivity.
Qed.

Lemma populateSchemaDropdown_row_without_cell_witness :
  exists w',
    exec 3 MoreExamples.host_ragged_schemas (populateSchemaDropdown ThisPage)
      (fresh MoreExamples.heap_on_c1)
    = Some (w', Rejected (TypeError "displayValue")) /\
    dd_values (schemaDropdown (config (heap w'))) = [category "sales"] /\
    model_schema (model (heap w')) = "dbo".
Proof.
  destruct (populateSchemaDropdown_row_without_cell
              MoreExamples.host_ragged_schemas (fresh MoreExamples.heap_on_c1)
              Examples.c1 "uri" [[Examples.cell "dbo"]] [] ["dbo"] 3
              eq_refl (le_n 3) eq_refl (fun _ => eq_refl) (fun _ => eq_refl) eq_refl)
    as [w' [E [D S]]].
  exists w'. split; [exact E|]. split; [now rewrite D | exact S].
Defined.

(** A server change whose database list is rejected: the handler rejects
    with that error after the new connection has become the page's and
    the model's server and both lists have been emptied; [model.database]
    still names the database chosen before, and the schemas are not
    queried. *)
Theorem server_change_without_databases
    (host : Host) (w : World) (v : ConnectionDropdownValue) (e : JsError)
    (fuel : nat) :
  queue w = [] ->
  (2 <= fuel)%nat ->
  dd_value (serverDropdown (config (heap w))) = Some v ->
  host (List.length (trace w)) (ListDatabases (connectionId (cdv_connection v)))
  = Rejected e ->
  exists w',
    exec fuel host createServerDropdown_onValueChanged w = Some (w', Rejected e) /\
    model_server (model (heap w')) = Some (cdv_connection v) /\
    fc_server (config (heap w')) = Some (cdv_connection v) /\
    model_database (model (heap w')) = model_database (model (heap w)) /\
    model_schema (model (heap w')) = model_schema (model (heap w)) /\
    dd_values (databaseDropdown (config (heap w'))) = [] /\
    dd_values (schemaDropdown (config (heap w'))) = [] /\
    trace w' = (trace w ++ [ListDatabases (connectionId (cdv_connection v))])%list.
Proof.
  intros Hq Hfuel Hv Hrej.
  destruct w as [h tr q un]; simpl in Hq, Hv, Hrej; subst q.
  eexists. split.
  - apply exec_more_fuel with (f := 2%nat); [|exact Hfuel].
    unfold exec, createServerDropdown_onValueChanged. simpl. rewrite Hv. simpl.
    rewrite Hrej. simpl. reflexivity.
  - simpl. repeat split.
Qed.

Lemma server_change_without_databases_witness :
  exists w',
    exec 2 (MoreExamples.host_no_databases (ThrownStr "offline"))
      createServerDropdown_onValueChanged (fresh MoreExamples.heap_on_c1)
    = Some (w', Rejected (ThrownStr "offline")) /\
    model_database (model (heap w')) = "db1" /\
    dd_values (databaseDropdown (config (heap w'))) = [].
Proof.
  destruct (server_change_without_databases
              (MoreExamples.host_no_databases (ThrownStr "offline"))
              (fresh MoreExamples.heap_on_c1) (connectionDisplay Examples.c1)
              (ThrownStr "offline") 2 eq_refl (le_n 2) eq_refl eq_refl)
    as [w' [E [_ [_ [D [_ [L _]]]]]]].
  exists w'. split; [exact E|]. split; [exact D | exact L].
Defined.

End PopulateFacts.

(* ===================================================================== *)
(** ** Configuration page: more on the browse button                      *)
(* ===================================================================== *)

Module BrowseMoreFacts.

Import FileConfigPage StrFacts SchedFacts.

Lemma substring_is_prefix (m : nat) :
  forall s, exists post, s = String.substring 0 m s ++ post.
Proof.
  induction m as [|m IH]; intros s.
  - exists s. now destruct s.
  - destruct s as [|c s]; simpl.
    + now exists "".
    + destruct (IH s) as [post E]. exists post. now rewrite <- E.
Qed.

Lemma substring_contained (n : nat) :
  forall m s, Contains (String.substring n m s) s.
Proof.
  induction n as [|n IH]; intros m s.
  - destruct (substring_is_prefix m s) as [post E].
    rewrite E at 2. apply Contains_here.
  - destruct s as [|c s]; simpl.
    + apply Contains_self.
    + apply Contains_skip, IH.
Qed.

(** Whatever the path, the derived table name is a piece of the path. *)
Theorem derivedTableName_within_path (p : string) :
  Contains (derivedTableName p) p.
Proof.
  unfold derivedTableName, substring. apply substring_contained.
Qed.

(** For a path that has no [.]: the derived name is empty when the path
    has no [/] either, and otherwise it is the path up to and including
    its last [/], without the file name. *)
Theorem derivedTableName_without_dot (p : string) :
  has_char "." p = false ->
  (has_char "/" p = false -> derivedTableName p = "") /\
  (forall dir name,
     p = dir ++ "/" ++ name ->
     has_char "/" name = false ->
     derivedTableName p = dir ++ "/").
Proof.
  intros Hdot.
  assert (E : lastIndexOf p "." = -1).
  { unfold lastIndexOf. now apply BrowseFacts.lastIndexOf_from_absent. }
  split.
  - intros Hs. unfold derivedTableName. rewrite E.
    replace (lastIndexOf p "/") with (-1)
      by (unfold lastIndexOf; now rewrite BrowseFacts.lastIndexOf_from_absent).
    unfold substring, clamp. pose proof (strlen_nonneg p).
    replace (Z.min (Z.max 0 (Z.min (-1 + 1) (strlen p)))
                   (Z.max 0 (Z.min (if -1 =? 0 then strlen p else -1) (strlen p))))
      with 0 by (simpl Z.eqb; cbv iota; lia).
    replace (Z.max (Z.max 0 (Z.min (-1 + 1) (strlen p)))
                   (Z.max 0 (Z.min (if -1 =? 0 then strlen p else -1) (strlen p))) - 0)
      with 0 by (simpl Z.eqb; cbv iota; lia).
    now destruct p.
  - intros dir name -> Hn. unfold derivedTableName. rewrite E.
    change (dir ++ "/" ++ name) with (dir ++ String "/" name).
    rewrite (BrowseFacts.lastIndexOf_last "/" dir name Hn).
    unfold substring, clamp.
    change (dir ++ String "/" name) with (dir ++ "/" ++ name).
    rewrite !strlen_append. change (strlen "/") with 1.
    pose proof (strlen_nonneg dir). pose proof (strlen_nonneg name).
    simpl Z.eqb. cbv iota.
    replace (Z.min (Z.max 0 (Z.min (strlen dir + 1) (strlen dir + (1 + strlen name))))
                   (Z.max 0 (Z.min (-1) (strlen dir + (1 + strlen name)))))
      with 0 by lia.
    replace (Z.max (Z.max 0 (Z.min (strlen dir + 1) (strlen dir + (1 + strlen name))))
                   (Z.max 0 (Z.min (-1) (strlen dir + (1 + strlen name)))) - 0)
      with (strlen (dir ++ "/")) by (rewrite strlen_append; change (strlen "/") with 1; lia).
    unfold strlen. rewrite Nat2Z.id. simpl Z.to_nat.
    replace (dir ++ "/" ++ name) with ((dir ++ "/") ++ name)
      by (now rewrite append_assoc).
    apply BrowseFacts.substring_prefix.
Qed.

Lemma derivedTableName_without_dot_witness :
  derivedTableName "/home/u/data" = "/home/u/".
Proof.
  destruct (derivedTableName_without_dot "/home/u/data" eq_refl) as [_ H].
  exact (H "/home/u" "data" eq_refl eq_refl).
Defined.

(** A dismissed file dialog (no selection, or an empty one) changes
    nothing, and a failing dialog makes the handler reject with the
    dialog's error, the heap again as it was. *)
Theorem browse_without_file_changes_nothing (host : Host) (w : World) (fuel : nat) :
  queue w = [] ->
  (2 <= fuel)%nat ->
  ((host (List.length (trace w)) ShowOpenDialog = Fulfilled None \/
    host (List.length (trace w)) ShowOpenDialog = Fulfilled (Some [])) ->
   exists w',
     exec fuel host createFileBrowser_onDidClick w = Some (w', Fulfilled tt) /\
     heap w' = heap w)
  /\
  (forall e,
     host (List.length (trace w)) ShowOpenDialog = Rejected e ->
     exists w',
       exec fuel host createFileBrowser_onDidClick w = Some (w', Rejected e) /\
       heap w' = heap w).
Proof.
  intros Hq Hfuel.
  destruct w as [h tr q un]; simpl in Hq; subst q. simpl. split.
  - intros Hd. eexists. split.
    + apply exec_more_fuel with (f := 2%nat); [|exact Hfuel].
      unfold exec, createFileBrowser_onDidClick. simpl.
      destruct Hd as [-> | ->]; simpl; reflexivity.
    + reflexivity.
  - intros e Hd. eexists. split.
    + apply exec_more_fuel with (f := 2%nat); [|exact Hfuel].
      unfold exec, createFileBrowser_onDidClick. simpl. rewrite Hd. simpl.
      reflexivity.
    + reflexivity.
Qed.

Lemma browse_without_file_changes_nothing_witness :
  exists w',
    exec 2 MoreExamples.host_dialog_cancelled createFileBrowser_onDidClick
      (fresh Examples.heap_c1) = Some (w', Fulfilled tt) /\
    heap w' = Examples.heap_c1.
Proof.
  destruct (browse_without_file_changes_nothing MoreExamples.host_dialog_cancelled
              (fresh Examples.heap_c1) 2 eq_refl (le_n 2)) as [H _].
  exact (H (or_introl eq_refl)).
Defined.

(** The browse handler stores the derived name whether or not it is a
    valid table name: after a file is chosen, [model.table] holds the
    derived name, and the box's validation accepts what is stored only if
    that name is non-empty and not among the cached table names, which the
    handler leaves as they were. *)
Theorem browse_stores_name_unvalidated
    (host : Host) (w : World) (fuel : nat) (u : Uri) (more : list Uri) :
  queue w = [] ->
  (2 <= fuel)%nat ->
  host (List.length (trace w)) ShowOpenDialog = Fulfilled (Some (u :: more)) ->
  exists w',
    exec fuel host createFileBrowser_onDidClick w = Some (w', Fulfilled tt) /\
    model_table (model (heap w')) = derivedTableName (path u) /\
    tableNames (config (heap w')) = tableNames (config (heap w)) /\
    (createTableNameBox_validation (heap w') (model_table (model (heap w'))) = true <->
     derivedTableName (path u) <> "" /\
     ~ In (derivedTableName (path u)) (tableNames (config (heap w)))).
Proof.
  intros Hq Hfuel Hdlg.
  destruct w as [h tr q un]; simpl in Hq, Hdlg; subst q.
  eexists. split.
  - apply exec_more_fuel with (f := 2%nat); [|exact Hfuel].
    unfold exec, createFileBrowser_onDidClick. simpl. rewrite Hdlg. simpl.
    reflexivity.
  - simpl. split; [reflexivity|]. split; [reflexivity|].
    unfold createTableNameBox_validation, validateTableName. simpl.
    generalize (derivedTableName (path u)) as n. intros n.
    destruct (String.eqb_spec n "") as [->|N]; simpl.
    + split; [discriminate | intros [H _]; congruence].
    + assert (L : (strlen n =? 0) = false).
      { apply Z.eqb_neq. unfold strlen. destruct n; [congruence | simpl; lia]. }
      rewrite L. simpl.
      destruct (indexOf (tableNames (config h)) n =? -1) eqn:E; simpl.
      * apply Z.eqb_eq, ValidationFacts.indexOf_absent in E. tauto.
      * apply Z.eqb_neq in E. rewrite ValidationFacts.indexOf_absent in E.
        split; [discriminate | tauto].
Qed.

Lemma browse_stores_name_unvalidated_witness :
  exists w',
    exec 2 (Examples.host_ok "dbo" (Examples.file_at "/in/orders.csv"))
      createFileBrowser_onDidClick (fresh Examples.heap_after_db1)
    = Some (w', Fulfilled tt) /\
    model_table (model (heap w')) = "orders" /\
    createTableNameBox_validation (heap w') (model_table (model (heap w'))) = false.
Proof.
  destruct (browse_stores_name_unvalidated
              (Examples.host_ok "dbo" (Examples.file_at "/in/orders.csv"))
              (fresh Examples.heap_after_db1) 2 (Examples.file_at "/in/orders.csv") []
              eq_refl (le_n 2) eq_refl) as [w' [E [T [N V]]]].
  exists w'. split; [exact E|]. split; [exact T|].
  destruct (createTableNameBox_validation (heap w') (model_table (model (heap w'))));
    [|reflexivity].
  exfalso. destruct (proj1 V eq_refl) as [_ A]. apply A.
  vm_compute. left. reflexivity.
Defined.

End BrowseMoreFacts.

(* ===================================================================== *)
(** ** Summary page: more on the import-commit operation                  *)
(* ===================================================================== *)

Module ImportMoreFacts.

Import SummaryPage StrFacts SchedFacts ImportFacts.

(** Closing one path of a run of [handleImport]: the run's value is in
    [E]; the frame conditions hold by computation, and the status text is
    of one of the two kinds. *)
Ltac import_leaf E :=
  rewrite E; eexists; (split; [reflexivity|]); simpl; repeat split;
  eexists; (split; [reflexivity|]);
  first [ left; reflexivity | right; eexists; reflexivity ].

(** Every run of [handleImport] with fuel 4. *)
Lemma handleImport_heap
    (Number : string -> JsNumber) (host : Host) (w : World) :
  queue w = [] ->
  exists w',
    exec 4 host (handleImport Number) w = Some (w', Fulfilled true) /\
    model (heap w') = model (heap w) /\
    config (heap w') = config (heap w) /\
    importAnotherFileVisible (heap w') = importAnotherFileVisible (heap w) /\
    tableData (summary (heap w')) = tableData (summary (heap w)) /\
    loading (summary (heap w')) = loading (summary (heap w)) /\
    queue w' = [] /\
    exists s,
      statusText (summary (heap w')) = Some s /\
      (s = msg_success_unknown \/ is_failure_text s).
Proof.
  intros Hq.
  destruct w as [h tr q un]; simpl in Hq; subst q.
  remember (exec 4 host (handleImport Number)
              {| heap := h; trace := tr; queue := []; unhandled := un |})
    as out eqn:E.
  unfold exec, handleImport in E. cbn [step] in E.
  rewrite step_bind, step_column_changes in E. simpl in E.
  destruct (model_server (model h)) as [srv|] eqn:Hsrv; simpl in E.
  2: { columns_settled_in E. import_leaf E. }
  destruct (strict_eq_str (opt_authenticationType (options srv)) "Integrated")
    eqn:Hauth; simpl in E; columns_settled_in E.
  - match type of E with context [host ?n ?c] => destruct (host n c) as [resp|e] end;
      simpl in E.
    + destruct (success (result resp)); simpl in E.
      * repeat (rewrite Hsrv in E; simpl in E).
        match type of E with context [host ?n ?c] => destruct (host n c) as [r|e] end;
          simpl in E; import_leaf E.
      * import_leaf E.
    + import_leaf E.
  - match type of E with context [host ?n ?c] => destruct (host n c) as [cred|e] end;
      simpl in E.
    + match type of E with context [host ?n ?c] => destruct (host n c) as [resp|e] end;
        simpl in E.
      * destruct (success (result resp)); simpl in E.
        -- repeat (rewrite Hsrv in E; simpl in E).
           match type of E with context [host ?n ?c] => destruct (host n c) as [r|e] end;
             simpl in E; import_leaf E.
        -- import_leaf E.
      * import_leaf E.
    + import_leaf E.
Qed.

(** Whatever the host answers, [handleImport] resolves with [true] and
    changes nothing but the status text (and the cell of [results]): the
    model, the configuration page, the table shown, the loading flag and
    the wizard's flag are as before, nothing is left pending, and the
    status text is either a failure message or the success message
    without a row count. *)
Theorem handleImport_frame
    (Number : string -> JsNumber) (host : Host) (w : World) (fuel : nat) :
  queue w = [] ->
  (4 <= fuel)%nat ->
  exists w',
    exec fuel host (handleImport Number) w = Some (w', Fulfilled true) /\
    model (heap w') = model (heap w) /\
    config (heap w') = config (heap w) /\
    importAnotherFileVisible (heap w') = importAnotherFileVisible (heap w) /\
    tableData (summary (heap w')) = tableData (summary (heap w)) /\
    loading (summary (heap w')) = loading (summary (heap w)) /\
    queue w' = [] /\
    exists s,
      statusText (summary (heap w')) = Some s /\
      (s = msg_success_unknown \/ is_failure_text s).
Proof.
  intros Hq Hfuel.
  destruct (handleImport_heap Number host w Hq) as [w' [E R]].
  exists w'. split; [|exact R].
  apply exec_more_fuel with (f := 4%nat); assumption.
Qed.

Lemma handleImport_frame_witness :
  exists w',
    exec 4 (Examples.host_ok "42" Examples.file_csv) (handleImport (fun _ => NaN))
      (fresh Examples.heap_c1) = Some (w', Fulfilled true) /\
    model (heap w') = model Examples.heap_c1 /\
    config (heap w') = config Examples.heap_c1.
Proof.
  destruct (handleImport_frame (fun _ => NaN)
              (Examples.host_ok "42" Examples.file_csv) (fresh Examples.heap_c1) 4
              eq_refl (le_n 4)) as [w' [E [M [C _]]]].
  exists w'. split; [exact E|]. split; [exact M | exact C].
Defined.

(** Without a connection string no insert-data request is sent: when the
    model has no server, or the credential lookup is rejected, the column
    requests (and the lookup) are all that reaches the host, and the status
    text is the failure message with the error of that step. *)
Theorem handleImport_without_connection_string
    (Number : string -> JsNumber) (host : Host) (w : World) (fuel : nat) :
  queue w = [] ->
  (4 <= fuel)%nat ->
  (model_server (model (heap w)) = None ->
   exists w',
     exec fuel host (handleImport Number) w = Some (w', Fulfilled true) /\
     statusText (summary (heap w'))
     = Some (msg_failure_prefix ++ toString (TypeError "options")) /\
     trace w' = (trace w ++ column_requests (proseColumns (model (heap w))) 0)%list)
  /\
  (forall srv e,
     model_server (model (heap w)) = Some srv ->
     strict_eq_str (opt_authenticationType (options srv)) "Integrated" = false ->
     (forall n, host n (GetCredentials (connectionId srv)) = Rejected e) ->
     exists w',
       exec fuel host (handleImport Number) w = Some (w', Fulfilled true) /\
       statusText (summary (heap w')) = Some (msg_failure_prefix ++ toString e) /\
       trace w' = (trace w ++ column_requests (proseColumns (model (heap w))) 0 ++
                   [GetCredentials (connectionId srv)])%list).
Proof.
  intros Hq Hfuel.
  destruct w as [h tr q un]; simpl in Hq; subst q. simpl. split.
  - intros Hsrv. eexists. split.
    + apply exec_more_fuel with (f := 4%nat); [|exact Hfuel].
      start_import. simpl. rewrite Hsrv. simpl. columns_settled. reflexivity.
    + simpl. split; reflexivity.
  - intros srv e Hsrv Hauth Hcred. eexists. split.
    + apply exec_more_fuel with (f := 4%nat); [|exact Hfuel].
      start_import. simpl. rewrite Hsrv, Hauth. simpl. columns_settled.
      rewrite Hcred. simpl. reflexivity.
    + simpl. split; [reflexivity | now rewrite <- app_assoc].
Qed.

Lemma handleImport_without_connection_string_witness :
  exists w',
    exec 4 (MoreExamples.host_no_credentials (ThrownStr "denied"))
      (handleImport (fun _ => NaN)) (fresh MoreExamples.heap_c2)
    = Some (w', Fulfilled true) /\
    statusText (summary (heap w')) = Some (msg_failure_prefix ++ "denied") /\
    trace w' = (column_requests [Examples.column_a] 0 ++ [GetCredentials "c2"])%list.
Proof.
  destruct (handleImport_without_connection_string (fun _ => NaN)
              (MoreExamples.host_no_credentials (ThrownStr "denied"))
              (fresh MoreExamples.heap_c2) 4 eq_refl (le_n 4)) as [_ H].
  exact (H Examples.c2 (ThrownStr "denied") eq_refl eq_refl (fun _ => eq_refl)).
Defined.

(** Closing one path of a run whose trace is asked for. *)
Ltac trace_leaf E :=
  rewrite E; eexists; eexists; (split; [reflexivity|]); simpl;
  rewrite <- ?app_assoc; reflexivity.

(** The insert-data request comes right after the column requests (and
    the credential lookup, if there is one); it carries the connection
    string in the documented shape for the model's server and database,
    and the batch size 500. *)
Theorem handleImport_insert_request
    (Number : string -> JsNumber) (host : Host) (w : World) (srv : Connection)
    (fuel : nat) :
  queue w = [] ->
  (4 <= fuel)%nat ->
  model_server (model (heap w)) = Some srv ->
  let o := options srv in
  let db := model_database (model (heap w)) in
  let cols := column_requests (proseColumns (model (heap w))) 0 in
  (strict_eq_str (opt_authenticationType o) "Integrated" = true ->
   exists w' rest,
     exec fuel host (handleImport Number) w = Some (w', Fulfilled true) /\
     trace w' = (trace w ++ cols ++
                 SendInsertDataRequest
                   {| connectionString :=
                        documented_connection_string true
                          (toStr (opt_server o)) (port_segment o) db "" "";
                      batchSize := 500 |} :: rest)%list)
  /\
  (strict_eq_str (opt_authenticationType o) "Integrated" = false ->
   forall cred,
     (forall n, host n (GetCredentials (connectionId srv)) = Fulfilled cred) ->
     exists w' rest,
       exec fuel host (handleImport Number) w = Some (w', Fulfilled true) /\
       trace w' = (trace w ++ cols ++
                   GetCredentials (connectionId srv) ::
                   SendInsertDataRequest
                     {| connectionString :=
                          documented_connection_string false
                            (toStr (opt_server o)) (port_segment o) db
                            (toStr (opt_user o)) (password cred);
                        batchSize := 500 |} :: rest)%list).
Proof.
  intros Hq Hfuel Hsrv o db cols.
  destruct w as [h tr q un]; simpl in Hq, Hsrv, db, cols; subst q. simpl.
  split.
  - intros Hauth.
    rewrite <- ConnectionStringFacts.integrated_text.
    cut (exists w' rest,
           exec 4 host (handleImport Number)
             {| heap := h; trace := tr; queue := []; unhandled := un |}
           = Some (w', Fulfilled true) /\
           trace w' = (tr ++ cols ++
                       SendInsertDataRequest
                         {| connectionString :=
                              "Data Source=" ++ dataSource o ++ ";Initial Catalog=" ++
                              db ++ ";Integrated Security=True";
                            batchSize := 500 |} :: rest)%list).
    { intros [w' [rest [E T]]]. exists w', rest. split; [|exact T].
      apply exec_more_fuel with (f := 4%nat); assumption. }
    remember (exec 4 host (handleImport Number)
                {| heap := h; trace := tr; queue := []; unhandled := un |})
      as out eqn:E.
    unfold exec, handleImport in E. cbn [step] in E.
    rewrite step_bind, step_column_changes in E. simpl in E.
    rewrite Hsrv in E. fold o in E. rewrite Hauth in E. simpl in E.
    columns_settled_in E.
    match type of E with context [host ?n ?c] => destruct (host n c) as [resp|e] end;
      simpl in E.
    + destruct (success (result resp)); simpl in E.
      * repeat (rewrite Hsrv in E; simpl in E).
        match type of E with context [host ?n ?c] => destruct (host n c) as [r|e] end;
          simpl in E; trace_leaf E.
      * trace_leaf E.
    + trace_leaf E.
  - intros Hauth cred Hcred.
    rewrite <- ConnectionStringFacts.credential_text.
    cut (exists w' rest,
           exec 4 host (handleImport Number)
             {| heap := h; trace := tr; queue := []; unhandled := un |}
           = Some (w', Fulfilled true) /\
           trace w' = (tr ++ cols ++
                       GetCredentials (connectionId srv) ::
                       SendInsertDataRequest
                         {| connectionString :=
                              "Data Source=" ++ dataSource o ++ ";Initial Catalog=" ++
                              db ++ ";Integrated Security=False;User Id=" ++
                              toStr (opt_user o) ++ ";Password=" ++ password cred;
                            batchSize := 500 |} :: rest)%list).
    { intros [w' [rest [E T]]]. exists w', rest. split; [|exact T].
      apply exec_more_fuel with (f := 4%nat); assumption. }
    remember (exec 4 host (handleImport Number)
                {| heap := h; trace := tr; queue := []; unhandled := un |})
      as out eqn:E.
    unfold exec, handleImport in E. cbn [step] in E.
    rewrite step_bind, step_column_changes in E. simpl in E.
    rewrite Hsrv in E. fold o in E. rewrite Hauth in E. simpl in E.
    columns_settled_in E. rewrite Hcred in E. simpl in E.
    match type of E with context [host ?n ?c] => destruct (host n c) as [resp|e] end;
      simpl in E.
    + destruct (success (result resp)); simpl in E.
      * repeat (rewrite Hsrv in E; simpl in E).
        match type of E with context [host ?n ?c] => destruct (host n c) as [r|e] end;
          simpl in E; trace_leaf E.
      * trace_leaf E.
    + trace_leaf E.
Qed.

Lemma handleImport_insert_request_witness :
  exists w' rest,
    exec 4 (Examples.host_ok "42" Examples.file_csv) (handleImport (fun _ => NaN))
      (fresh Examples.heap_c1) = Some (w', Fulfilled true) /\
    trace w' = (column_requests [Examples.column_a] 0 ++
                SendInsertDataRequest
                  {| connectionString :=
                       "Data Source=srv;Initial Catalog=db1;Integrated Security=True";
                     batchSize := 500 |} :: rest)%list.
Proof.
  destruct (handleImport_insert_request (fun _ => NaN)
              (Examples.host_ok "42" Examples.file_csv) (fresh Examples.heap_c1)
              Examples.c1 4 eq_refl (le_n 4) eq_refl) as [H _].
  exact (H eq_refl).
Defined.

(** Closing one path of a run of [onPageEnter]. *)
Ltac enter_leaf E :=
  rewrite E; eexists; (split; [reflexivity|]); simpl; repeat split;
  eexists; (split; [reflexivity|]);
  first [ left; reflexivity | right; eexists; reflexivity ].

(** Every run of the summary page's [onPageEnter] with a server chosen. *)
Lemma onPageEnter_run
    (Number : string -> JsNumber) (host : Host) (w : World) (srv : Connection) :
  queue w = [] ->
  model_server (model (heap w)) = Some srv ->
  exists w',
    exec 4 host (onPageEnter Number) w = Some (w', Fulfilled true) /\
    loading (summary (heap w')) = false /\
    importAnotherFileVisible (heap w') = true /\
    tableData (summary (heap w')) = summary_rows srv (model (heap w)) /\
    model (heap w') = model (heap w) /\
    config (heap w') = config (heap w) /\
    queue w' = [] /\
    exists s,
      statusText (summary (heap w')) = Some s /\
      (s = msg_success_unknown \/ is_failure_text s).
Proof.
  intros Hq Hsrv.
  destruct w as [h tr q un]; simpl in Hq, Hsrv; subst q.
  remember (exec 4 host (onPageEnter Number)
              {| heap := h; trace := tr; queue := []; unhandled := un |})
    as out eqn:E.
  unfold exec, onPageEnter, populateTable, handleImport in E. simpl in E.
  rewrite Hsrv in E. simpl in E.
  rewrite !step_bind, step_column_changes in E. simpl in E.
  rewrite Hsrv in E. simpl in E.
  destruct (strict_eq_str (opt_authenticationType (options srv)) "Integrated")
    eqn:Hauth; simpl in E; columns_settled_in E.
  - match type of E with context [host ?n ?c] => destruct (host n c) as [resp|e] end;
      simpl in E.
    + destruct (success (result resp)); simpl in E.
      * repeat (rewrite Hsrv in E; simpl in E).
        match type of E with context [host ?n ?c] => destruct (host n c) as [r|e] end;
          simpl in E; enter_leaf E.
      * enter_leaf E.
    + enter_leaf E.
  - match type of E with context [host ?n ?c] => destruct (host n c) as [cred|e] end;
      simpl in E.
    + match type of E with context [host ?n ?c] => destruct (host n c) as [resp|e] end;
        simpl in E.
      * destruct (success (result resp)); simpl in E.
        -- repeat (rewrite Hsrv in E; simpl in E).
           match type of E with context [host ?n ?c] => destruct (host n c) as [r|e] end;
             simpl in E; enter_leaf E.
        -- enter_leaf E.
      * enter_leaf E.
    + enter_leaf E.
Qed.

(** Entering the summary page with a server chosen always resolves with
    [true], whether the import succeeds or fails: the table shows the five
    rows of the model, the loading indicator is off again, the wizard is
    told to show its import-another-file button, and a status text is
    set; the model itself is not changed. *)
Theorem summary_onPageEnter_completes
    (Number : string -> JsNumber) (host : Host) (w : World) (srv : Connection)
    (fuel : nat) :
  queue w = [] ->
  (4 <= fuel)%nat ->
  model_server (model (heap w)) = Some srv ->
  exists w',
    exec fuel host (onPageEnter Number) w = Some (w', Fulfilled true) /\
    loading (summary (heap w')) = false /\
    importAnotherFileVisible (heap w') = true /\
    tableData (summary (heap w')) = summary_rows srv (model (heap w)) /\
    model (heap w') = model (heap w) /\
    config (heap w') = config (heap w) /\
    queue w' = [] /\
    exists s,
      statusText (summary (heap w')) = Some s /\
      (s = msg_success_unknown \/ is_failure_text s).
Proof.
  intros Hq Hfuel Hsrv.
  destruct (onPageEnter_run Number host w srv Hq Hsrv) as [w' [E R]].
  exists w'. split; [|exact R].
  apply exec_more_fuel with (f := 4%nat); assumption.
Qed.

Lemma summary_onPageEnter_completes_witness :
  exists w',
    exec 4 (Examples.host_insert_throws (ThrownStr "timeout"))
      (onPageEnter (fun _ => NaN)) (fresh Examples.heap_c1)
    = Some (w', Fulfilled true) /\
    loading (summary (heap w')) = false /\
    importAnotherFileVisible (heap w') = true.
Proof.
  destruct (summary_onPageEnter_completes (fun _ => NaN)
              (Examples.host_insert_throws (ThrownStr "timeout"))
              (fresh Examples.heap_c1) Examples.c1 4 eq_refl (le_n 4) eq_refl)
    as [w' [E [L [V _]]]].
  exists w'. split; [exact E|]. split; [exact L | exact V].
Defined.

(** Entering the summary page while the model has no server: the page's
    promise is rejected with a [TypeError] from [populateTable], the host
    is asked nothing, and the loading indicator stays on. *)
Theorem summary_onPageEnter_without_server
    (Number : string -> JsNumber) (host : Host) (w : World) (fuel : nat) :
  queue w = [] ->
  (1 <= fuel)%nat ->
  model_server (model (heap w)) = None ->
  exists w',
    exec fuel host (onPageEnter Number) w
    = Some (w', Rejected (TypeError "providerName")) /\
    heap w' = set_summary (with_loading true) (heap w) /\
    loading (summary (heap w')) = true /\
    trace w' = trace w.
Proof.
  intros Hq Hfuel Hsrv.
  destruct w as [h tr q un]; simpl in Hq, Hsrv; subst q.
  eexists. split.
  - apply exec_more_fuel with (f := 1%nat); [|exact Hfuel].
    unfold exec, onPageEnter, populateTable. simpl. rewrite Hsrv. simpl.
    reflexivity.
  - simpl. repeat split.
Qed.

Lemma summary_onPageEnter_without_server_witness :
  exists w',
    exec 1 (Examples.host_ok "1" Examples.file_csv) (onPageEnter (fun _ => NaN))
      (fresh MoreExamples.heap_blank)
    = Some (w', Rejected (TypeError "providerName")) /\
    loading (summary (heap w')) = true.
Proof.
  destruct (summary_onPageEnter_without_server (fun _ => NaN)
              (Examples.host_ok "1" Examples.file_csv)
              (fresh MoreExamples.heap_blank) 1 eq_refl (le_n 1) eq_refl)
    as [w' [E [_ [L _]]]].
  exists w'. split; [exact E | exact L].
Defined.

(** Leaving the summary page undoes the visibility signal of entering it
    and nothing else: after [onPageEnter] and then [onPageLeave] the
    import-another-file flag is off, the rest of the heap is as
    [onPageEnter] left it, and [onPageLeave] asks the host nothing. *)
Theorem summary_enter_then_leave
    (Number : string -> JsNumber) (host : Host) (w : World) (srv : Connection)
    (fuel : nat) :
  queue w = [] ->
  (4 <= fuel)%nat ->
  model_server (model (heap w)) = Some srv ->
  exists w1 w2,
    exec fuel host (onPageEnter Number) w = Some (w1, Fulfilled true) /\
    exec fuel host onPageLeave w1 = Some (w2, Fulfilled true) /\
    importAnotherFileVisible (heap w1) = true /\
    heap w2 = set_importAnotherFileVisible false (heap w1) /\
    trace w2 = trace w1.
Proof.
  intros Hq Hfuel Hsrv.
  destruct (onPageEnter_run Number host w srv Hq Hsrv)
    as [w1 [E [_ [V [_ [_ [_ [Q1 _]]]]]]]].
  exists w1. eexists. split.
  { apply exec_more_fuel with (f := 4%nat); assumption. }
  split.
  - apply exec_more_fuel with (f := 1%nat); [|lia].
    unfold exec, onPageLeave. simpl. rewrite Q1. simpl. rewrite Q1. reflexivity.
  - simpl. repeat split. exact V.
Qed.

Lemma summary_enter_then_leave_witness :
  exists w1 w2,
    exec 4 (Examples.host_ok "42" Examples.file_csv) (onPageEnter (fun _ => NaN))
      (fresh Examples.heap_c1) = Some (w1, Fulfilled true) /\
    exec 4 (Examples.host_ok "42" Examples.file_csv) onPageLeave w1
    = Some (w2, Fulfilled true) /\
    importAnotherFileVisible (heap w1) = true /\
    importAnotherFileVisible (heap w2) = false.
Proof.
  destruct (summary_enter_then_leave (fun _ => NaN)
              (Examples.host_ok "42" Examples.file_csv) (fresh Examples.heap_c1)
              Examples.c1 4 eq_refl (le_n 4) eq_refl)
    as [w1 [w2 [E1 [E2 [V [H _]]]]]].
  exists w1, w2. split; [exact E1|]. split; [exact E2|]. split; [exact V|].
  rewrite H. reflexivity.
Defined.

(** [getCountRowsInserted] never yields a count: with a server chosen it
    resolves with [-1] whatever the query answers, and without one it
    rejects with a [TypeError] before the query is sent. *)
Theorem getCountRowsInserted_never_counts
    (Number : string -> JsNumber) (host : Host) (w : World) (fuel : nat) :
  queue w = [] ->
  (2 <= fuel)%nat ->
  (forall srv,
     model_server (model (heap w)) = Some srv ->
     exists w',
       exec fuel host (getCountRowsInserted Number) w
       = Some (w', Fulfilled (Num (-1))) /\
       model (heap w') = model (heap w) /\
       trace w' = (trace w ++
                   [RunQueryAndReturn (providerName srv) (connectionId srv)
                      (count_query (model_database (model (heap w)))
                                   (model_table (model (heap w))))])%list)
  /\
  (model_server (model (heap w)) = None ->
   exists w',
     exec fuel host (getCountRowsInserted Number) w
     = Some (w', Rejected (TypeError "providerName")) /\
     heap w' = heap w /\
     trace w' = trace w).
Proof.
  intros Hq Hfuel.
  destruct w as [h tr q un]; simpl in Hq; subst q. simpl. split.
  - intros srv Hsrv.
    destruct (host (List.length tr)
                (RunQueryAndReturn (providerName srv) (connectionId srv)
                   (count_query (model_database (model h)) (model_table (model h)))))
      as [r|e] eqn:Hrep;
      (eexists; split;
       [ apply exec_more_fuel with (f := 2%nat); [|exact Hfuel];
         unfold exec, getCountRowsInserted; simpl; rewrite Hsrv; simpl;
         rewrite Hsrv; simpl; rewrite Hrep; simpl; reflexivity
       | simpl; split; reflexivity ]).
  - intros Hsrv. eexists. split.
    + apply exec_more_fuel with (f := 2%nat); [|exact Hfuel].
      unfold exec, getCountRowsInserted. simpl. rewrite Hsrv. simpl. reflexivity.
    + simpl. split; reflexivity.
Qed.

Lemma getCountRowsInserted_never_counts_witness :
  exists w',
    exec 2 (Examples.host_ok "42" Examples.file_csv)
      (getCountRowsInserted (fun _ => Num 42)) (fresh Examples.heap_c1)
    = Some (w', Fulfilled (Num (-1))).
Proof.
  destruct (getCountRowsInserted_never_counts (fun _ => Num 42)
              (Examples.host_ok "42" Examples.file_csv) (fresh Examples.heap_c1) 2
              eq_refl (le_n 2)) as [H _].
  destruct (H Examples.c1 eq_refl) as [w' [E _]].
  exists w'. exact E.
Defined.

(** Running the commit again sends everything again: a second run of
    [handleImport] after a first one repeats all the column requests, the
    model being the same, before its own further requests. *)
Theorem handleImport_retry_resends_columns
    (Number : string -> JsNumber) (host : Host) (w : World) (fuel : nat) :
  queue w = [] ->
  (4 <= fuel)%nat ->
  let cols := column_requests (proseColumns (model (heap w))) 0 in
  exists w1 w2 rest1 rest2,
    exec fuel host (handleImport Number) w = Some (w1, Fulfilled true) /\
    exec fuel host (handleImport Number) w1 = Some (w2, Fulfilled true) /\
    model (heap w2) = model (heap w) /\
    trace w2 = (trace w ++ cols ++ rest1 ++ cols ++ rest2)%list /\
    forallb (fun c => negb (is_column_request c)) rest1 = true /\
    forallb (fun c => negb (is_column_request c)) rest2 = true.
Proof.
  intros Hq Hfuel cols.
  destruct (handleImport_heap Number host w Hq) as [w1 [E1 [M1 [_ [_ [_ [_ [Q1 _]]]]]]]].
  destruct (handleImport_trace Number host w Hq) as [w1' [rest1 [E1' [T1 [N1 _]]]]].
  rewrite E1 in E1'. injection E1' as <-.
  destruct (handleImport_heap Number host w1 Q1) as [w2 [E2 [M2 _]]].
  destruct (handleImport_trace Number host w1 Q1) as [w2' [rest2 [E2' [T2 [N2 _]]]]].
  rewrite E2 in E2'. injection E2' as <-.
  exists w1, w2, rest1, rest2.
  split; [apply exec_more_fuel with (f := 4%nat); assumption|].
  split; [apply exec_more_fuel with (f := 4%nat); assumption|].
  split; [now rewrite M2|].
  split; [|now split].
  rewrite T2, T1, M1. unfold cols. now rewrite <- !app_assoc.
Qed.

Lemma handleImport_retry_resends_columns_witness :
  exists w1 w2 rest1 rest2,
    exec 4 (Examples.host_insert_throws (ThrownStr "timeout"))
      (handleImport (fun _ => NaN)) (fresh Examples.heap_c1)
    = Some (w1, Fulfilled true) /\
    exec 4 (Examples.host_insert_throws (ThrownStr "timeout"))
      (handleImport (fun _ => NaN)) w1 = Some (w2, Fulfilled true) /\
    trace w2 = (column_requests [Examples.column_a] 0 ++ rest1 ++
                column_requests [Examples.column_a] 0 ++ rest2)%list.
Proof.
  destruct (handleImport_retry_resends_columns (fun _ => NaN)
              (Examples.host_insert_throws (ThrownStr "timeout"))
              (fresh Examples.heap_c1) 4 eq_refl (le_n 4))
    as [w1 [w2 [rest1 [rest2 [E1 [E2 [_ [T _]]]]]]]].
  exists w1, w2, rest1, rest2. split; [exact E1|]. split; [exact E2 | exact T].
Defined.

End ImportMoreFacts.

(* ===================================================================== *)
(** ** Facts about the enumerations                                       *)
(* ===================================================================== *)

Module EnumFacts.

Section MaskFacts.

Variable E : Type.
Variable value : E -> Z.
Variable flag : E -> bool.

(** Two flags meet exactly when they are the same flag. *)
Hypothesis flags_meet :
  forall x a, flag x = true -> flag a = true ->
    (Z.land (value x) (value a) <> 0 <-> x = a).

(** A flag is in a combination of flags exactly when it was put there. *)
Lemma mask_member (l : list E) (a : E) :
  forallb flag l = true -> flag a = true ->
  (In a l <-> Z.land (mask value l) (value a) <> 0).
Proof.
  intros Hl Ha. induction l as [|x l IH]; simpl in *.
  - split; [tauto | intros H; now apply H].
  - apply andb_true_iff in Hl as [Hx Hl].
    rewrite Z.land_lor_distr_l.
    specialize (IH Hl). specialize (flags_meet x a Hx Ha).
    split.
    + intros [<- | I] Z0; apply Z.lor_eq_0_iff in Z0 as [Z1 Z2].
      * now apply (proj2 flags_meet).
      * now apply (proj1 IH).
    + intros N.
      destruct (Z.eq_dec (Z.land (value x) (value a)) 0) as [Z1|N1].
      * right. apply IH. intros Z2. apply N. apply Z.lor_eq_0_iff. now split.
      * left. now apply flags_meet.
Qed.

End MaskFacts.

(** The composite members of [WeekDays] are the combinations of the days
    they name: [weekDays] is Monday to Friday, [weekEnds] is Saturday and
    Sunday, the two have no day in common and [everyDay] is both together.
    The seven day flags are distinct bits: a day is in a combination of
    days exactly when it was put there. *)
Theorem WeekDays_masks :
  WeekDays.value WeekDays.weekDays
  = mask WeekDays.value
      [WeekDays.monday; WeekDays.tuesday; WeekDays.wednesday; WeekDays.thursday;
       WeekDays.friday] /\
  WeekDays.value WeekDays.weekEnds
  = mask WeekDays.value [WeekDays.saturday; WeekDays.sunday] /\
  WeekDays.value WeekDays.everyDay
  = Z.lor (WeekDays.value WeekDays.weekDays) (WeekDays.value WeekDays.weekEnds) /\
  Z.land (WeekDays.value WeekDays.weekDays) (WeekDays.value WeekDays.weekEnds) = 0 /\
  forall (l : list WeekDays.t) (a : WeekDays.t),
    forallb WeekDays.single_day l = true ->
    WeekDays.single_day a = true ->
    (In a l <-> Z.land (mask WeekDays.value l) (WeekDays.value a) <> 0).
Proof.
  repeat split; try reflexivity.
  - apply mask_member with (flag := WeekDays.single_day); try assumption.
    intros x b Hx Hb. destruct x, b; try discriminate;
      (split; [intros N; first [reflexivity | exfalso; now apply N]
              | intros Eq; first [discriminate Eq | discriminate]]).
  - apply mask_member with (flag := WeekDays.single_day); try assumption.
    intros x b Hx Hb. destruct x, b; try discriminate;
      (split; [intros N; first [reflexivity | exfalso; now apply N]
              | intros Eq; first [discriminate Eq | discriminate]]).
Qed.

(** Deciding whether two flags of a finite enumeration meet, member by
    member. *)
Ltac meet_cases x b :=
  destruct x, b; try discriminate;
  (split; [ intros N; first [reflexivity | exfalso; now apply N]
          | intros Eq; first [discriminate Eq | discriminate] ]).

(** [notifyAll] is the combination of the three ways of notifying, [none]
    is the empty combination, and the three ways are distinct bits: a way
    is in a combination exactly when it was put there. *)
Theorem NotifyMethods_masks :
  NotifyMethods.value NotifyMethods.notifyAll
  = mask NotifyMethods.value
      [NotifyMethods.notifyEmail; NotifyMethods.pager; NotifyMethods.netSend] /\
  NotifyMethods.value NotifyMethods.none = mask NotifyMethods.value [] /\
  forall (l : list NotifyMethods.t) (a : NotifyMethods.t),
    forallb NotifyMethods.single_method l = true ->
    NotifyMethods.single_method a = true ->
    (In a l <-> Z.land (mask NotifyMethods.value l) (NotifyMethods.value a) <> 0).
Proof.
  repeat split; try reflexivity.
  - apply mask_member with (flag := NotifyMethods.single_method); try assumption.
    intros x b Hx Hb. meet_cases x b.
  - apply mask_member with (flag := NotifyMethods.single_method); try assumption.
    intros x b Hx Hb. meet_cases x b.
Qed.

(** The frequency types other than [Unknown] are distinct single bits
    among bits 1 to 7: a type is in a combination of types exactly when it
    was put there.  [Unknown] is 0 and adds nothing to a combination, and
    no member uses bit 0. *)
Theorem FrequencyTypes_masks :
  (forall f, known_frequency f = true ->
     exists k, 1 <= k <= 7 /\ FrequencyTypes.value f = 2 ^ k) /\
  (forall f, Z.testbit (FrequencyTypes.value f) 0 = false) /\
  (forall l, mask FrequencyTypes.value (FrequencyTypes.Unknown :: l)
             = mask FrequencyTypes.value l) /\
  forall (l : list FrequencyTypes.t) (a : FrequencyTypes.t),
    forallb known_frequency l = true ->
    known_frequency a = true ->
    (In a l <-> Z.land (mask FrequencyTypes.value l) (FrequencyTypes.value a) <> 0).
Proof.
  split; [|split; [|split]].
  - intros f H. destruct f; try discriminate;
      [exists 1 | exists 2 | exists 3 | exists 4 | exists 5 | exists 6 | exists 7];
      (split; [lia | reflexivity]).
  - intros f. now destruct f.
  - intros l. reflexivity.
  - intros l a Hl Ha.
    apply mask_member with (flag := known_frequency); try assumption.
    intros x b Hx Hb. meet_cases x b.
Qed.

Lemma icons_ok : forallb icon_ok SqlThemeIcon.statics = true.
Proof. vm_compute. reflexivity. Qed.

(** No two static members of [SqlThemeIcon] share an [id]: looking a
    member's [id] up in the table finds that member.  A member's [id] is
    its own name, except for [Root], whose [id] is [root]. *)
Theorem SqlThemeIcon_id_identifies (name : string) (icon : SqlThemeIcon.t) :
  In (name, icon) SqlThemeIcon.statics ->
  SqlThemeIcon.by_id (SqlThemeIcon.id icon) = Some (name, icon) /\
  (SqlThemeIcon.id icon = name \/
   (name = "Root" /\ SqlThemeIcon.id icon = "root")).
Proof.
  intros I.
  pose proof (proj1 (forallb_forall icon_ok SqlThemeIcon.statics) icons_ok _ I) as H.
  unfold icon_ok in H. cbn [fst snd] in H.
  destruct (SqlThemeIcon.by_id (SqlThemeIcon.id icon)) as [[n [i]]|]; [|discriminate].
  cbn [fst snd SqlThemeIcon.id] in H.
  apply andb_true_iff in H as [H1 H2]. apply andb_true_iff in H1 as [Hn Hi].
  apply String.eqb_eq in Hn, Hi. subst n. destruct icon as [i']. simpl in *. subst i.
  split; [reflexivity|].
  apply orb_true_iff in H2 as [H2|H2].
  - left. now apply String.eqb_eq.
  - right. apply andb_true_iff in H2 as [A B]. now rewrite String.eqb_eq in A, B.
Qed.

Lemma SqlThemeIcon_id_identifies_witness :
  SqlThemeIcon.by_id "root" = Some ("Root", SqlThemeIcon.Root).
Proof.
  refine (proj1 (SqlThemeIcon_id_identifies "Root" SqlThemeIcon.Root _)).
  vm_compute. do 1 right. left. reflexivity.
Defined.

End EnumFacts.
